(** * competitive-tester: test discovery, execution and judging

    A shallow embedding of [tester.py]: [get_tests] (discovery of the
    four test formats in a test directory), [run_tests] (one run of the
    program per test, followed by the judge) and the final report of
    [main].

    Python values are modelled as follows.
    - A [str] is the list of its code points.
    - The [tests] dictionary is an association list in insertion order,
      updated in place when a key is assigned twice, as a Python [dict] is.
    - A test tuple [(type, input, output)] is the tagged value [test].
    - Exceptions are the [Raise] results of [pyres]; printing and the
      exceptions of the running code are threaded by the monad [M].
    - The program under test is an oracle from the text on its standard
      input to its exit status, its decoded standard output and the
      formatted elapsed time.

    The script is modelled at two levels.  The functions of [Module OS]
    take what the library calls answer for the paths and the module
    names that the script computes: the glob with its reading of the
    directory path as a pattern, files that cannot be read, runs of the
    program that do not complete.  The functions [get_tests],
    [run_tests] and [main] outside that module are the same code for a
    test directory that is given by its listing, all of whose files are
    read as text, and for a program that completes at every run;
    [discovery_depends_on_listing] relates the two levels. *)

From Stdlib Require Import Ascii String DecimalString.
From Stdlib Require Import List Bool Arith NArith ZArith Lia.
From Stdlib Require Import SpecFloat.
Import ListNotations.

Set Implicit Arguments.

(** ** Strings *)

Definition str := list N.

(** The code points of an ASCII literal. *)
Definition lit (s : string) : str :=
  map N_of_ascii (list_ascii_of_string s).

Fixpoint str_eqb (a b : str) : bool :=
  match a, b with
  | [], [] => true
  | x :: a', y :: b' => N.eqb x y && str_eqb a' b'
  | _, _ => false
  end.

(** [str.isspace] on one code point: the white space table of CPython
    ([_PyUnicode_IsWhitespace]). *)
Definition isspace (c : N) : bool :=
  ((9 <=? c) && (c <=? 13) || (28 <=? c) && (c <=? 32)
   || (c =? 133) || (c =? 160) || (c =? 5760)
   || (8192 <=? c) && (c <=? 8202)
   || (c =? 8232) || (c =? 8233) || (c =? 8239) || (c =? 8287)
   || (c =? 12288))%N.

Fixpoint lstrip (s : str) : str :=
  match s with
  | [] => []
  | c :: s' => if isspace c then lstrip s' else s
  end.

Definition rstrip (s : str) : str := rev (lstrip (rev s)).

(** [s.strip()] *)
Definition strip (s : str) : str := rstrip (lstrip s).

(** [s[:-3]] *)
Definition drop_last3 (s : str) : str := firstn (length s - 3) s.

Fixpoint startswith (p s : str) : bool :=
  match p, s with
  | [], _ => true
  | x :: p', y :: s' => N.eqb x y && startswith p' s'
  | _ :: _, [] => false
  end.

Definition endswith (p s : str) : bool := startswith (rev p) (rev s).

(** [str(n)] for an [int]. *)
Definition str_of_Z (z : Z) : str := lit (NilZero.string_of_int (Z.to_int z)).
Definition str_of_nat (n : nat) : str := str_of_Z (Z.of_nat n).

(** ** Exceptions and results *)

Inductive exn : Type :=
| TypeError
| AttributeError
| ImportError
| JSONDecodeError
| ZeroDivisionError
| OverflowError
| ValueError
| CalledProcessError (returncode : Z) (stdout : str)
| SystemExit (code : Z)
| OSError
| UnicodeError
| Exception (msg : str).

Inductive pyres (A : Type) : Type :=
| Ok (a : A)
| Raise (e : exn).
Arguments Ok {A} a.
Arguments Raise {A} e.

(** The exit status of the interpreter for a script that ended by
    returning, by [sys.exit] or by an exception nobody caught. *)
Definition exit_status {A} (r : pyres A) : Z :=
  match r with
  | Ok _ => 0
  | Raise (SystemExit code) => code
  | Raise _ => 1
  end.

(** ** Tests *)

(** What [importlib.import_module(...).test] or the variable [alltests]
    holds: [None], a function of one positional parameter, or a function
    of two.  A checker returns a truth value or raises. *)
Inductive pyobj : Type :=
| PyNone
| PyFun1 (f : str -> pyres bool)
| PyFun2 (f : str -> str -> pyres bool).

(** The call [obj(a, b)]. *)
Definition call2 (obj : pyobj) (a b : str) : pyres bool :=
  match obj with
  | PyFun2 f => f a b
  | PyFun1 _ => Raise TypeError
  | PyNone => Raise TypeError
  end.

(** The tuples [('static', input, output)] and
    [('checker', input, checker)]. *)
Inductive test : Type :=
| Static (test_input test_output : str)
| Checker (test_input : str) (checker : pyobj).

Definition test_type (t : test) : str :=
  match t with
  | Static _ _ => lit "static"
  | Checker _ _ => lit "checker"
  end.

(** ** Dictionaries in insertion order *)

Definition dict (V : Type) := list (str * V).

Fixpoint dict_set {V} (k : str) (v : V) (d : dict V) : dict V :=
  match d with
  | [] => [(k, v)]
  | (k', v') :: d' =>
      if str_eqb k k' then (k', v) :: d' else (k', v') :: dict_set k v d'
  end.

Fixpoint dict_get {V} (k : str) (d : dict V) : option V :=
  match d with
  | [] => None
  | (k', v') :: d' => if str_eqb k k' then Some v' else dict_get k d'
  end.

Definition tests := dict test.

(** ** The test directory *)

(** A regular file of the test directory that is read as text: its
    text, what importing it as a module and taking the attribute [test]
    gives, and what [json.load] gives for it (a manifest whose values
    are lists of strings).  [OS.files] has the entries that cannot be
    read. *)
Record file : Type := {
  content : str;
  module_test : pyres pyobj;
  json_load : pyres (dict (list str))
}.

Definition text_file (s : str) : file :=
  {| content := s; module_test := Raise ImportError;
     json_load := Raise JSONDecodeError |}.

Definition py_module (t : pyobj) : file :=
  {| content := []; module_test := Ok t;
     json_load := Raise JSONDecodeError |}.

Definition json_file (m : dict (list str)) : file :=
  {| content := []; module_test := Raise ImportError; json_load := Ok m |}.

(** The directory listing: file names (without the directory part) and
    files, in the order in which the system lists them. *)
Definition directory := list (str * file).

Definition isfile (d : directory) (name : str) : bool :=
  match dict_get name d with Some _ => true | None => false end.

(** [glob.glob(os.path.join(test_dir, '*.in'))] for a test directory
    whose path has no pattern character: the names ending in [.in],
    hidden files left out.  [OS.glob] has the reading of the path as a
    pattern. *)
Definition glob_in (d : directory) : list (str * file) :=
  filter (fun e => negb (startswith (lit ".") (fst e))
                   && endswith (lit ".in") (fst e)) d.

(** ** Sequencing of code that may raise *)

Declare Scope pyres_scope.
Delimit Scope pyres_scope with pyres.

Definition pyres_bind {A B} (m : pyres A) (k : A -> pyres B) : pyres B :=
  match m with
  | Ok a => k a
  | Raise e => Raise e
  end.

Notation "x <- m ;; k" := (pyres_bind m (fun x => k))
  (at level 61, m at next level, right associativity) : pyres_scope.

(** A [for] loop whose body may raise. *)
Fixpoint for_each {A S} (body : S -> A -> pyres S) (l : list A) (s : S)
  : pyres S :=
  match l with
  | [] => Ok s
  | a :: l' => pyres_bind (body s a) (for_each body l')
  end.

(** ** get_tests *)

Definition is_not_none (o : pyobj) : bool :=
  match o with
  | PyNone => false
  | _ => true
  end.

(** The import of [ALLTESTS.py], when the file exists. *)
Definition import_alltests (test_dir : directory) : pyres pyobj :=
  match dict_get (lit "ALLTESTS.py") test_dir with
  | Some f => module_test f
  | None => Ok PyNone
  end.

(** The body of the loop over the [.in] files; [x] is one result of the
    glob. *)
Definition in_file_tests (test_dir : directory) (alltests : pyobj)
  (tests0 : tests) (x : str * file) : pyres tests :=
  (let name := drop_last3 (fst x) in
   let test_input := content (snd x) in
   let tests1 :=
     match dict_get (name ++ lit ".out") test_dir with
     | Some f =>
         dict_set (name ++ lit "#in/out") (Static test_input (content f))
           tests0
     | None => tests0
     end in
   tests2 <-
     match dict_get (name ++ lit ".py") test_dir with
     | Some f =>
         checker <- module_test f ;;
         Ok (dict_set (name ++ lit "#in/py") (Checker test_input checker)
               tests1)
     | None => Ok tests1
     end ;;
   Ok (if is_not_none alltests
       then dict_set (name ++ lit "#in/atpy") (Checker test_input alltests)
              tests2
       else tests2))%pyres.

(** The body of the loop over the items of [TESTS.json]. *)
Definition json_test (alltests : pyobj) (tests0 : tests)
  (item : str * list str) : tests :=
  let '(name, t) := item in
  match t with
  | [t0] => dict_set (name ++ lit "#json/atpy") (Checker t0 alltests) tests0
  | [t0; t1] => dict_set (name ++ lit "#json") (Static t0 t1) tests0
  | _ => tests0
  end.

Definition get_tests (test_dir : directory) : pyres tests :=
  (alltests <- import_alltests test_dir ;;
   tests1 <- for_each (in_file_tests test_dir alltests) (glob_in test_dir) [] ;;
   match dict_get (lit "TESTS.json") test_dir with
   | Some f =>
       manifest <- json_load f ;;
       Ok (fold_left (json_test alltests) manifest tests1)
   | None => Ok tests1
   end)%pyres.

(** ** Printing and the program under test *)

(** One call of a printing function of the script. *)
Inductive output : Type :=
| Inprogress (text : str)
| Success (text : str)
| Error (text : str) (prefix icon : bool)
| Blank.

(** Code that prints and may raise: the lines printed so far go in, the
    result and the lines printed up to the return or the exception come
    out. *)
Definition M (A : Type) : Type := list output -> pyres A * list output.

Definition ret {A} (a : A) : M A := fun out => (Ok a, out).

Definition raise {A} (e : exn) : M A := fun out => (Raise e, out).

Definition bind {A B} (m : M A) (k : A -> M B) : M B :=
  fun out =>
    match m out with
    | (Ok a, out') => k a out'
    | (Raise e, out') => (Raise e, out')
    end.

Definition lift {A} (r : pyres A) : M A := fun out => (r, out).

Definition emit (o : output) : M unit := fun out => (Ok tt, out ++ [o]).

Declare Scope M_scope.
Delimit Scope M_scope with M.

Notation "x <- m ;; k" := (bind m (fun x => k))
  (at level 61, m at next level, right associativity) : M_scope.
Notation "m ;; k" := (bind m (fun _ => k))
  (at level 61, right associativity) : M_scope.

(** [try: body except ...: handler]; [handler] answers [None] for the
    exceptions that the clause does not catch. *)
Definition try_except {A} (body : M A) (handler : exn -> option (M A))
  : M A :=
  fun out =>
    match body out with
    | (Ok a, out') => (Ok a, out')
    | (Raise e, out') =>
        match handler e with
        | Some h => h out'
        | None => (Raise e, out')
        end
    end.

Definition print_error (text : str) (exit_program prefix icon : bool)
  : M unit :=
  (emit (Error text prefix icon) ;;
   if exit_program then raise (SystemExit 1) else ret tt)%M.

Definition print_success (text : str) : M unit := emit (Success text).

Definition print_inprogress (text : str) : M unit := emit (Inprogress text).

(** What one run of the program gives when it completes: the exit
    status, the decoded standard output, and the elapsed time as the
    format [.3f] writes it. *)
Record completed : Type := {
  returncode : Z;
  stdout : str;
  run_time : str
}.

(** A program that is started at every run, with input and output that
    are UTF-8 text.  [OS.process] has the runs that do not complete. *)
Definition program := str -> completed.

(** [subprocess.run([program], input=..., stdout=PIPE, check=True)] for
    such a program. *)
Definition subprocess_run (prog : program) (input : str) : M completed :=
  let proc := prog input in
  if (returncode proc =? 0)%Z then ret proc
  else raise (CalledProcessError (returncode proc) (stdout proc)).

(** ** run_tests *)

Definition input_of (t : test) : str :=
  match t with
  | Static test_input _ => test_input
  | Checker test_input _ => test_input
  end.

(** The lines that follow a failed static comparison. *)
Definition static_diagnostic (test_output actual_output : str) : M unit :=
  (if (100 <? length test_output) || (100 <? length actual_output)
   then print_error (lit " (Output too long to print.)") false false false
   else
     print_error (lit " Expected output:") false false false ;;
     print_error test_output false false false ;;
     print_error (lit " Actual output:") false false false ;;
     print_error actual_output false false false)%M.

(** The lines that follow a checker that answered false. *)
Definition checker_diagnostic (actual_output : str) : M unit :=
  (if 100 <? length actual_output
   then print_error (lit " (Output too long to print.)") false false false
   else
     print_error (lit " Output:") false false false ;;
     print_error actual_output false false false)%M.

(** The [except subprocess.CalledProcessError as err] clause. *)
Definition called_process_error (passed_tests : nat) (e : exn)
  : option (M nat) :=
  match e with
  | CalledProcessError code out =>
      Some
        (print_error (lit "Failed!") false false true ;;
         print_error
           (lit " Program exited with non-zero exit code " ++ str_of_Z code
              ++ lit ".") false false true ;;
         (if 100 <? length out
          then
            print_error (lit " (Output too long to print.)") false false false
          else
            print_error (lit " Output:") false false false ;;
            print_error (lit " " ++ out) false false false) ;;
         ret passed_tests)%M
  | _ => None
  end.

(** The part of the loop body after the run: the judge. *)
Definition judge (passed_tests : nat) (t : test) (proc : completed) : M nat :=
  (let actual_output := strip (stdout proc) in
   match t with
   | Static _ test_output =>
       if str_eqb actual_output (strip test_output)
       then
         print_success (lit "Passed (" ++ run_time proc ++ lit "s)!") ;;
         ret (S passed_tests)
       else
         print_error (lit "Failed (" ++ run_time proc ++ lit "s)!")
           false false true ;;
         static_diagnostic test_output actual_output ;;
         ret passed_tests
   | Checker test_input test_output =>
       verdict <- lift (call2 test_output test_input actual_output) ;;
       if verdict : bool
       then
         print_success (lit "Passed (" ++ run_time proc ++ lit "s)!") ;;
         ret (S passed_tests)
       else
         print_error (lit "Failed (" ++ run_time proc ++ lit "s)!")
           false false true ;;
         checker_diagnostic actual_output ;;
         ret passed_tests
   end)%M.

(** One turn of the loop of [run_tests]; the result is the new value of
    [passed_tests]. *)
Definition run_test (prog : program) (passed_tests : nat) (item : str * test)
  : M nat :=
  (let '(name, t) := item in
   print_inprogress
     (lit "Running " ++ test_type t ++ lit " test " ++ name ++ lit "...") ;;
   try_except
     (proc <- subprocess_run prog (input_of t) ;;
      judge passed_tests t proc)
     (called_process_error passed_tests))%M.

Fixpoint for_items (prog : program) (items : tests) (passed_tests : nat)
  : M nat :=
  match items with
  | [] => ret passed_tests
  | item :: items' =>
      bind (run_test prog passed_tests item) (for_items prog items')
  end.

Definition run_tests (prog : program) (ts : tests) : M nat :=
  for_items prog ts 0.

(** ** The final report of main *)

Definition binary64 (z : Z) : spec_float := binary_normalize 53 1024 z 0 false.

(** [a / b] on two counts: the quotient as a double, or
    [ZeroDivisionError]. *)
Definition truediv (a b : nat) : pyres spec_float :=
  if b =? 0 then Raise ZeroDivisionError
  else Ok (SFdiv 53 1024 (binary64 (Z.of_nat a)) (binary64 (Z.of_nat b))).

(** The integer nearest to [m * 2 ^ e], the even one of two at the same
    distance. *)
Definition nearest_even (m : positive) (e : Z) : Z :=
  match e with
  | Zneg p =>
      let d := Z.pow 2 (Zpos p) in
      let q := Z.div (Zpos m) d in
      let r := Z.modulo (Zpos m) d in
      match Z.compare (2 * r) d with
      | Lt => q
      | Gt => q + 1
      | Eq => if Z.even q then q else q + 1
      end
  | _ => Zpos m * Z.pow 2 e
  end%Z.

(** [round(x)] for a float. *)
Definition py_round (x : spec_float) : pyres Z :=
  match x with
  | S754_zero _ => Ok 0%Z
  | S754_infinity _ => Raise OverflowError
  | S754_nan => Raise ValueError
  | S754_finite s m e => Ok (cond_Zopp s (nearest_even m e))
  end.

(** [round(passed/len(tests)*100)] *)
Definition percentage (passed total : nat) : pyres Z :=
  (q <- truediv passed total ;;
   py_round (SFmul 53 1024 q (binary64 100)))%pyres.

(** The lines of [main] from the call of [get_tests] on, for the test
    directory and the executable that [init] and the compilation leave. *)
Definition main (test_dir : directory) (prog : program) : M unit :=
  (ts <- lift (get_tests test_dir) ;;
   passed <- run_tests prog ts ;;
   emit Blank ;;
   if passed =? length ts
   then print_success (lit "All tests passed!")
   else
     pct <- lift (percentage passed (length ts)) ;;
     print_error
       (lit "Passed " ++ str_of_nat passed ++ lit " out of "
          ++ str_of_nat (length ts) ++ lit " tests (" ++ str_of_Z pct
          ++ lit "%).") false false true)%M.

(** ** Notions for the statements *)

(** The tags that the loop over the [.in] files puts after a base
    name. *)
Definition in_tags : list str :=
  [lit "#in/out"; lit "#in/py"; lit "#in/atpy"].

(** What discovery has recorded for the input file [x]: its static test
    when the paired output exists, its checker test when the checker
    module exists, and its test with the shared checker when there is
    one. *)
Definition recorded (test_dir : directory) (alltests : pyobj)
  (x : str * file) (ts : tests) : Prop :=
  let name := drop_last3 (fst x) in
  (forall f, dict_get (name ++ lit ".out") test_dir = Some f ->
             dict_get (name ++ lit "#in/out") ts
             = Some (Static (content (snd x)) (content f)))
  /\ (forall f, dict_get (name ++ lit ".py") test_dir = Some f ->
                exists chk, module_test f = Ok chk /\
                  dict_get (name ++ lit "#in/py") ts
                  = Some (Checker (content (snd x)) chk))
  /\ (is_not_none alltests = true ->
      dict_get (name ++ lit "#in/atpy") ts
      = Some (Checker (content (snd x)) alltests)).

(** The lines of the [except] clause. *)
Definition execution_failure_lines (code : Z) (out : str) : list output :=
  [Error (lit "Failed!") false true;
   Error (lit " Program exited with non-zero exit code " ++ str_of_Z code
            ++ lit ".") false true]
  ++ (if 100 <? length out
      then [Error (lit " (Output too long to print.)") false false]
      else [Error (lit " Output:") false false;
            Error (lit " " ++ out) false false]).

(** The line of the report when some test did not pass. *)
Definition tally_line (passed total : nat) (pct : Z) : output :=
  Error (lit "Passed " ++ str_of_nat passed ++ lit " out of "
           ++ str_of_nat total ++ lit " tests (" ++ str_of_Z pct
           ++ lit "%).") false true.

(** A double that is zero, or finite with an exponent of at least [lo]
    and a value below [2 ^ hi]. *)
Definition sized (lo hi : Z) (x : spec_float) : Prop :=
  match x with
  | S754_zero _ => True
  | S754_finite _ m e => (lo <= e /\ Zpos (digits2_pos m) + e <= hi)%Z
  | _ => False
  end.

(** ** Example directories and programs *)

Module Examples.

(** The text [5] and a line end; the text [25] and a line end. *)
Definition five : str := lit "5" ++ [10%N].
Definition twenty_five : str := lit "25" ++ [10%N].

(** A shared checker that accepts the square of the input. *)
Definition square_checker : pyobj :=
  PyFun2 (fun i o => Ok (str_eqb (strip i) (lit "5")
                         && str_eqb o (lit "25"))).

(** A per-test checker as the documentation of the script describes
    it: one parameter, the output. *)
Definition output_checker : pyobj :=
  PyFun1 (fun o => Ok (str_eqb o (lit "25"))).

Definition foo_dir : directory :=
  [(lit "foo.in", text_file five); (lit "foo.out", text_file twenty_five);
   (lit "foo.py", py_module output_checker);
   (lit "ALLTESTS.py", py_module square_checker)].

(** An input file with its paired output, and a shared checker. *)
Definition paired_and_bulk_dir : directory :=
  [(lit "foo.in", text_file five); (lit "foo.out", text_file twenty_five);
   (lit "ALLTESTS.py", py_module square_checker)].

(** An input file with its per-test checker only. *)
Definition per_test_checker_dir : directory :=
  [(lit "foo.in", text_file five);
   (lit "foo.py", py_module output_checker)].

(** An input file with its paired output only. *)
Definition paired_dir : directory :=
  [(lit "foo.in", text_file five); (lit "foo.out", text_file twenty_five)].

(** A manifest with one entry of three elements. *)
Definition three_element_dir : directory :=
  [(lit "TESTS.json",
    json_file [(lit "t3", [five; twenty_five; lit "x"])])].

(** A manifest with one entry that has an input only, and no
    [ALLTESTS.py]. *)
Definition input_only_dir : directory :=
  [(lit "TESTS.json", json_file [(lit "t1", [five])])].

(** An input file without a paired output or a checker, and a file
    that is no test. *)
Definition notes_dir : directory :=
  [(lit "foo.in", text_file five);
   (lit "notes.txt", text_file (lit "nothing here"))].

(** Programs: the square of five, a wrong answer, and two that exit
    with status 2, after a short and after a long output. *)
Definition squares : program :=
  fun _ => {| returncode := 0; stdout := twenty_five;
              run_time := lit "0.001" |}.

Definition wrong : program :=
  fun _ => {| returncode := 0; stdout := lit "26";
              run_time := lit "0.001" |}.

Definition crashes : program :=
  fun _ => {| returncode := 2; stdout := lit "oops";
              run_time := lit "0.001" |}.

Definition crashes_loudly : program :=
  fun _ => {| returncode := 2; stdout := repeat 120%N 101;
              run_time := lit "0.001" |}.

End Examples.

(** ** Paths *)

Definition is_sep (c : N) : bool := N.eqb c 47.

(** The rest of a text from its first [/] on. *)
Fixpoint from_sep (s : str) : str :=
  match s with
  | [] => []
  | c :: s' => if is_sep c then s else from_sep s'
  end.

Fixpoint lstrip_sep (s : str) : str :=
  match s with
  | [] => []
  | c :: s' => if is_sep c then lstrip_sep s' else s
  end.

(** [head.rstrip('/')] *)
Definition rstrip_sep (s : str) : str := rev (lstrip_sep (rev s)).

Definition nonempty (s : str) : bool :=
  match s with
  | [] => false
  | _ :: _ => true
  end.

(** [os.path.dirname(p)] for POSIX paths: the text up to the last [/],
    without its trailing slashes unless it is made of slashes only. *)
Definition dirname (p : str) : str :=
  let head := rev (from_sep (rev p)) in
  if nonempty head && negb (forallb is_sep head)
  then rstrip_sep head
  else head.

Definition better_dirname (p : str) : str :=
  if nonempty (dirname p) then dirname p else lit ".".

(** [os.path.join(a, b)] for POSIX paths. *)
Definition join (a b : str) : str :=
  if startswith (lit "/") b then b
  else if negb (nonempty a) || endswith (lit "/") a then a ++ b
  else a ++ lit "/" ++ b.

(** ** init *)

(** The namespace that [parse_args] returns. *)
Record args : Type := {
  arg_test_dir : option str;
  arg_auto : bool;
  arg_program : str
}.

(** The truth value of [args.test_dir]: [None] and the empty text are
    false. *)
Definition given (o : option str) : bool :=
  match o with
  | Some s => nonempty s
  | None => false
  end.

(** The text of [args.test_dir] where it is a text. *)
Definition text_of (o : option str) : str :=
  match o with
  | Some s => s
  | None => []
  end.

(** What [os.path.isfile] and [os.path.isdir] answer. *)
Record filesystem : Type := {
  fs_isfile : str -> bool;
  fs_isdir : str -> bool
}.

(** What [init] prints: lines of the printing functions that the tests
    use too, and lines of [print_info]. *)
Inductive console : Type :=
| Script (o : output)
| Info (text : str).

(** Code of [init]: it prints and may raise, as the code in [M]. *)
Definition C (A : Type) : Type := list console -> pyres A * list console.

Definition C_ret {A} (a : A) : C A := fun out => (Ok a, out).

Definition C_bind {A B} (m : C A) (k : A -> C B) : C B :=
  fun out =>
    match m out with
    | (Ok a, out') => k a out'
    | (Raise e, out') => (Raise e, out')
    end.

(** A call of a printing function of [M]. *)
Definition script {A} (m : M A) : C A :=
  fun out => let '(r, lines) := m [] in (r, out ++ map Script lines).

Definition print_info (text : str) : C unit :=
  fun out => (Ok tt, out ++ [Info text]).

Declare Scope C_scope.
Delimit Scope C_scope with C.

Notation "x <- m ;; k" := (C_bind m (fun x => k))
  (at level 61, m at next level, right associativity) : C_scope.
Notation "m ;; k" := (C_bind m (fun _ => k))
  (at level 61, right associativity) : C_scope.

(** [if cond: print_error(text)], with the default arguments of
    [print_error]. *)
Definition error_if (cond : bool) (text : str) : C unit :=
  if cond then script (print_error text true true true) else C_ret tt.

(** [init], after [parse_args] has returned [a]; the result is the
    namespace and [sys.path]. *)
Definition init (fs : filesystem) (sys_path : list (option str)) (a : args)
  : C (args * list (option str)) :=
  (error_if (negb (fs_isfile fs (arg_program a)))
     (lit "File does not exist: " ++ arg_program a) ;;
   a1 <-
     (if negb (given (arg_test_dir a)) && negb (arg_auto a)
      then
        print_info (lit "Enabling --auto mode.") ;;
        C_ret {| arg_test_dir := arg_test_dir a; arg_auto := true;
                 arg_program := arg_program a |}
      else C_ret a) ;;
   error_if (given (arg_test_dir a1) && arg_auto a1)
     (lit "Only one of --test-dir or --auto must be provided.") ;;
   error_if (given (arg_test_dir a1)
             && negb (fs_isdir fs (text_of (arg_test_dir a1))))
     (lit "Directory does not exist: " ++ text_of (arg_test_dir a1)) ;;
   a2 <-
     (if arg_auto a1
      then
        let dir := better_dirname (arg_program a1) in
        if fs_isdir fs (join dir (lit "tests"))
        then C_ret {| arg_test_dir := Some (join dir (lit "tests"));
                      arg_auto := arg_auto a1;
                      arg_program := arg_program a1 |}
        else if fs_isdir fs dir
        then C_ret {| arg_test_dir := Some dir; arg_auto := arg_auto a1;
                      arg_program := arg_program a1 |}
        else
          error_if true
            (lit "Could not find tests in the same directory as "
               ++ arg_program a1 ++ lit " (try --test-dir manually).") ;;
          C_ret a1
      else C_ret a1) ;;
   C_ret (a2, arg_test_dir a2 :: sys_path))%C.

(** ** More notions for the statements *)



Definition is_static (t : test) : bool :=
  match t with
  | Static _ _ => true
  | Checker _ _ => false
  end.

(** A key with the tag of a format whose tests are static. *)
Definition static_key (k : str) : bool :=
  endswith (lit "#in/out") k || endswith (lit "#json") k.

(** A key with the tag of a format whose tests have a checker. *)
Definition checker_key (k : str) : bool :=
  endswith (lit "#in/py") k || endswith (lit "#in/atpy") k
  || endswith (lit "#json/atpy") k.

(** The tags that the loop over the manifest puts after a name. *)
Definition json_tags : list str := [lit "#json"; lit "#json/atpy"].

(** The kind of a test is the kind that the tag of its key names. *)
Definition kind_matches_key (item : str * test) : bool :=
  Bool.eqb (is_static (snd item)) (static_key (fst item))
  && Bool.eqb (negb (is_static (snd item))) (checker_key (fst item)).

(** What the entry [(name, l)] of the manifest leaves in the
    dictionary. *)
Definition entry_test (alltests : pyobj) (l : list str)
  : option (str * test) :=
  match l with
  | [t0] => Some (lit "#json/atpy", Checker t0 alltests)
  | [t0; t1] => Some (lit "#json", Static t0 t1)
  | _ => None
  end.


Module MoreExamples.

(** A manifest with an entry of each kind. *)
Definition manifest : dict (list str) :=
  [(lit "t1", [Examples.five]);
   (lit "t2", [Examples.five; Examples.twenty_five])].

Definition manifest_dir : directory :=
  [(lit "TESTS.json", json_file manifest);
   (lit "ALLTESTS.py", py_module Examples.square_checker)].

(** A checker that runs a command of its own, which exits with
    status 3. *)
Definition failing_checker : pyobj :=
  PyFun2 (fun _ _ => Raise (CalledProcessError 3 (lit "no"))).

End MoreExamples.

(** Whether [init] accepts the arguments: the program is a file, the
    test directory and [--auto] are not both given, a given test
    directory is a directory, and without one the directory [tests]
    beside the program or the directory of the program is one. *)
Definition init_accepts (fs : filesystem) (a : args) : bool :=
  fs_isfile fs (arg_program a)
  && if given (arg_test_dir a)
     then negb (arg_auto a) && fs_isdir fs (text_of (arg_test_dir a))
     else fs_isdir fs (join (better_dirname (arg_program a)) (lit "tests"))
          || fs_isdir fs (better_dirname (arg_program a)).

(** The test directory that [init] settles on. *)
Definition chosen_test_dir (fs : filesystem) (a : args) : str :=
  if given (arg_test_dir a) then text_of (arg_test_dir a)
  else if fs_isdir fs (join (better_dirname (arg_program a)) (lit "tests"))
  then join (better_dirname (arg_program a)) (lit "tests")
  else better_dirname (arg_program a).

(** The error lines of [init]. *)
Definition init_error_line (text : str) : console :=
  Script (Error text true true).

Module InitExamples.

(** A file system with the program [sol/a.cpp] and the directories
    [sol] and [sol/tests]. *)
Definition fs : filesystem :=
  {| fs_isfile := fun p => str_eqb p (lit "sol/a.cpp");
     fs_isdir := fun p => str_eqb p (lit "sol")
                          || str_eqb p (lit "sol/tests") |}.

Definition only_program : args :=
  {| arg_test_dir := None; arg_auto := false;
     arg_program := lit "sol/a.cpp" |}.

Definition missing_program : args :=
  {| arg_test_dir := None; arg_auto := false;
     arg_program := lit "sol/b.cpp" |}.

Definition empty_test_dir : args :=
  {| arg_test_dir := Some []; arg_auto := false;
     arg_program := lit "sol/a.cpp" |}.

End InitExamples.

(** ** The script on the operating system *)

(** [glob.has_magic]: a text with one of the characters [*], [?] and
    [[]. *)
Definition has_magic (s : str) : bool :=
  existsb (fun c => (c =? 42) || (c =? 63) || (c =? 91))%N s.

(** The text up to the first [/]. *)
Fixpoint until_sep (s : str) : str :=
  match s with
  | [] => []
  | c :: s' => if is_sep c then [] else c :: until_sep s'
  end.

(** [os.path.basename(p)] for POSIX paths: the text after the last
    [/]. *)
Definition basename (p : str) : str := rev (until_sep (rev p)).

(** A name that the pattern [*.in] matches and that [glob] does not
    take for hidden. *)
Definition input_name (n : str) : bool :=
  negb (startswith (lit ".") n) && endswith (lit ".in") n.

(** A file name: a text that is not empty and has no [/]. *)
Definition file_name (n : str) : bool :=
  nonempty n && forallb (fun c => negb (is_sep c)) n.

(** The functions of the script over what the library calls answer for
    the very paths and module names that the script computes.  The
    functions of the same names above are these for a test directory
    that is given by its listing: see [presents]. *)
Module OS.

(** What the system answers:
    - [listdir dir]: the names of the entries of [dir], or nothing when
      [dir] cannot be listed;
    - [expand pattern]: the directories that [glob] finds for a
      directory name that has pattern characters;
    - [isfile path]: [os.path.isfile];
    - [read path]: [open(path, 'r')] followed by [read()], with the
      exception of a path that cannot be opened or of bytes that are no
      text;
    - [import_test name]: [importlib.import_module(name).test];
    - [load_json path]: [open] followed by [json.load], for a manifest
      whose values are lists of strings. *)
Record files : Type := {
  listdir : str -> list str;
  expand : str -> list str;
  isfile : str -> bool;
  read : str -> pyres str;
  import_test : str -> pyres pyobj;
  load_json : str -> pyres (dict (list str))
}.

(** [glob.glob(os.path.join(test_dir, '*.in'))]: the directory part of
    the pattern is read as a pattern too when it has a pattern
    character, and literally otherwise; in every directory found, the
    names that [*.in] matches are taken, the hidden ones left out. *)
Definition glob (w : files) (test_dir : str) : list str :=
  let pathname := join test_dir (lit "*.in") in
  let dirs :=
    if has_magic (dirname pathname) then expand w (dirname pathname)
    else [dirname pathname] in
  flat_map
    (fun dir => map (join dir) (filter input_name (listdir w dir))) dirs.

Definition import_alltests (w : files) (test_dir : str) : pyres pyobj :=
  if isfile w (join test_dir (lit "ALLTESTS.py"))
  then import_test w (lit "ALLTESTS")
  else Ok PyNone.

(** The body of the loop over the results of the glob. *)
Definition in_file_tests (w : files) (alltests : pyobj) (tests0 : tests)
  (x : str) : pyres tests :=
  (let name := drop_last3 (basename x) in
   test_input <- read w x ;;
   tests1 <-
     (if isfile w (drop_last3 x ++ lit ".out")
      then
        test_output <- read w (drop_last3 x ++ lit ".out") ;;
        Ok (dict_set (name ++ lit "#in/out") (Static test_input test_output)
              tests0)
      else Ok tests0) ;;
   tests2 <-
     (if isfile w (drop_last3 x ++ lit ".py")
      then
        checker <- import_test w name ;;
        Ok (dict_set (name ++ lit "#in/py") (Checker test_input checker)
              tests1)
      else Ok tests1) ;;
   Ok (if is_not_none alltests
       then dict_set (name ++ lit "#in/atpy") (Checker test_input alltests)
              tests2
       else tests2))%pyres.

Definition get_tests (w : files) (test_dir : str) : pyres tests :=
  (alltests <- import_alltests w test_dir ;;
   tests1 <- for_each (in_file_tests w alltests) (glob w test_dir) [] ;;
   if isfile w (join test_dir (lit "TESTS.json"))
   then
     manifest <- load_json w (join test_dir (lit "TESTS.json")) ;;
     Ok (fold_left (json_test alltests) manifest tests1)
   else Ok tests1)%pyres.

(** What [subprocess.run] has when the program has ended, before it
    looks at the exit status: the completed process with its decoded
    output, or the exception of a program that could not be started
    ([OSError]) or of an input or an output that is no UTF-8 text
    ([UnicodeError]). *)
Definition process := str -> pyres completed.

(** [subprocess.run([program], input=..., encoding='utf-8',
    stdout=PIPE, check=True)] *)
Definition subprocess_run (proc : process) (input : str) : M completed :=
  match proc input with
  | Ok c =>
      if (returncode c =? 0)%Z then ret c
      else raise (CalledProcessError (returncode c) (stdout c))
  | Raise e => raise e
  end.

Definition run_test (proc : process) (passed_tests : nat)
  (item : str * test) : M nat :=
  (let '(name, t) := item in
   print_inprogress
     (lit "Running " ++ test_type t ++ lit " test " ++ name ++ lit "...") ;;
   try_except
     (c <- subprocess_run proc (input_of t) ;;
      judge passed_tests t c)
     (called_process_error passed_tests))%M.

Fixpoint for_items (proc : process) (items : tests) (passed_tests : nat)
  : M nat :=
  match items with
  | [] => ret passed_tests
  | item :: items' =>
      bind (run_test proc passed_tests item) (for_items proc items')
  end.

Definition run_tests (proc : process) (ts : tests) : M nat :=
  for_items proc ts 0.

Definition main (w : files) (test_dir : str) (proc : process) : M unit :=
  (ts <- lift (get_tests w test_dir) ;;
   passed <- run_tests proc ts ;;
   emit Blank ;;
   if passed =? length ts
   then print_success (lit "All tests passed!")
   else
     pct <- lift (percentage passed (length ts)) ;;
     print_error
       (lit "Passed " ++ str_of_nat passed ++ lit " out of "
          ++ str_of_nat (length ts) ++ lit " tests (" ++ str_of_Z pct
          ++ lit "%).") false false true)%M.

End OS.

(** The base name that the loop takes from a result of the glob. *)
Definition base_name (x : str) : str := drop_last3 (basename x).

(** The path that the glob gives for the entry [name] of the test
    directory. *)
Definition entry_path (test_dir name : str) : str :=
  join (dirname (join test_dir (lit "*.in"))) name.

(** The run of a process that completes, as a [program]. *)
Definition program_of (proc : OS.process) : program :=
  fun input =>
    match proc input with
    | Ok c => c
    | Raise _ => {| returncode := 1; stdout := []; run_time := [] |}
    end.

(** The process of a program that is started at every run and whose
    input and output are UTF-8 text. *)
Definition started (prog : program) : OS.process :=
  fun input => Ok (prog input).

(** A test for which the run of the program completes: the program
    starts, and the input and the output are UTF-8 text. *)
Definition completes (proc : OS.process) (item : str * test) : Prop :=
  exists c, proc (input_of (snd item)) = Ok c.

(** The system shows the test directory with the listing [d] at the
    path [test_dir]: the path has no pattern character, the glob lists
    the input files of [d], the input files and the output files of [d]
    are read as the texts that [d] has for them, and the modules and the
    manifest of [d] are loaded as [d] has them. *)
Definition presents (w : OS.files) (test_dir : str) (d : directory) : Prop :=
  has_magic (dirname (join test_dir (lit "*.in"))) = false
  /\ filter input_name (OS.listdir w (dirname (join test_dir (lit "*.in"))))
     = map fst (glob_in d)
  /\ (forall n, In n (map fst d) -> file_name n = true)
  /\ (forall n f, In (n, f) (glob_in d) ->
        OS.read w (entry_path test_dir n) = Ok (content f))
  /\ (forall x,
        In x (glob_in d) ->
        let b := drop_last3 (fst x) in
        match dict_get (b ++ lit ".out") d with
        | Some f =>
            OS.isfile w (entry_path test_dir (b ++ lit ".out")) = true
            /\ OS.read w (entry_path test_dir (b ++ lit ".out"))
               = Ok (content f)
        | None => OS.isfile w (entry_path test_dir (b ++ lit ".out")) = false
        end
        /\ match dict_get (b ++ lit ".py") d with
           | Some f =>
               OS.isfile w (entry_path test_dir (b ++ lit ".py")) = true
               /\ OS.import_test w b = module_test f
           | None =>
               OS.isfile w (entry_path test_dir (b ++ lit ".py")) = false
           end)
  /\ match dict_get (lit "ALLTESTS.py") d with
     | Some f =>
         OS.isfile w (join test_dir (lit "ALLTESTS.py")) = true
         /\ OS.import_test w (lit "ALLTESTS") = module_test f
     | None => OS.isfile w (join test_dir (lit "ALLTESTS.py")) = false
     end
  /\ match dict_get (lit "TESTS.json") d with
     | Some f =>
         OS.isfile w (join test_dir (lit "TESTS.json")) = true
         /\ OS.load_json w (join test_dir (lit "TESTS.json")) = json_load f
     | None => OS.isfile w (join test_dir (lit "TESTS.json")) = false
     end.

Module OSExamples.

(** A system whose only directory is [p], with the listing [d]; [found]
    is what the glob finds for [p] read as a pattern. *)
Definition only_directory (p : str) (d : directory) (found : list str)
  : OS.files :=
  let at_p q := find (fun e => str_eqb q (join p (fst e))) d in
  {| OS.listdir := fun q => if str_eqb q p then map fst d else [];
     OS.expand := fun q => if str_eqb q p then found else [];
     OS.isfile := fun q => match at_p q with Some _ => true | None => false end;
     OS.read := fun q =>
       match at_p q with
       | Some e => Ok (content (snd e))
       | None => Raise OSError
       end;
     OS.import_test := fun n =>
       match dict_get (n ++ lit ".py") d with
       | Some f => module_test f
       | None => Raise ImportError
       end;
     OS.load_json := fun q =>
       match at_p q with
       | Some e => json_load (snd e)
       | None => Raise OSError
       end |}.

(** The directory [tests] with an input file and a file that is no
    test. *)
Definition notes : OS.files :=
  only_directory (lit "tests") Examples.notes_dir [].

(** The directory [tests] with [foo.in], [foo.out], [foo.py] and
    [ALLTESTS.py]. *)
Definition foo : OS.files :=
  only_directory (lit "tests") Examples.foo_dir [].

(** The directory [tests] with [foo.in], [foo.out] and [ALLTESTS.py]. *)
Definition paired_and_bulk : OS.files :=
  only_directory (lit "tests") Examples.paired_and_bulk_dir [].


(** The same four files in a directory named [t[1]].  As a pattern this
    name matches the name [t1] only, and there is no such directory. *)
Definition bracket : OS.files :=
  only_directory (lit "t[1]") Examples.foo_dir [].

(** The directory [tests] with the input file [foo.in] whose bytes are
    no text. *)
Definition undecodable : OS.files :=
  {| OS.listdir := fun q => if str_eqb q (lit "tests") then [lit "foo.in"]
                            else [];
     OS.expand := fun _ => [];
     OS.isfile := fun q => str_eqb q (lit "tests/foo.in");
     OS.read := fun q => if str_eqb q (lit "tests/foo.in")
                         then Raise UnicodeError else Raise OSError;
     OS.import_test := fun _ => Raise ImportError;
     OS.load_json := fun _ => Raise OSError |}.

(** A program whose output is no UTF-8 text. *)
Definition garbles : OS.process := fun _ => Raise UnicodeError.

End OSExamples.

(** * Properties *)

(** ** Strings and stripping *)

Section Strings.

Lemma str_eqb_eq (a b : str) : str_eqb a b = true <-> a = b.
Proof.
  revert b; induction a as [|x a IH]; intros [|y b]; simpl;
    try (split; (discriminate || reflexivity)).
  rewrite andb_true_iff, N.eqb_eq, IH.
  split; [intros [-> ->]; reflexivity | intros E; inversion E; auto].
Qed.

Lemma str_eqb_refl (a : str) : str_eqb a a = true.
Proof. apply str_eqb_eq; reflexivity. Qed.

Lemma str_eqb_neq (a b : str) : str_eqb a b = false <-> a <> b.
Proof.
  rewrite <- str_eqb_eq.
  destruct (str_eqb a b); split; congruence.
Qed.

Lemma lstrip_app_space (l s : str) :
  forallb isspace l = true -> lstrip (l ++ s) = lstrip s.
Proof.
  induction l as [|c l IH]; simpl; [reflexivity|].
  rewrite andb_true_iff; intros [-> Hl]; auto.
Qed.

Lemma lstrip_snoc (s : str) (c : N) :
  lstrip (s ++ [c]) =
    match lstrip s with
    | [] => if isspace c then [] else [c]
    | y => y ++ [c]
    end.
Proof.
  induction s as [|x s IH]; simpl; [reflexivity|].
  destruct (isspace x); [exact IH | reflexivity].
Qed.

Lemma rstrip_cons (c : N) (s : str) :
  rstrip (c :: s) =
    match rstrip s with
    | [] => if isspace c then [] else [c]
    | y => c :: y
    end.
Proof.
  unfold rstrip; simpl rev at 2.
  rewrite lstrip_snoc.
  destruct (lstrip (rev s)) as [|x t] eqn:E; simpl.
  - destruct (isspace c); reflexivity.
  - rewrite rev_app_distr; simpl.
    destruct (rev t ++ [x]) eqn:E'; [|reflexivity].
    destruct (rev t); discriminate.
Qed.

Lemma rstrip_app_space (s r : str) :
  forallb isspace r = true -> rstrip (s ++ r) = rstrip s.
Proof.
  intros Hr; unfold rstrip.
  rewrite rev_app_distr, lstrip_app_space; [reflexivity|].
  apply forallb_forall; intros x Hx.
  apply (proj1 (forallb_forall _ _) Hr), in_rev, Hx.
Qed.

Lemma lstrip_rstrip (s : str) : lstrip (rstrip s) = rstrip (lstrip s).
Proof.
  induction s as [|c s IH]; [reflexivity|].
  simpl lstrip at 2.
  destruct (isspace c) eqn:Hc.
  - rewrite <- IH, rstrip_cons, Hc.
    destruct (rstrip s); simpl; [reflexivity | rewrite Hc; reflexivity].
  - rewrite rstrip_cons, Hc.
    destruct (rstrip s); simpl; rewrite Hc; reflexivity.
Qed.

(** White space around a text does not change what [strip] gives. *)
Lemma strip_frame (l core r : str) :
  forallb isspace l = true -> forallb isspace r = true ->
  strip (l ++ core ++ r) = strip core.
Proof.
  intros Hl Hr; unfold strip.
  rewrite lstrip_app_space by assumption.
  rewrite <- !lstrip_rstrip, rstrip_app_space by assumption.
  reflexivity.
Qed.

(** A text that starts and ends with something else than white space
    is left as it is. *)
Lemma strip_fixed (c c' : N) (s : str) :
  isspace c = false -> isspace c' = false ->
  strip (c :: s ++ [c']) = c :: s ++ [c'].
Proof.
  intros Hc Hc'; unfold strip; simpl; rewrite Hc.
  unfold rstrip; simpl; rewrite rev_app_distr; simpl; rewrite Hc'.
  simpl; rewrite rev_app_distr; simpl; rewrite rev_involutive.
  reflexivity.
Qed.

Lemma startswith_app (p s : str) :
  startswith p s = true <-> exists t, s = p ++ t.
Proof.
  revert s; induction p as [|x p IH]; intros s; simpl.
  - split; [exists s; reflexivity | reflexivity].
  - destruct s as [|y s].
    + split; [discriminate | intros [t Ht]; discriminate].
    + rewrite andb_true_iff, N.eqb_eq, IH; split.
      * intros [-> [t ->]]; exists t; reflexivity.
      * intros [t Ht]; inversion Ht; eauto.
Qed.

Lemma endswith_app (p s : str) :
  endswith p s = true <-> exists t, s = t ++ p.
Proof.
  unfold endswith; rewrite startswith_app; split; intros [t Ht].
  - exists (rev t).
    rewrite <- (rev_involutive s), Ht, rev_app_distr, rev_involutive.
    reflexivity.
  - exists (rev t); rewrite Ht, rev_app_distr; reflexivity.
Qed.

Lemma drop_last3_app (t p : str) :
  length p = 3 -> drop_last3 (t ++ p) = t.
Proof.
  intros Hp; unfold drop_last3.
  rewrite length_app, Hp.
  replace (length t + 3 - 3) with (length t + 0) by lia.
  rewrite firstn_app_2; simpl; apply app_nil_r.
Qed.

(** The name of a file that the glob finds is its base name followed
    by [.in]. *)
Lemma endswith_in_name (n : str) :
  endswith (lit ".in") n = true -> n = drop_last3 n ++ lit ".in".
Proof.
  intros H; apply endswith_app in H; destruct H as [t ->].
  rewrite drop_last3_app; reflexivity.
Qed.

(** Two keys with tags that differ near their ends are different
    keys. *)
Lemma tagged_keys_differ (n : nat) (a b s1 s2 : str) :
  n <= length s1 -> n <= length s2 ->
  str_eqb (firstn n (rev s1)) (firstn n (rev s2)) = false ->
  a ++ s1 <> b ++ s2.
Proof.
  intros H1 H2 Hd E.
  apply str_eqb_neq in Hd; apply Hd.
  apply (f_equal (fun l => firstn n (rev l))) in E.
  rewrite !rev_app_distr, !firstn_app in E.
  rewrite !length_rev in E.
  replace (n - length s1) with 0 in E by lia.
  replace (n - length s2) with 0 in E by lia.
  simpl in E; rewrite !app_nil_r in E; exact E.
Qed.

End Strings.

(** ** Dictionaries *)

Section Dictionaries.

Context {V : Type}.

Lemma dict_get_set_same (k : str) (v : V) (d : dict V) :
  dict_get k (dict_set k v d) = Some v.
Proof.
  induction d as [|[k' v'] d IH]; simpl.
  - rewrite str_eqb_refl; reflexivity.
  - destruct (str_eqb k k') eqn:E; simpl; rewrite E; auto.
Qed.

Lemma dict_get_set_other (k k' : str) (v : V) (d : dict V) :
  k <> k' -> dict_get k (dict_set k' v d) = dict_get k d.
Proof.
  intros Hk; induction d as [|[k0 v0] d IH]; simpl.
  - apply str_eqb_neq in Hk; rewrite Hk; reflexivity.
  - destruct (str_eqb k' k0) eqn:E; simpl.
    + apply str_eqb_eq in E; subst k0.
      apply str_eqb_neq in Hk; rewrite Hk; reflexivity.
    + rewrite IH; reflexivity.
Qed.

Lemma dict_set_length (k : str) (v : V) (d : dict V) :
  length d <= length (dict_set k v d).
Proof.
  induction d as [|[k0 v0] d IH]; simpl; [lia|].
  destruct (str_eqb k k0); simpl; lia.
Qed.

End Dictionaries.

(** ** Discovery *)

Ltac tags_differ n :=
  apply (@tagged_keys_differ n); [simpl; lia | simpl; lia | reflexivity].

Section Discovery.

Lemma for_each_app {A S} (body : S -> A -> pyres S) (l1 l2 : list A)
  (s : S) :
  for_each body (l1 ++ l2) s =
    pyres_bind (for_each body l1 s) (for_each body l2).
Proof.
  revert s; induction l1 as [|a l1 IH]; intros s; simpl; [reflexivity|].
  destruct (body s a); simpl; auto.
Qed.

(** Keys of the same base name under different tags are different, and
    no key of one base name is a key of another. *)
Lemma in_key_inj (b b' t t' : str) :
  In t in_tags -> In t' in_tags -> b ++ t = b' ++ t' -> b = b' /\ t = t'.
Proof.
  unfold in_tags; simpl.
  intros [<-|[<-|[<-|[]]]] [<-|[<-|[<-|[]]]] E;
    try (split; [eapply app_inv_tail; exact E | reflexivity]);
    exfalso; revert E.
  - tags_differ 6.
  - tags_differ 7.
  - tags_differ 6.
  - tags_differ 6.
  - tags_differ 7.
  - tags_differ 6.
Qed.

Lemma in_key_not_json (b name t : str) :
  In t in_tags ->
  b ++ t <> name ++ lit "#json" /\ b ++ t <> name ++ lit "#json/atpy".
Proof.
  unfold in_tags; simpl.
  intros [<-|[<-|[<-|[]]]]; split;
    first [tags_differ 5 | tags_differ 6 | tags_differ 8].
Qed.

Variable test_dir : directory.
Variable alltests : pyobj.

(** One turn of the loop touches the keys of its own base name only. *)
Lemma in_file_tests_other (tests0 tests1 : tests) (x : str * file)
  (b t : str) :
  in_file_tests test_dir alltests tests0 x = Ok tests1 ->
  In t in_tags -> b <> drop_last3 (fst x) ->
  dict_get (b ++ t) tests1 = dict_get (b ++ t) tests0.
Proof.
  intros H Ht Hb.
  assert (K : forall t', In t' in_tags ->
                         b ++ t <> drop_last3 (fst x) ++ t').
  { intros t' Ht' E; apply in_key_inj in E; tauto. }
  unfold in_file_tests in H.
  set (name := drop_last3 (fst x)) in *.
  assert (K1 := K (lit "#in/out")); assert (K2 := K (lit "#in/py"));
    assert (K3 := K (lit "#in/atpy")).
  unfold in_tags in K1, K2, K3; simpl in K1, K2, K3.
  destruct (dict_get (name ++ lit ".py") test_dir) as [f|];
    [destruct (module_test f) as [chk|]; [|discriminate]|];
    simpl in H; injection H as <-;
    destruct (is_not_none alltests);
    destruct (dict_get (name ++ lit ".out") test_dir);
    rewrite ?dict_get_set_other by tauto; reflexivity.
Qed.

(** What one turn of the loop leaves under the three keys of its base
    name. *)
Lemma in_file_tests_own (tests0 tests1 : tests) (x : str * file) :
  in_file_tests test_dir alltests tests0 x = Ok tests1 ->
  let name := drop_last3 (fst x) in
  (forall f, dict_get (name ++ lit ".out") test_dir = Some f ->
             dict_get (name ++ lit "#in/out") tests1
             = Some (Static (content (snd x)) (content f)))
  /\ (forall f, dict_get (name ++ lit ".py") test_dir = Some f ->
                exists chk, module_test f = Ok chk /\
                  dict_get (name ++ lit "#in/py") tests1
                  = Some (Checker (content (snd x)) chk))
  /\ (is_not_none alltests = true ->
      dict_get (name ++ lit "#in/atpy") tests1
      = Some (Checker (content (snd x)) alltests)).
Proof.
  intros H name.
  assert (D1 : name ++ lit "#in/out" <> name ++ lit "#in/py")
    by tags_differ 6.
  assert (D2 : name ++ lit "#in/out" <> name ++ lit "#in/atpy")
    by tags_differ 7.
  assert (D3 : name ++ lit "#in/py" <> name ++ lit "#in/atpy")
    by tags_differ 6.
  unfold in_file_tests in H; fold name in H.
  destruct (dict_get (name ++ lit ".py") test_dir) as [f|];
    [destruct (module_test f) as [chk|] eqn:Hm; [|discriminate]|];
    simpl in H; injection H as <-;
    (split; [|split]).
  all: try (intros f0 Hf0; try rewrite Hf0).
  all: try (intros Ha; rewrite Ha).
  all: try discriminate.
  all: try (injection Hf0 as <-; exists chk; split; [assumption|]).
  all: destruct (is_not_none alltests);
    rewrite ?dict_get_set_same; try reflexivity;
    rewrite ?(dict_get_set_other _ _ D1), ?(dict_get_set_other _ _ D2),
      ?(dict_get_set_other _ _ D3), ?dict_get_set_same; try reflexivity;
    rewrite ?(dict_get_set_other _ _ D1), ?dict_get_set_same;
    reflexivity.
Qed.

End Discovery.

Section Loops.

Variable test_dir : directory.
Variable alltests : pyobj.

Lemma in_loop_other (l : list (str * file)) (b t : str) :
  In t in_tags ->
  (forall y, In y l -> b <> drop_last3 (fst y)) ->
  forall tests0 tests1,
    for_each (in_file_tests test_dir alltests) l tests0 = Ok tests1 ->
    dict_get (b ++ t) tests1 = dict_get (b ++ t) tests0.
Proof.
  intros Ht; induction l as [|y l IH]; intros Hl tests0 tests1 H;
    simpl in H.
  - injection H as <-; reflexivity.
  - destruct (in_file_tests test_dir alltests tests0 y) as [ts|] eqn:E;
      [|discriminate].
    simpl in H.
    rewrite (IH (fun z Hz => Hl z (or_intror Hz)) _ _ H).
    eapply in_file_tests_other; eauto.
    apply Hl; left; reflexivity.
Qed.

Lemma recorded_other (x : str * file) (l : list (str * file))
  (tests0 tests1 : tests) :
  (forall y, In y l -> drop_last3 (fst x) <> drop_last3 (fst y)) ->
  for_each (in_file_tests test_dir alltests) l tests0 = Ok tests1 ->
  recorded test_dir alltests x tests0 ->
  recorded test_dir alltests x tests1.
Proof.
  intros Hl H (R1 & R2 & R3).
  assert (K : forall t, In t in_tags ->
            dict_get (drop_last3 (fst x) ++ t) tests1
            = dict_get (drop_last3 (fst x) ++ t) tests0)
    by (intros t Ht; eapply in_loop_other; eauto).
  unfold recorded, in_tags in *; simpl in K.
  repeat split.
  - intros f Hf; rewrite K by tauto; auto.
  - intros f Hf; destruct (R2 f Hf) as (chk & Hm & Hg).
    exists chk; rewrite K by tauto; auto.
  - intros Ha; rewrite K by tauto; auto.
Qed.

Lemma in_loop_own (l : list (str * file)) :
  NoDup (map fst l) ->
  (forall y, In y l -> endswith (lit ".in") (fst y) = true) ->
  forall tests0 tests1,
    for_each (in_file_tests test_dir alltests) l tests0 = Ok tests1 ->
    forall x, In x l -> recorded test_dir alltests x tests1.
Proof.
  induction l as [|y l IH]; intros Hnd Hin tests0 tests1 H x Hx;
    [destruct Hx|].
  simpl in H, Hnd.
  destruct (in_file_tests test_dir alltests tests0 y) as [ts|] eqn:E;
    [|discriminate].
  simpl in H; inversion Hnd as [|? ? Hy Hnd']; subst.
  destruct Hx as [->|Hx].
  - apply recorded_other with (l := l) (tests0 := ts); trivial.
    + intros z Hz Eb; apply Hy.
      rewrite (endswith_in_name _ (Hin x (or_introl eq_refl))), Eb.
      rewrite <- (endswith_in_name _ (Hin z (or_intror Hz))).
      apply in_map, Hz.
    + eapply in_file_tests_own; eauto.
  - apply (IH Hnd' (fun z Hz => Hin z (or_intror Hz)) _ _ H x Hx).
Qed.

Lemma json_test_other (ts : tests) (item : str * list str) (k : str) :
  (forall name, k <> name ++ lit "#json"
                /\ k <> name ++ lit "#json/atpy") ->
  dict_get k (json_test alltests ts item) = dict_get k ts.
Proof.
  intros Hk; destruct item as [name [|t0 [|t1 [|t2 l]]]]; simpl;
    try reflexivity; apply dict_get_set_other, Hk.
Qed.

Lemma manifest_other (manifest : dict (list str)) (k : str) :
  (forall name, k <> name ++ lit "#json"
                /\ k <> name ++ lit "#json/atpy") ->
  forall ts,
    dict_get k (fold_left (json_test alltests) manifest ts)
    = dict_get k ts.
Proof.
  intros Hk; induction manifest as [|item m IH]; intros ts; simpl;
    [reflexivity|].
  rewrite IH; apply json_test_other, Hk.
Qed.

Lemma manifest_length (manifest : dict (list str)) (ts : tests) :
  length ts <= length (fold_left (json_test alltests) manifest ts).
Proof.
  revert ts; induction manifest as [|[name l] m IH]; intros ts; simpl;
    [lia|].
  etransitivity; [|apply IH].
  destruct l as [|t0 [|t1 [|t2 l]]]; try apply dict_set_length; lia.
Qed.

End Loops.

Lemma glob_in_names (d : directory) :
  NoDup (map fst d) ->
  NoDup (map fst (glob_in d))
  /\ forall y, In y (glob_in d) -> endswith (lit ".in") (fst y) = true.
Proof.
  intros Hnd; split.
  - unfold glob_in.
    set (p := fun e : str * file => _).
    induction d as [|[n f] d IH]; cbn [filter map]; [constructor|].
    inversion Hnd as [|? ? Hn Hd]; subst.
    destruct (p (n, f)); cbn [map fst]; auto.
    constructor; auto.
    intros Hc; apply Hn.
    apply in_map_iff in Hc; destruct Hc as (y & <- & Hy).
    apply filter_In in Hy; apply in_map, Hy.
  - intros y Hy; apply filter_In in Hy; destruct Hy as [_ Hy].
    apply andb_true_iff in Hy; tauto.
Qed.

(** What [get_tests] returns holds, for every input file, the tests of
    that file. *)
Lemma get_tests_recorded (d : directory) (ts : tests) :
  NoDup (map fst d) -> get_tests d = Ok ts ->
  exists alltests,
    import_alltests d = Ok alltests
    /\ forall x, In x (glob_in d) -> recorded d alltests x ts.
Proof.
  intros Hnd H; unfold get_tests in H.
  destruct (import_alltests d) as [a|]; [|discriminate]; simpl in H.
  destruct (for_each (in_file_tests d a) (glob_in d) []) as [t1|] eqn:E;
    [|discriminate]; simpl in H.
  exists a; split; [reflexivity|]; intros x Hx.
  destruct (glob_in_names _ Hnd) as [G1 G2].
  assert (R : recorded d a x t1) by (eapply in_loop_own; eauto).
  assert (K : forall t, In t in_tags ->
            dict_get (drop_last3 (fst x) ++ t) ts
            = dict_get (drop_last3 (fst x) ++ t) t1).
  { intros t Ht.
    destruct (dict_get (lit "TESTS.json") d) as [f|];
      [destruct (json_load f) as [m|]; [|discriminate]|];
      simpl in H; injection H as <-; [|reflexivity].
    apply manifest_other; intros name; apply in_key_not_json, Ht. }
  destruct R as (R1 & R2 & R3).
  unfold recorded, in_tags in *; simpl in K.
  repeat split.
  - intros f Hf; rewrite K by tauto; auto.
  - intros f Hf; destruct (R2 f Hf) as (chk & Hm & Hg).
    exists chk; rewrite K by tauto; auto.
  - intros Ha; rewrite K by tauto; auto.
Qed.

Lemma dict_get_set_inv {V} (k k' : str) (v w : V) (d : dict V) :
  dict_get k (dict_set k' v d) = Some w -> k = k' \/ dict_get k d = Some w.
Proof.
  destruct (str_eqb k k') eqn:E.
  - left; apply str_eqb_eq, E.
  - apply str_eqb_neq in E; rewrite dict_get_set_other by assumption; auto.
Qed.

(** A key of the loop over the [.in] files is the base name of one of
    these files followed by a tag of the loop. *)
Lemma in_loop_keys (d : directory) (alltests : pyobj)
  (l : list (str * file)) (k : str) (v : test) :
  forall tests0 tests1,
    for_each (in_file_tests d alltests) l tests0 = Ok tests1 ->
    dict_get k tests1 = Some v ->
    dict_get k tests0 = Some v
    \/ exists x t, In x l /\ In t in_tags /\ k = drop_last3 (fst x) ++ t.
Proof.
  induction l as [|y l IH]; intros tests0 tests1 H Hk; simpl in H.
  - injection H as <-; auto.
  - destruct (in_file_tests d alltests tests0 y) as [ts|] eqn:E;
      [|discriminate]; simpl in H.
    destruct (IH _ _ H Hk) as [Hts|(x & t & Hx & Ht & ->)];
      [|right; exists x, t; simpl; auto].
    assert (K : forall t, In t in_tags ->
              k = drop_last3 (fst y) ++ t ->
              exists x t, In x (y :: l) /\ In t in_tags
                          /\ k = drop_last3 (fst x) ++ t)
      by (intros t Ht ->; exists y, t; simpl; auto).
    assert (K1 := K (lit "#in/out") ltac:(unfold in_tags; simpl; tauto)).
    assert (K2 := K (lit "#in/py") ltac:(unfold in_tags; simpl; tauto)).
    assert (K3 := K (lit "#in/atpy") ltac:(unfold in_tags; simpl; tauto)).
    clear K.
    unfold in_file_tests in E.
    destruct (dict_get (drop_last3 (fst y) ++ lit ".py") d) as [f|];
      [destruct (module_test f) as [chk|]; [|discriminate]|];
      simpl in E; injection E as <-;
      destruct (is_not_none alltests);
      destruct (dict_get (drop_last3 (fst y) ++ lit ".out") d);
      repeat match goal with
        | H : dict_get _ (dict_set _ _ _) = Some _ |- _ =>
            apply dict_get_set_inv in H; destruct H as [H|H];
            [right; first [apply K1, H | apply K2, H | apply K3, H]|]
        end; auto.
Qed.

(** ** Claims on discovery *)

(** C4, the claim as the spec states it, fails on the empty directory:
    discovery returns an empty test set instead of an error, and the run
    reports that all tests passed. *)
Lemma empty_directory_passes :
  get_tests [] = Ok []
  /\ main [] Examples.squares [] =
       (Ok tt, [Blank; Success (lit "All tests passed!")])
  /\ exit_status (fst (main [] Examples.squares [])) = 0%Z.
Proof. repeat split. Qed.

(** C5, as the code has it: a manifest entry whose list has a length
    other than 1 or 2 does not make discovery fail; the entry yields no
    test, and discovery returns what it returns for the manifest without
    that entry. *)
Theorem malformed_entry_is_skipped :
  forall (d : directory) (f : file) (m1 m2 : dict (list str)) (name : str)
         (l : list str) (alltests : pyobj) (tests1 : tests),
    length l <> 1 -> length l <> 2 ->
    dict_get (lit "TESTS.json") d = Some f ->
    json_load f = Ok (m1 ++ (name, l) :: m2) ->
    import_alltests d = Ok alltests ->
    for_each (in_file_tests d alltests) (glob_in d) [] = Ok tests1 ->
    (forall ts, json_test alltests ts (name, l) = ts)
    /\ get_tests d = Ok (fold_left (json_test alltests) (m1 ++ m2) tests1).
Proof.
  intros d f m1 m2 name l alltests tests1 H1 H2 Hf Hm Ha Hl.
  assert (S : forall ts, json_test alltests ts (name, l) = ts).
  { intros ts; destruct l as [|t0 [|t1 [|t2 l]]]; simpl in *;
      congruence. }
  split; [exact S|].
  unfold get_tests; rewrite Ha; simpl; rewrite Hl; simpl.
  rewrite Hf, Hm; simpl.
  rewrite !fold_left_app; cbn [fold_left]; rewrite S; reflexivity.
Qed.

Lemma malformed_entry_is_skipped_witness :
  (forall ts, json_test PyNone ts
                (lit "t3", [Examples.five; Examples.twenty_five; lit "x"])
              = ts)
  /\ get_tests Examples.three_element_dir =
       Ok (fold_left (json_test PyNone) ([] ++ []) []).
Proof.
  apply (@malformed_entry_is_skipped Examples.three_element_dir
           (json_file [(lit "t3", [Examples.five; Examples.twenty_five;
                                   lit "x"])])
           [] [] (lit "t3") [Examples.five; Examples.twenty_five; lit "x"]
           PyNone []); simpl; (lia || reflexivity).
Defined.

(** C5, the claim as the spec states it, fails on a manifest whose only
    entry has three elements: discovery returns normally, with no test
    for the entry. *)
Lemma three_element_entry_no_error :
  get_tests Examples.three_element_dir = Ok [].
Proof. reflexivity. Qed.

(** C6, the claim as the spec states it, fails on a directory with
    [foo.in], [foo.out] and [ALLTESTS.py]: the input file has a paired
    output and still yields a test with the shared checker. *)
Lemma paired_input_also_gets_bulk_test :
  exists ts,
    get_tests Examples.paired_and_bulk_dir = Ok ts
    /\ isfile Examples.paired_and_bulk_dir (lit "foo.out") = true
    /\ dict_get (lit "foo#in/out") ts
       = Some (Static Examples.five Examples.twenty_five)
    /\ dict_get (lit "foo#in/atpy") ts
       = Some (Checker Examples.five Examples.square_checker).
Proof. eexists; repeat split. Qed.

(** C9, as the code has it: a manifest entry with an input only, in a
    directory without [ALLTESTS.py], does not make discovery fail; when
    the input files are read without error, [get_tests] returns a test
    set, which still holds every test found before the manifest is
    read. *)
Theorem input_only_entry_no_discovery_error :
  forall (d : directory) (f : file) (manifest : dict (list str))
         (name inp : str) (tests1 : tests),
    dict_get (lit "ALLTESTS.py") d = None ->
    dict_get (lit "TESTS.json") d = Some f ->
    json_load f = Ok manifest ->
    In (name, [inp]) manifest ->
    for_each (in_file_tests d PyNone) (glob_in d) [] = Ok tests1 ->
    exists ts,
      get_tests d = Ok ts
      /\ length tests1 <= length ts
      /\ forall b t, In t in_tags ->
           dict_get (b ++ t) ts = dict_get (b ++ t) tests1.
Proof.
  intros d f manifest name inp tests1 Ha Hf Hm Hin Hl.
  exists (fold_left (json_test PyNone) manifest tests1); split; [|split].
  - unfold get_tests, import_alltests; rewrite Ha; simpl.
    rewrite Hl; simpl; rewrite Hf, Hm; reflexivity.
  - apply manifest_length.
  - intros b t Ht; apply manifest_other.
    intros n; apply in_key_not_json, Ht.
Qed.

Lemma input_only_entry_no_discovery_error_witness :
  exists ts,
    get_tests Examples.input_only_dir = Ok ts
    /\ length (@nil (str * test)) <= length ts
    /\ forall b t, In t in_tags ->
         dict_get (b ++ t) ts = dict_get (b ++ t) [].
Proof.
  apply (@input_only_entry_no_discovery_error Examples.input_only_dir
           (json_file [(lit "t1", [Examples.five])])
           [(lit "t1", [Examples.five])] (lit "t1") Examples.five []);
    try reflexivity.
  left; reflexivity.
Defined.

(** C9, the claim as the spec states it, fails on a manifest with the
    entry [t1] of one element and no [ALLTESTS.py]: discovery returns
    normally, and the entry has become a checker test whose checker is
    [None]. *)
Lemma input_only_entry_gets_none_checker :
  isfile Examples.input_only_dir (lit "ALLTESTS.py") = false
  /\ get_tests Examples.input_only_dir
     = Ok [(lit "t1#json/atpy", Checker Examples.five PyNone)].
Proof. split; reflexivity. Qed.

(** ** Running and judging *)

Ltac run_monad :=
  cbv beta iota zeta delta
    [bind ret raise lift emit print_error print_success print_inprogress].

Section Running.

Variable prog : program.

Lemma static_diagnostic_returns (test_output actual_output : str)
  (out : list output) :
  exists lines,
    static_diagnostic test_output actual_output out = (Ok tt, out ++ lines).
Proof.
  unfold static_diagnostic.
  destruct ((100 <? length test_output) || (100 <? length actual_output));
    run_monad; rewrite <- ?app_assoc; eexists; reflexivity.
Qed.

Lemma checker_diagnostic_returns (actual_output : str)
  (out : list output) :
  exists lines,
    checker_diagnostic actual_output out = (Ok tt, out ++ lines).
Proof.
  unfold checker_diagnostic.
  destruct (100 <? length actual_output);
    run_monad; rewrite <- ?app_assoc; eexists; reflexivity.
Qed.

Lemma called_process_error_returns (passed : nat) (code : Z) (o : str)
  (out : list output) :
  exists h,
    called_process_error passed (CalledProcessError code o) = Some h
    /\ h out = (Ok passed, out ++ execution_failure_lines code o).
Proof.
  eexists; split; [reflexivity|].
  unfold execution_failure_lines; run_monad.
  destruct (100 <? length o); simpl; rewrite <- ?app_assoc; reflexivity.
Qed.

(** What the judge of a static test answers. *)
Lemma judge_static (passed : nat) (test_input test_output : str)
  (proc : completed) (out : list output) :
  fst (judge passed (Static test_input test_output) proc out)
  = Ok (if str_eqb (strip (stdout proc)) (strip test_output)
        then S passed else passed).
Proof.
  unfold judge.
  destruct (str_eqb (strip (stdout proc)) (strip test_output));
    run_monad; [reflexivity|].
  destruct (static_diagnostic_returns test_output (strip (stdout proc))
              (out ++ [Error (lit "Failed (" ++ run_time proc
                                ++ lit "s)!") false true]))
    as [lines ->]; reflexivity.
Qed.

(** What the judge of a checker test answers. *)
Lemma judge_checker (passed : nat) (test_input : str) (checker : pyobj)
  (proc : completed) (out : list output) :
  fst (judge passed (Checker test_input checker) proc out)
  = match call2 checker test_input (strip (stdout proc)) with
    | Ok true => Ok (S passed)
    | Ok false => Ok passed
    | Raise e => Raise e
    end.
Proof.
  unfold judge; run_monad.
  destruct (call2 checker test_input (strip (stdout proc))) as [[|]|e];
    [reflexivity| |reflexivity].
  destruct (checker_diagnostic_returns (strip (stdout proc))
              (out ++ [Error (lit "Failed (" ++ run_time proc
                                ++ lit "s)!") false true]))
    as [lines ->]; reflexivity.
Qed.

(** A turn of the loop for a run that exits with status 0: the judge
    decides, and the [except] clause sees what the judge raises. *)
Lemma run_test_exit_zero (passed : nat) (name : str) (t : test)
  (out : list output) :
  returncode (prog (input_of t)) = 0%Z ->
  run_test prog passed (name, t) out
  = let out1 := out ++ [Inprogress (lit "Running " ++ test_type t
                                      ++ lit " test " ++ name
                                      ++ lit "...")] in
    match judge passed t (prog (input_of t)) out1 with
    | (Ok a, out2) => (Ok a, out2)
    | (Raise e, out2) =>
        match called_process_error passed e with
        | Some h => h out2
        | None => (Raise e, out2)
        end
    end.
Proof.
  intros H; unfold run_test, try_except, subprocess_run; rewrite H.
  run_monad; reflexivity.
Qed.

(** A turn of the loop for a run that exits with another status. *)
Lemma run_test_exit_nonzero (passed : nat) (name : str) (t : test)
  (out : list output) :
  returncode (prog (input_of t)) <> 0%Z ->
  run_test prog passed (name, t) out
  = (Ok passed,
     out ++ [Inprogress (lit "Running " ++ test_type t ++ lit " test "
                           ++ name ++ lit "...")]
         ++ execution_failure_lines (returncode (prog (input_of t)))
              (stdout (prog (input_of t)))).
Proof.
  intros H; apply Z.eqb_neq in H.
  unfold run_test, try_except, subprocess_run; rewrite H.
  unfold execution_failure_lines; run_monad.
  unfold called_process_error; run_monad.
  destruct (100 <? length (stdout (prog (input_of t))));
    rewrite <- !app_assoc; reflexivity.
Qed.

(** A turn of the loop leaves the count as it is or adds one. *)
Lemma run_test_count (passed passed' : nat) (item : str * test)
  (out out' : list output) :
  run_test prog passed item out = (Ok passed', out') ->
  passed' = passed \/ passed' = S passed.
Proof.
  destruct item as [name t].
  destruct (Z.eq_dec (returncode (prog (input_of t))) 0) as [E|E].
  - rewrite run_test_exit_zero by assumption; cbv zeta.
    set (out1 := out ++ _).
    assert (J := f_equal fst (eq_refl (judge passed t (prog (input_of t))
                                         out1))).
    destruct t as [i o|i c];
      [rewrite judge_static in J at 1 | rewrite judge_checker in J at 1];
      destruct (judge _ _ _ out1) as [[a|e] out2]; simpl in J.
    + intros H; injection H as <- _.
      destruct (str_eqb _ _); injection J as <-; auto.
    + discriminate.
    + intros H; injection H as <- _.
      destruct (call2 _ _ _) as [[|]|]; try discriminate;
        injection J as <-; auto.
    + destruct e; try discriminate.
      destruct (called_process_error_returns passed returncode0 stdout0
                  out2) as (h & -> & ->).
      intros H; injection H as <- _; auto.
  - rewrite run_test_exit_nonzero by assumption.
    intros H; injection H as <- _; auto.
Qed.

Lemma for_items_count (items : tests) :
  forall (passed passed' : nat) (out out' : list output),
    for_items prog items passed out = (Ok passed', out') ->
    passed <= passed' <= passed + length items.
Proof.
  induction items as [|item items IH]; intros passed passed' out out' H;
    simpl in H.
  - injection H as <- _; simpl; lia.
  - unfold bind in H.
    destruct (run_test prog passed item out) as [[p|e] out1] eqn:E;
      [|discriminate].
    apply run_test_count in E; apply IH in H; simpl; lia.
Qed.

(** The count that [run_tests] returns is at most the number of
    tests. *)
Lemma run_tests_count (ts : tests) (passed : nat)
  (out out' : list output) :
  run_tests prog ts out = (Ok passed, out') -> passed <= length ts.
Proof.
  intros H; apply for_items_count in H; lia.
Qed.

End Running.

(** ** Claims on running and judging *)

(** C3: a static test passes iff the actual output, stripped of leading
    and trailing white space, equals the expected output stripped the
    same way.  This holds for the judge on every completed run, and for
    the whole turn of the loop when the program exits with status 0.
    So texts that differ in leading or trailing white space only pass,
    and texts that differ inside do not. *)
Theorem static_pass_iff_stripped_equal :
  forall (prog : program) (name test_input test_output : str)
         (passed : nat) (out : list output),
    (forall proc : completed,
       fst (judge passed (Static test_input test_output) proc out)
       = Ok (S passed)
       <-> strip (stdout proc) = strip test_output)
    /\ (returncode (prog test_input) = 0%Z ->
        let actual := stdout (prog test_input) in
        let r := fst (run_test prog passed
                        (name, Static test_input test_output) out) in
        (r = Ok (S passed) <-> strip actual = strip test_output)
        /\ (r = Ok passed <-> strip actual <> strip test_output)
        /\ (forall l1 r1 l2 r2 core,
              forallb isspace l1 = true -> forallb isspace r1 = true ->
              forallb isspace l2 = true -> forallb isspace r2 = true ->
              actual = l1 ++ core ++ r1 -> test_output = l2 ++ core ++ r2 ->
              r = Ok (S passed))
        /\ (forall c c' u v w1 w2,
              isspace c = false -> isspace c' = false -> w1 <> w2 ->
              actual = c :: u ++ w1 ++ v ++ [c'] ->
              test_output = c :: u ++ w2 ++ v ++ [c'] ->
              r = Ok passed)).
Proof.
  intros prog name test_input test_output passed out.
  assert (J : forall proc : completed,
            fst (judge passed (Static test_input test_output) proc out)
            = Ok (S passed)
            <-> strip (stdout proc) = strip test_output).
  { intros proc; rewrite judge_static, <- str_eqb_eq.
    destruct (str_eqb _ _); split; intros H; try reflexivity;
      try discriminate.
    injection H; lia. }
  split; [exact J|].
  intros Hz actual r.
  assert (R : r = Ok (if str_eqb (strip actual) (strip test_output)
                      then S passed else passed)).
  { unfold r; rewrite (run_test_exit_zero prog passed name
                         (Static test_input test_output) out Hz).
    cbv zeta; simpl input_of; set (out1 := out ++ _).
    assert (K := judge_static passed test_input test_output
                   (prog test_input) out1).
    destruct (judge _ _ _ out1) as [[a|e] out2]; simpl in K |- *;
      [exact K | discriminate]. }
  assert (P : r = Ok (S passed) <-> strip actual = strip test_output).
  { rewrite R, <- str_eqb_eq.
    destruct (str_eqb _ _); split; intros H; try reflexivity;
      try discriminate.
    injection H; lia. }
  assert (F : r = Ok passed <-> strip actual <> strip test_output).
  { rewrite R, <- str_eqb_neq.
    destruct (str_eqb _ _); split; intros H; try reflexivity;
      try discriminate.
    injection H; lia. }
  repeat split; try apply P; try apply F.
  - intros l1 r1 l2 r2 core H1 H2 H3 H4 -> ->.
    apply P; rewrite !strip_frame by assumption; reflexivity.
  - intros c c' u v w1 w2 Hc Hc' Hw Ea Et.
    apply F; rewrite Ea, Et.
    rewrite !app_assoc, !strip_fixed by assumption.
    intros E; injection E as E.
    apply app_inv_tail in E.
    rewrite <- !app_assoc in E.
    apply app_inv_head in E; apply app_inv_tail in E; auto.
Qed.

Lemma static_pass_iff_stripped_equal_witness :
  fst (run_test Examples.squares 0
         (lit "foo#in/out", Static Examples.five (lit " 25")) [])
  = Ok 1.
Proof.
  apply (@static_pass_iff_stripped_equal Examples.squares (lit "foo#in/out")
           Examples.five (lit " 25") 0 []).
  - reflexivity.
  - reflexivity.
Defined.

(** C1, what the code does: the judge calls every checker, the one of a
    per-test checker module too, with the input and the actual output.
    A per-test checker of one parameter, as the documentation of the
    script describes it, makes this call raise [TypeError], whatever it
    would answer on the output; a checker of two parameters gets the
    input as its first argument. *)
Theorem per_test_checker_called_with_input :
  forall (prog : program) (name test_input : str) (passed : nat)
         (out : list output),
    returncode (prog test_input) = 0%Z ->
    (forall f : str -> pyres bool,
       run_test prog passed (name, Checker test_input (PyFun1 f)) out
       = (Raise TypeError,
          out ++ [Inprogress (lit "Running checker test " ++ name
                                ++ lit "...")]))
    /\ (forall g : str -> str -> pyres bool,
          fst (run_test prog passed (name, Checker test_input (PyFun2 g)) out)
          = Ok (S passed)
          <-> g test_input (strip (stdout (prog test_input))) = Ok true).
Proof.
  intros prog name test_input passed out Hz; split.
  - intros f.
    rewrite (run_test_exit_zero prog passed name
               (Checker test_input (PyFun1 f)) out Hz).
    reflexivity.
  - intros g.
    rewrite (run_test_exit_zero prog passed name
               (Checker test_input (PyFun2 g)) out Hz).
    cbv zeta; simpl input_of; set (out1 := out ++ _).
    assert (K := judge_checker passed test_input (PyFun2 g)
                   (prog test_input) out1).
    simpl call2 in K.
    destruct (judge _ _ _ out1) as [[a|e] out2]; simpl in K |- *;
      destruct (g test_input (strip (stdout (prog test_input))))
        as [[|]|e']; try discriminate.
    + injection K as <-; tauto.
    + injection K as <-; split; intros H; [injection H; lia|discriminate].
    + injection K as <-.
      destruct e; simpl; try (split; discriminate).
      destruct (100 <? length stdout0); run_monad; simpl;
        split; intros H; try discriminate; injection H; lia.
Qed.

Lemma per_test_checker_called_with_input_witness :
  run_test Examples.squares 0
    (lit "foo#in/py", Checker Examples.five Examples.output_checker) []
  = (Raise TypeError, [] ++ [Inprogress (lit "Running checker test "
                                           ++ lit "foo#in/py"
                                           ++ lit "...")]).
Proof.
  apply (@per_test_checker_called_with_input Examples.squares
           (lit "foo#in/py") Examples.five 0 []).
  reflexivity.
Defined.

(** The run of the script on a directory with [foo.in] and the checker
    module [foo.py]: the checker accepts the output of the program, and
    the run ends with [TypeError] before any verdict. *)
Example per_test_checker_run :
  get_tests Examples.per_test_checker_dir
  = Ok [(lit "foo#in/py", Checker Examples.five Examples.output_checker)]
  /\ (forall f, Examples.output_checker = PyFun1 f ->
                f (strip (stdout (Examples.squares Examples.five)))
                = Ok true)
  /\ main Examples.per_test_checker_dir Examples.squares []
     = (Raise TypeError,
        [Inprogress (lit "Running checker test foo#in/py...")])
  /\ exit_status (fst (main Examples.per_test_checker_dir
                         Examples.squares [])) = 1%Z.
Proof.
  repeat split.
  intros f E; injection E as <-; reflexivity.
Qed.

(** C8, the claim as the spec states it, fails for a program that exits
    with status 2 after 101 characters of output: the diagnostic does
    not hold the captured output. *)
Lemma long_output_is_not_attached :
  returncode (Examples.crashes_loudly Examples.five) = 2%Z
  /\ stdout (Examples.crashes_loudly Examples.five) = repeat 120%N 101
  /\ run_test Examples.crashes_loudly 0
       (lit "t", Static Examples.five Examples.twenty_five) []
     = (Ok 0,
        [Inprogress (lit "Running static test t...");
         Error (lit "Failed!") false true;
         Error (lit " Program exited with non-zero exit code 2.") false true;
         Error (lit " (Output too long to print.)") false false]).
Proof. repeat split. Qed.

(** ** Doubles *)

Section Doubles.

Local Open Scope Z_scope.
Local Unset Implicit Arguments.

Lemma digits2_pos_size (p : positive) : digits2_pos p = Pos.size p.
Proof. induction p; simpl; congruence. Qed.

Lemma digits2_pos_bounds (p : positive) :
  2 ^ (Zpos (digits2_pos p) - 1) <= Zpos p < 2 ^ Zpos (digits2_pos p).
Proof.
  rewrite digits2_pos_size; split.
  - assert (H := Pos.size_le p).
    apply Pos2Z.pos_le_pos in H.
    rewrite Pos2Z.inj_pow in H.
    replace (Zpos (Pos.size p)) with (Z.succ (Zpos (Pos.size p) - 1)) in H
      by lia.
    rewrite Z.pow_succ_r in H by lia.
    change (Zpos p~0) with (2 * Zpos p) in H; lia.
  - assert (H := Pos.size_gt p).
    apply Pos2Z.pos_lt_pos in H.
    rewrite Pos2Z.inj_pow in H; exact H.
Qed.

Lemma Zdigits2_nonneg (m : Z) : 0 <= Zdigits2 m.
Proof. destruct m; simpl; lia. Qed.

Lemma Zdigits2_le (m k : Z) : 0 <= k -> 0 <= m < 2 ^ k -> Zdigits2 m <= k.
Proof.
  intros Hk [H0 Hm]; destruct m as [|p|p]; simpl; [lia| |lia].
  destruct (digits2_pos_bounds p) as [Hl _].
  destruct (Z_le_gt_dec (Zpos (digits2_pos p)) k) as [|Hgt]; [assumption|].
  assert (2 ^ k <= 2 ^ (Zpos (digits2_pos p) - 1))
    by (apply Z.pow_le_mono_r; lia).
  lia.
Qed.

Lemma Zdigits2_succ (m : Z) : 0 <= m -> Zdigits2 (m + 1) <= Zdigits2 m + 1.
Proof.
  intros H; destruct m as [|p|p]; [simpl; lia| |lia].
  apply Zdigits2_le; [assert (K := Zdigits2_nonneg (Zpos p)); lia|].
  simpl Zdigits2.
  destruct (digits2_pos_bounds p) as [_ Hu].
  rewrite Z.pow_add_r by lia; simpl (2 ^ 1); lia.
Qed.

Lemma shr_1_digits (mrs : shr_record) :
  0 <= shr_m mrs ->
  0 <= shr_m (shr_1 mrs)
  /\ Zdigits2 (shr_m (shr_1 mrs)) <= Z.max 0 (Zdigits2 (shr_m mrs) - 1).
Proof.
  destruct mrs as [m r s]; cbn [shr_m].
  destruct m as [|[p|p|]|p]; cbn [shr_1 shr_m Zdigits2 digits2_pos];
    rewrite ?Pos2Z.inj_succ; lia.
Qed.

Lemma iter_shr_1_digits (p : positive) :
  forall mrs : shr_record,
    0 <= shr_m mrs ->
    0 <= shr_m (iter_pos shr_1 p mrs)
    /\ Zdigits2 (shr_m (iter_pos shr_1 p mrs))
       <= Z.max 0 (Zdigits2 (shr_m mrs) - Zpos p).
Proof.
  induction p as [p IH|p IH|]; intros mrs H; simpl iter_pos.
  - destruct (shr_1_digits mrs H) as [H1 D1].
    destruct (IH _ H1) as [H2 D2].
    destruct (IH _ H2) as [H3 D3].
    split; [assumption|]; rewrite Pos2Z.inj_xI; lia.
  - destruct (IH _ H) as [H2 D2].
    destruct (IH _ H2) as [H3 D3].
    split; [assumption|]; rewrite Pos2Z.inj_xO; lia.
  - apply shr_1_digits, H.
Qed.

Lemma shr_fexp_digits (m e : Z) (l : location) :
  0 <= m ->
  forall mrs e', shr_fexp 53 1024 m e l = (mrs, e') ->
    0 <= shr_m mrs
    /\ e <= e' /\ -1074 <= e'
    /\ e' <= Z.max e (Z.max (Zdigits2 m + e - 53) (-1074))
    /\ Zdigits2 (shr_m mrs) + e' <= Z.max (Zdigits2 m + e) e'.
Proof.
  intros Hm mrs e'; unfold shr_fexp, shr, fexp, emin.
  assert (S : shr_m (shr_record_of_loc m l) = m)
    by (destruct l as [|[| |]]; reflexivity).
  destruct (Z.max (Zdigits2 m + e - 53) (3 - 1024 - 53) - e) as [|p|p] eqn:E;
    intros H; injection H as <- <-; rewrite ?S; try lia.
  destruct (iter_shr_1_digits p (shr_record_of_loc m l)) as [H1 D1];
    [rewrite S; assumption|].
  rewrite S in D1; lia.
Qed.

Lemma round_nearest_even_digits (m : Z) (l : location) :
  0 <= m ->
  0 <= round_nearest_even m l
  /\ Zdigits2 (round_nearest_even m l) <= Zdigits2 m + 1.
Proof.
  intros H; assert (K := Zdigits2_succ m H).
  unfold round_nearest_even.
  destruct l as [|[| |]]; try destruct (Z.even m); lia.
Qed.

(** The result of a rounding is zero or finite when the number to round
    is below [2 ^ 971]. *)
Lemma binary_round_aux_sized (sx : bool) (mx ex : Z) (lx : location) (K : Z) :
  0 <= mx -> Zdigits2 mx + ex <= K -> -1074 <= K <= 971 ->
  sized (Z.max ex (-1074)) (K + 1) (binary_round_aux 53 1024 sx mx ex lx).
Proof.
  intros Hm Hd HK; unfold binary_round_aux.
  destruct (shr_fexp 53 1024 mx ex lx) as [mrs1 e1] eqn:E1.
  destruct (shr_fexp_digits mx ex lx Hm _ _ E1) as (A1 & A2 & A3 & A4 & A5).
  destruct (round_nearest_even_digits (shr_m mrs1) (loc_of_shr_record mrs1)
              A1) as [B1 B2].
  set (m1 := round_nearest_even _ _) in *.
  destruct (shr_fexp 53 1024 m1 e1 loc_Exact) as [mrs2 e2] eqn:E2.
  destruct (shr_fexp_digits m1 e1 loc_Exact B1 _ _ E2)
    as (C1 & C2 & C3 & C4 & C5).
  assert (D := Zdigits2_nonneg mx).
  destruct (shr_m mrs2) as [|m|m] eqn:Em; [exact I| |lia].
  simpl Zdigits2 in C5.
  replace (e2 <=? 1024 - 53) with true by (symmetry; apply Z.leb_le; lia).
  unfold sized; lia.
Qed.

Lemma digits2_pos_iter_xO (m d : positive) :
  Zpos (digits2_pos (Pos.iter xO m d)) = Zpos (digits2_pos m) + Zpos d.
Proof.
  induction d as [|d IH] using Pos.peano_ind.
  - simpl; rewrite Pos2Z.inj_succ; lia.
  - rewrite Pos.iter_succ; cbn [digits2_pos].
    rewrite !Pos2Z.inj_succ, IH; lia.
Qed.

(** An integer below [2 ^ 53] is a double, with a mantissa of 53 bits. *)
Lemma binary64_exact (p : positive) :
  Zpos p < 2 ^ 53 ->
  exists m e,
    binary64 (Zpos p) = S754_finite false m e
    /\ Zpos (digits2_pos m) = 53 /\ -52 <= e <= 0.
Proof.
  intros Hp.
  assert (D : Zpos (digits2_pos p) <= 53)
    by (apply (Zdigits2_le (Zpos p)); lia).
  assert (D0 : 0 < Zpos (digits2_pos p)) by lia.
  unfold binary64, binary_normalize, binary_round, shl_align, fexp, emin.
  set (d := Zpos (digits2_pos p)) in *.
  replace (Z.max (d + 0 - 53) (3 - 1024 - 53) - 0) with (d - 53) by lia.
  assert (R : forall m e, Zpos (digits2_pos m) = 53 -> -52 <= e <= 0 ->
            binary_round_aux 53 1024 false (Zpos m) e loc_Exact
            = S754_finite false m e).
  { intros m e Hm He.
    unfold binary_round_aux, shr_fexp, shr, fexp, emin.
    cbn [Zdigits2 shr_record_of_loc]; rewrite Hm.
    replace (Z.max (53 + e - 53) (3 - 1024 - 53) - e) with 0 by lia.
    cbn [shr_m loc_of_shr_record round_nearest_even Zdigits2
           shr_record_of_loc]; rewrite Hm.
    replace (Z.max (53 + e - 53) (3 - 1024 - 53) - e) with 0 by lia.
    cbn [shr_m].
    replace (e <=? 1024 - 53) with true by (symmetry; apply Z.leb_le; lia).
    reflexivity. }
  destruct (d - 53) as [|q|q] eqn:E; [|lia|].
  - exists p, 0; rewrite R; fold d; repeat split; lia.
  - exists (Pos.iter xO p q), (Z.max (d + 0 - 53) (3 - 1024 - 53)).
    assert (Hq : Zpos (digits2_pos (Pos.iter xO p q)) = 53)
      by (rewrite digits2_pos_iter_xO; fold d; lia).
    rewrite R; repeat split; lia.
Qed.

Lemma div_digits (a b da db : Z) :
  0 <= a < 2 ^ da -> 2 ^ (db - 1) <= b -> 0 <= da -> 1 <= db ->
  0 <= a / b /\ Zdigits2 (a / b) <= Z.max 0 (da - db + 1).
Proof.
  intros [Ha0 Ha] Hb Hda Hdb.
  assert (Hb0 : 0 < b)
    by (assert (0 < 2 ^ (db - 1)) by (apply Z.pow_pos_nonneg; lia); lia).
  split; [apply Z.div_pos; lia|].
  destruct (Z_le_gt_dec 0 (da - db + 1)) as [Hk|Hk].
  - rewrite Z.max_r by assumption.
    apply Zdigits2_le; [assumption|].
    split; [apply Z.div_pos; lia|].
    apply Z.div_lt_upper_bound; [assumption|].
    replace da with ((db - 1) + (da - db + 1)) in Ha by lia.
    rewrite Z.pow_add_r in Ha by lia.
    assert (0 < 2 ^ (da - db + 1)) by (apply Z.pow_pos_nonneg; lia).
    nia.
  - assert (2 ^ da <= 2 ^ (db - 1)) by (apply Z.pow_le_mono_r; lia).
    rewrite Z.div_small by lia; simpl; lia.
Qed.

(** The quotient of two finite doubles is zero or finite when it stays
    below [2 ^ 971]. *)
Lemma SFdiv_sized (sx sy : bool) (mx my : positive) (ex ey K : Z) :
  ex - ey <= K ->
  Zpos (digits2_pos mx) + ex - (Zpos (digits2_pos my) + ey) + 1 <= K ->
  -1074 <= K <= 971 ->
  sized (-1074) (K + 1)
    (SFdiv 53 1024 (S754_finite sx mx ex) (S754_finite sy my ey)).
Proof.
  intros H1 H2 HK; unfold SFdiv, SFdiv_core_binary.
  cbn [Zdigits2].
  set (dx := Zpos (digits2_pos mx)) in *.
  set (dy := Zpos (digits2_pos my)) in *.
  set (e' := Z.min (fexp 53 1024 (dx + ex - (dy + ey))) (ex - ey)).
  assert (He : e' <= ex - ey) by (unfold e'; lia).
  destruct (digits2_pos_bounds mx) as [_ Bx].
  destruct (digits2_pos_bounds my) as [By _].
  fold dx in Bx; fold dy in By.
  set (m' := match ex - ey - e' with
             | 0 => Zpos mx
             | Zpos _ => Z.shiftl (Zpos mx) (ex - ey - e')
             | Zneg _ => 0
             end).
  assert (Hm : 0 <= m' < 2 ^ (dx + (ex - ey - e'))).
  { unfold m'; destruct (ex - ey - e') as [|s|s] eqn:E; [| |lia].
    - rewrite Z.add_0_r; lia.
    - rewrite Z.shiftl_mul_pow2, Z.pow_add_r by lia.
      assert (0 < 2 ^ Zpos s) by (apply Z.pow_pos_nonneg; lia).
      nia. }
  destruct (Z.div_eucl m' (Zpos my)) as [q r] eqn:E.
  assert (Hq : q = m' / Zpos my) by (unfold Z.div; rewrite E; reflexivity).
  destruct (div_digits m' (Zpos my) (dx + (ex - ey - e')) dy Hm By)
    as [Q0 Qd]; [lia | lia |].
  rewrite <- Hq in Q0, Qd.
  assert (S : sized (Z.max e' (-1074)) (K + 1)
                (binary_round_aux 53 1024 (xorb sx sy) q e'
                   (new_location (Zpos my) r)))
    by (apply binary_round_aux_sized; lia).
  destruct (binary_round_aux 53 1024 (xorb sx sy) q e' _);
    unfold sized in *; lia || tauto.
Qed.

(** The product of two finite doubles is zero or finite when it stays
    below [2 ^ 971]. *)
Lemma SFmul_sized (sx sy : bool) (mx my : positive) (ex ey K : Z) :
  Zpos (digits2_pos mx) + ex + (Zpos (digits2_pos my) + ey) <= K ->
  -1074 <= K <= 971 ->
  sized (-1074) (K + 1)
    (SFmul 53 1024 (S754_finite sx mx ex) (S754_finite sy my ey)).
Proof.
  intros H HK; unfold SFmul.
  destruct (digits2_pos_bounds mx) as [_ Bx].
  destruct (digits2_pos_bounds my) as [_ By].
  assert (D : Zdigits2 (Zpos (mx * my))
              <= Zpos (digits2_pos mx) + Zpos (digits2_pos my)).
  { apply Zdigits2_le; [lia|].
    rewrite Pos2Z.inj_mul, Z.pow_add_r by lia; nia. }
  assert (S : sized (Z.max (ex + ey) (-1074)) (K + 1)
                (binary_round_aux 53 1024 (xorb sx sy) (Zpos (mx * my))
                   (ex + ey) loc_Exact))
    by (apply binary_round_aux_sized; lia).
  destruct (binary_round_aux 53 1024 (xorb sx sy) _ _ _);
    unfold sized in *; lia || tauto.
Qed.
(** [round] has a result on a double that is zero or finite. *)
Lemma py_round_sized (lo hi : Z) (x : spec_float) :
  sized lo hi x -> exists z, py_round x = Ok z.
Proof.
  destruct x; simpl; intros H; try contradiction; eexists; reflexivity.
Qed.

(** The percentage of the final report has a result for every count of
    tests other than 0 that a double holds exactly. *)
Lemma percentage_returns (passed total : nat) :
  (0 < total)%nat ->
  Z.of_nat passed < 2 ^ 53 -> Z.of_nat total < 2 ^ 53 ->
  exists pct, percentage passed total = Ok pct.
Proof.
  intros Ht Hp Hb; unfold percentage, truediv.
  destruct (total =? 0)%nat eqn:E; [apply Nat.eqb_eq in E; lia|].
  cbn [pyres_bind].
  destruct (Z.of_nat total) as [|t|t] eqn:Et; try lia.
  destruct (binary64_exact t Hb) as (mt & et & -> & Dt & Bt).
  destruct (binary64_exact 100 eq_refl) as (mc & ec & -> & Dc & Bc).
  destruct (Z.of_nat passed) as [|p|p] eqn:Ep; try lia.
  - exists 0; reflexivity.
  - destruct (binary64_exact p Hp) as (mp & ep & -> & Dp & Bp).
    assert (Q : sized (-1074) (53 + 1)
                  (SFdiv 53 1024 (S754_finite false mp ep)
                     (S754_finite false mt et)))
      by (apply SFdiv_sized; lia).
    destruct (SFdiv 53 1024 _ _) as [s|s| |s m e]; try contradiction.
    + exists 0; reflexivity.
    + unfold sized in Q.
      apply py_round_sized with (lo := -1074) (hi := 107 + 1).
      apply SFmul_sized; lia.
Qed.

End Doubles.

(** ** The final report *)

Lemma main_report (d : directory) (prog : program) (ts : tests)
  (passed : nat) (out out' : list output) :
  get_tests d = Ok ts ->
  run_tests prog ts out = (Ok passed, out') ->
  main d prog out
  = if passed =? length ts
    then (Ok tt, out' ++ [Blank; Success (lit "All tests passed!")])
    else match percentage passed (length ts) with
         | Ok pct => (Ok tt, out' ++ [Blank; tally_line passed (length ts) pct])
         | Raise e => (Raise e, out' ++ [Blank])
         end.
Proof.
  intros Hg Hr; unfold main; run_monad; rewrite Hg, Hr.
  destruct (passed =? length ts).
  - rewrite <- app_assoc; reflexivity.
  - destruct (percentage passed (length ts)); [|reflexivity].
    rewrite <- app_assoc; reflexivity.
Qed.

Lemma percentage_raises (passed total : nat) (e : exn) :
  percentage passed total = Raise e ->
  (total = 0 /\ e = ZeroDivisionError)
  \/ (total <> 0 /\ (e = OverflowError \/ e = ValueError)).
Proof.
  unfold percentage, truediv.
  destruct (total =? 0) eqn:E; simpl.
  - apply Nat.eqb_eq in E; intros H; injection H as <-; auto.
  - apply Nat.eqb_neq in E.
    destruct (SFmul _ _ _ _); simpl; intros H; try discriminate;
      injection H as <-; auto.
Qed.

(** C10: the count that [run_tests] returns is between 0 and the number
    of tests; the division of the final report is evaluated only when
    that count differs from the number of tests, which is then at least
    1, so the division has a result and [main] never ends with a
    division by zero of its own. *)
Theorem report_never_divides_by_zero :
  forall (d : directory) (prog : program) (ts : tests) (passed : nat)
         (out out' : list output),
    get_tests d = Ok ts ->
    run_tests prog ts out = (Ok passed, out') ->
    0 <= passed <= length ts
    /\ (passed = length ts ->
        main d prog out
        = (Ok tt, out' ++ [Blank; Success (lit "All tests passed!")]))
    /\ (passed <> length ts ->
        1 <= length ts
        /\ truediv passed (length ts)
           = Ok (SFdiv 53 1024 (binary64 (Z.of_nat passed))
                   (binary64 (Z.of_nat (length ts))))
        /\ percentage passed (length ts) <> Raise ZeroDivisionError)
    /\ fst (main d prog out) <> Raise ZeroDivisionError.
Proof.
  intros d prog ts passed out out' Hg Hr.
  assert (B := @run_tests_count prog ts passed out out' Hr).
  assert (M := @main_report d prog ts passed out out' Hg Hr).
  assert (NZ : passed <> length ts ->
              percentage passed (length ts) <> Raise ZeroDivisionError).
  { intros Hne E; apply percentage_raises in E.
    destruct E as [[E _]|[_ [E|E]]]; [lia | discriminate | discriminate]. }
  split; [lia|]; split; [|split].
  - intros E; rewrite M; apply Nat.eqb_eq in E; rewrite E; reflexivity.
  - intros Hne; split; [lia|]; split; [|auto].
    unfold truediv.
    destruct (length ts =? 0) eqn:E; [|reflexivity].
    apply Nat.eqb_eq in E; lia.
  - rewrite M.
    destruct (passed =? length ts) eqn:E; [discriminate|].
    apply Nat.eqb_neq in E.
    destruct (percentage passed (length ts)) as [pct|e] eqn:P;
      [discriminate|].
    simpl; intros K; injection K as ->; exact (NZ E eq_refl).
Qed.

Lemma report_never_divides_by_zero_witness :
  fst (main Examples.paired_dir Examples.wrong []) <> Raise ZeroDivisionError.
Proof.
  eapply (@report_never_divides_by_zero Examples.paired_dir Examples.wrong
            _ 0 [] _); reflexivity.
Defined.

(** C2, as the code has it: a run that reaches the final report ends
    with a success status, when every test passed and when some test
    did not; only the line of the report tells the two apart.  (The
    number of tests is one that a double holds exactly, as the
    percentage of the report is computed on doubles.) *)
Theorem exit_status_after_report :
  forall (d : directory) (prog : program) (ts : tests) (passed : nat)
         (out out' : list output),
    get_tests d = Ok ts ->
    run_tests prog ts out = (Ok passed, out') ->
    (Z.of_nat (length ts) < 2 ^ 53)%Z ->
    exit_status (fst (main d prog out)) = 0%Z
    /\ (passed = length ts ->
        main d prog out
        = (Ok tt, out' ++ [Blank; Success (lit "All tests passed!")]))
    /\ (passed <> length ts ->
        exists pct,
          percentage passed (length ts) = Ok pct
          /\ main d prog out
             = (Ok tt, out' ++ [Blank; tally_line passed (length ts) pct])).
Proof.
  intros d prog ts passed out out' Hg Hr Hb.
  assert (M := @main_report d prog ts passed out out' Hg Hr).
  assert (B := @run_tests_count prog ts passed out out' Hr).
  destruct (Nat.eq_dec passed (length ts)) as [E|E].
  - assert (E' := E); apply Nat.eqb_eq in E'; rewrite E' in M.
    rewrite M; split; [reflexivity|]; split; [reflexivity|tauto].
  - assert (E' := E); apply Nat.eqb_neq in E'; rewrite E' in M.
    destruct (percentage_returns passed (length ts)) as [pct P];
      [lia | lia | lia |].
    rewrite P in M; rewrite M; split; [reflexivity|]; split; [tauto|].
    intros _; exists pct; auto.
Qed.

Lemma exit_status_after_report_witness :
  exit_status (fst (main Examples.paired_dir Examples.wrong [])) = 0%Z
  /\ exists pct,
       percentage 0 1 = Ok pct
       /\ main Examples.paired_dir Examples.wrong []
          = (Ok tt,
             [Inprogress (lit "Running static test foo#in/out...");
              Error (lit "Failed (0.001s)!") false true;
              Error (lit " Expected output:") false false;
              Error Examples.twenty_five false false;
              Error (lit " Actual output:") false false;
              Error (lit "26") false false]
             ++ [Blank; tally_line 0 1 pct]).
Proof.
  destruct (@exit_status_after_report Examples.paired_dir Examples.wrong
              [(lit "foo#in/out", Static Examples.five Examples.twenty_five)]
              0 [] _ eq_refl eq_refl eq_refl) as (A & _ & C).
  split; [exact A | apply C; discriminate].
Defined.

(** C2, the claim as the spec states it, fails on a run with one static
    test that the program fails: the final report is reached, no test
    passed, and the exit status is the success status. *)
Lemma failed_run_exits_with_success :
  exists ts passed out',
    get_tests Examples.paired_dir = Ok ts
    /\ run_tests Examples.wrong ts [] = (Ok passed, out')
    /\ passed <> length ts
    /\ exit_status (fst (main Examples.paired_dir Examples.wrong [])) = 0%Z.
Proof.
  do 3 eexists; repeat split.
  discriminate.
Qed.

(** * Further properties *)

Unset Implicit Arguments.

(** ** Keys and kinds of the discovered tests *)

Ltac tags_differ_any :=
  first [tags_differ 5 | tags_differ 6 | tags_differ 7 | tags_differ 8].

Lemma endswith_tag (n t t' : str) :
  In t (in_tags ++ json_tags) -> In t' (in_tags ++ json_tags) ->
  endswith t' (n ++ t) = str_eqb t' t.
Proof.
  intros Ht Ht'.
  destruct (str_eqb t' t) eqn:E.
  - apply str_eqb_eq in E; subst t'.
    apply endswith_app; exists n; reflexivity.
  - destruct (endswith t' (n ++ t)) eqn:F; [|reflexivity].
    apply endswith_app in F; destruct F as [m F].
    exfalso; revert F.
    unfold in_tags, json_tags in Ht, Ht'; simpl in Ht, Ht'.
    destruct Ht as [<-|[<-|[<-|[<-|[<-|[]]]]]];
      destruct Ht' as [<-|[<-|[<-|[<-|[<-|[]]]]]];
      try discriminate E; tags_differ_any.
Qed.

Lemma kind_matches_inserted (n t : str) (v : test) :
  In t (in_tags ++ json_tags) ->
  is_static v = str_eqb t (lit "#in/out") || str_eqb t (lit "#json") ->
  kind_matches_key (n ++ t, v) = true.
Proof.
  intros Ht Hv.
  unfold kind_matches_key, static_key, checker_key; cbn [fst snd].
  rewrite !(endswith_tag n t) by
    (assumption || (unfold in_tags, json_tags; simpl; tauto)).
  rewrite Hv.
  unfold in_tags, json_tags in Ht; simpl in Ht.
  destruct Ht as [<-|[<-|[<-|[<-|[<-|[]]]]]]; reflexivity.
Qed.

(** Every property that holds of the empty dictionary and that an
    assignment of a test under a key of its kind keeps, holds of what
    [get_tests] returns. *)
Lemma get_tests_invariant (I : tests -> Prop) :
  I [] ->
  (forall k t ts, kind_matches_key (k, t) = true -> I ts ->
                  I (dict_set k t ts)) ->
  forall d ts, get_tests d = Ok ts -> I ts.
Proof.
  intros I0 Iset d ts H; unfold get_tests in H.
  destruct (import_alltests d) as [a|]; [|discriminate]; simpl in H.
  assert (Tags : forall t, In t (in_tags ++ json_tags) ->
                 In t (in_tags ++ json_tags)) by auto.
  assert (L : forall l t0 t1, I t0 ->
              for_each (in_file_tests d a) l t0 = Ok t1 -> I t1).
  { induction l as [|x l IH]; intros t0 t1 H0 E; simpl in E.
    - injection E as <-; exact H0.
    - destruct (in_file_tests d a t0 x) as [t2|] eqn:F; [|discriminate].
      simpl in E; apply (IH t2 t1); [|exact E].
      unfold in_file_tests in F.
      set (name := drop_last3 (fst x)) in *.
      assert (I1 : I (match dict_get (name ++ lit ".out") d with
                      | Some f => dict_set (name ++ lit "#in/out")
                                    (Static (content (snd x)) (content f)) t0
                      | None => t0
                      end)).
      { destruct (dict_get (name ++ lit ".out") d); [|exact H0].
        apply Iset; [|exact H0].
        apply kind_matches_inserted; [|reflexivity].
        unfold in_tags; simpl; tauto. }
      set (t01 := match dict_get (name ++ lit ".out") d with
                  | Some f => _ | None => _ end) in *.
      assert (I2 : forall t02,
                match dict_get (name ++ lit ".py") d with
                | Some f =>
                    pyres_bind (module_test f)
                      (fun checker =>
                         Ok (dict_set (name ++ lit "#in/py")
                               (Checker (content (snd x)) checker) t01))
                | None => Ok t01
                end = Ok t02 -> I t02).
      { intros t02 G.
        destruct (dict_get (name ++ lit ".py") d) as [f|].
        - destruct (module_test f) as [c|]; [|discriminate].
          simpl in G; injection G as <-.
          apply Iset; [|exact I1].
          apply kind_matches_inserted; [|reflexivity].
          unfold in_tags; simpl; tauto.
        - injection G as <-; exact I1. }
      destruct (match dict_get (name ++ lit ".py") d with
                | Some f => _ | None => _ end) as [t02|]; [|discriminate].
      simpl in F; injection F as <-.
      specialize (I2 t02 eq_refl).
      destruct (is_not_none a); [|exact I2].
      apply Iset; [|exact I2].
      apply kind_matches_inserted; [|reflexivity].
      unfold in_tags; simpl; tauto. }
  destruct (for_each (in_file_tests d a) (glob_in d) []) as [t1|] eqn:E;
    [|discriminate]; simpl in H.
  assert (I1 := L _ _ _ I0 E).
  assert (J : forall m t0, I t0 -> I (fold_left (json_test a) m t0)).
  { induction m as [|[name l] m IH]; intros t0 H0; simpl; [exact H0|].
    apply IH.
    destruct l as [|i [|o [|z l]]]; try exact H0;
      (apply Iset; [|exact H0]);
      (apply kind_matches_inserted; [|reflexivity]);
      unfold in_tags, json_tags; simpl; tauto. }
  destruct (dict_get (lit "TESTS.json") d) as [f|].
  - destruct (json_load f) as [m|]; [|discriminate].
    simpl in H; injection H as <-; apply J, I1.
  - injection H as <-; exact I1.
Qed.

Lemma dict_get_none {V} (k : str) (d : dict V) :
  dict_get k d = None <-> ~ In k (map fst d).
Proof.
  induction d as [|[k' v'] d IH]; simpl; [tauto|].
  destruct (str_eqb k k') eqn:E.
  - apply str_eqb_eq in E; subst; split; [discriminate|tauto].
  - apply str_eqb_neq in E; rewrite IH; split; [intros H [F|F]|]; auto.
Qed.

Lemma dict_set_keys {V} (k : str) (v : V) (d : dict V) :
  map fst (dict_set k v d)
  = match dict_get k d with
    | Some _ => map fst d
    | None => map fst d ++ [k]
    end.
Proof.
  induction d as [|[k' v'] d IH]; simpl; [reflexivity|].
  destruct (str_eqb k k') eqn:E; simpl; [reflexivity|].
  rewrite IH; destruct (dict_get k d); reflexivity.
Qed.

Lemma dict_set_NoDup {V} (k : str) (v : V) (d : dict V) :
  NoDup (map fst d) -> NoDup (map fst (dict_set k v d)).
Proof.
  intros H; rewrite dict_set_keys.
  destruct (dict_get k d) eqn:E; [exact H|].
  apply dict_get_none in E.
  apply NoDup_app; [exact H | repeat constructor; simpl; tauto |].
  intros x Hx [<-|[]]; auto.
Qed.

Lemma dict_get_In {V} (k : str) (v : V) (d : dict V) :
  NoDup (map fst d) -> In (k, v) d -> dict_get k d = Some v.
Proof.
  induction d as [|[k' v'] d IH]; simpl; [tauto|].
  intros Hnd [E|Hin]; inversion Hnd as [|? ? Hk Hd]; subst.
  - injection E as -> ->; rewrite str_eqb_refl; reflexivity.
  - destruct (str_eqb k k') eqn:E; [|auto].
    apply str_eqb_eq in E; subst k'.
    exfalso; apply Hk, (in_map fst _ _ Hin).
Qed.

Lemma dict_set_In {V} (k k0 : str) (v v0 : V) (d : dict V) :
  In (k0, v0) (dict_set k v d) -> (k0 = k /\ v0 = v) \/ In (k0, v0) d.
Proof.
  induction d as [|[k' v'] d IH]; simpl.
  - intros [E|[]]; injection E as <- <-; auto.
  - destruct (str_eqb k k') eqn:E; simpl.
    + apply str_eqb_eq in E; subst k'.
      intros [F|F]; [injection F as <- <-|]; auto.
    + intros [F|F]; [auto|]. destruct (IH F); auto.
Qed.

(** X2: the kind of every discovered test can be read off its key: a
    test is static iff its key ends with [#in/out] or [#json], and has
    a checker iff its key ends with [#in/py], [#in/atpy] or
    [#json/atpy]. *)
Theorem discovered_kind_matches_key :
  forall (d : directory) (ts : tests),
    get_tests d = Ok ts ->
    forall k t, In (k, t) ts ->
      (is_static t = true <-> static_key k = true)
      /\ (is_static t = false <-> checker_key k = true).
Proof.
  intros d ts H.
  assert (F : Forall (fun item => kind_matches_key item = true) ts).
  { revert d ts H; apply get_tests_invariant; [constructor|].
    intros k t ts Hk Hts.
    apply Forall_forall; intros [k0 t0] Hin.
    apply dict_set_In in Hin; destruct Hin as [[-> ->]|Hin]; [exact Hk|].
    apply (proj1 (Forall_forall _ _) Hts _ Hin). }
  intros k t Hin.
  assert (K := proj1 (Forall_forall _ _) F _ Hin).
  unfold kind_matches_key in K; cbn [fst snd] in K.
  apply andb_true_iff in K; destruct K as [K1 K2].
  apply eqb_prop in K1; apply eqb_prop in K2.
  rewrite <- K1, <- K2; destruct (is_static t); simpl; split; split;
    congruence.
Qed.

Lemma discovered_kind_matches_key_witness :
  (is_static (Checker Examples.five Examples.output_checker) = true
   <-> static_key (lit "foo#in/py") = true)
  /\ (is_static (Checker Examples.five Examples.output_checker) = false
      <-> checker_key (lit "foo#in/py") = true).
Proof.
  apply (discovered_kind_matches_key Examples.foo_dir _ eq_refl).
  simpl; tauto.
Defined.

(** ** The tests of the manifest *)

Lemma json_key_inj (n n' t t' : str) :
  In t json_tags -> In t' json_tags -> n ++ t = n' ++ t' ->
  n = n' /\ t = t'.
Proof.
  unfold json_tags; simpl.
  intros [<-|[<-|[]]] [<-|[<-|[]]] E;
    try (split; [eapply app_inv_tail; exact E | reflexivity]);
    exfalso; revert E; tags_differ_any.
Qed.

Lemma entry_test_spec (alltests : pyobj) (name : str) (l : list str)
  (ts : tests) :
  json_test alltests ts (name, l)
  = match entry_test alltests l with
    | Some (tag, t) => dict_set (name ++ tag) t ts
    | None => ts
    end.
Proof. destruct l as [|t0 [|t1 [|t2 l]]]; reflexivity. Qed.

Lemma entry_test_tag (alltests : pyobj) (l : list str) (tag : str)
  (t : test) :
  entry_test alltests l = Some (tag, t) -> In tag json_tags.
Proof.
  destruct l as [|t0 [|t1 [|t2 l]]]; simpl; intros H; try discriminate;
    injection H as <- _; unfold json_tags; simpl; tauto.
Qed.

Lemma manifest_keeps (alltests : pyobj) (m : dict (list str)) (name tag : str) :
  In tag json_tags -> ~ In name (map fst m) ->
  forall ts,
    dict_get (name ++ tag) (fold_left (json_test alltests) m ts)
    = dict_get (name ++ tag) ts.
Proof.
  intros Htag; induction m as [|[n l] m IH]; intros Hn ts;
    cbn [fold_left]; [reflexivity|].
  simpl in Hn; rewrite IH by tauto.
  rewrite entry_test_spec.
  destruct (entry_test alltests l) as [[tag' t]|] eqn:E; [|reflexivity].
  apply dict_get_set_other; intros F.
  apply json_key_inj in F;
    [destruct F as [-> _]; tauto | exact Htag
    | exact (entry_test_tag _ _ _ _ E)].
Qed.

Lemma manifest_entry (alltests : pyobj) (m : dict (list str))
  (name : str) (l : list str) :
  NoDup (map fst m) -> In (name, l) m ->
  forall ts tag t,
    entry_test alltests l = Some (tag, t) ->
    dict_get (name ++ tag) (fold_left (json_test alltests) m ts) = Some t.
Proof.
  induction m as [|[n l'] m IH]; intros Hnd Hin ts tag t E; [destruct Hin|].
  simpl in Hnd; inversion Hnd as [|? ? Hn Hm]; subst.
  cbn [fold_left]; destruct Hin as [F|Hin].
  - injection F as -> ->.
    rewrite manifest_keeps by
      (assumption || exact (entry_test_tag _ _ _ _ E)).
    rewrite entry_test_spec, E; apply dict_get_set_same.
  - apply IH; assumption.
Qed.

(** X3: when the names of the manifest are pairwise different, every
    entry with an input and an output is found as a static test under
    [name#json], and every entry with an input only as a checker test
    under [name#json/atpy], with the shared checker (or [None]) as its
    checker. *)
Theorem manifest_entries_discovered :
  forall (d : directory) (f : file) (m : dict (list str)) (a : pyobj)
         (ts : tests),
    dict_get (lit "TESTS.json") d = Some f ->
    json_load f = Ok m ->
    NoDup (map fst m) ->
    import_alltests d = Ok a ->
    get_tests d = Ok ts ->
    (forall name i o, In (name, [i; o]) m ->
       dict_get (name ++ lit "#json") ts = Some (Static i o))
    /\ (forall name i, In (name, [i]) m ->
          dict_get (name ++ lit "#json/atpy") ts = Some (Checker i a)).
Proof.
  intros d f m a ts Hf Hm Hnd Ha H.
  unfold get_tests in H; rewrite Ha in H; simpl in H.
  destruct (for_each (in_file_tests d a) (glob_in d) []) as [t1|];
    [|discriminate]; simpl in H.
  rewrite Hf, Hm in H; simpl in H; injection H as <-.
  split; intros name i; intros; eapply manifest_entry; eauto.
Qed.

Lemma manifest_entries_discovered_witness :
  dict_get (lit "t2" ++ lit "#json")
    [(lit "t1#json/atpy", Checker Examples.five Examples.square_checker);
     (lit "t2#json", Static Examples.five Examples.twenty_five)]
  = Some (Static Examples.five Examples.twenty_five).
Proof.
  apply (manifest_entries_discovered MoreExamples.manifest_dir
           (json_file MoreExamples.manifest) MoreExamples.manifest
           Examples.square_checker); try reflexivity.
  - repeat constructor; simpl; intuition discriminate.
  - right; left; reflexivity.
Defined.

(** ** The tests of the input files *)

Lemma in_file_tests_absent (d : directory) (a : pyobj) (b ext tag : str)
  (x : str * file) (t0 t1 : tests) :
  (ext = lit ".out" /\ tag = lit "#in/out")
  \/ (ext = lit ".py" /\ tag = lit "#in/py") ->
  dict_get (b ++ ext) d = None ->
  in_file_tests d a t0 x = Ok t1 ->
  dict_get (b ++ tag) t1 = dict_get (b ++ tag) t0.
Proof.
  intros Hext Hb H.
  assert (Ht : In tag in_tags)
    by (unfold in_tags; simpl; destruct Hext as [[_ ->]|[_ ->]]; tauto).
  destruct (str_eqb b (drop_last3 (fst x))) eqn:E.
  - apply str_eqb_eq in E; subst b.
    unfold in_file_tests in H.
    set (name := drop_last3 (fst x)) in *.
    assert (D1 : name ++ lit "#in/out" <> name ++ lit "#in/py")
      by tags_differ 6.
    assert (D2 : name ++ lit "#in/out" <> name ++ lit "#in/atpy")
      by tags_differ 7.
    assert (D3 : name ++ lit "#in/py" <> name ++ lit "#in/atpy")
      by tags_differ 6.
    destruct Hext as [[-> ->]|[-> ->]]; rewrite Hb in H.
    + destruct (dict_get (name ++ lit ".py") d) as [f|];
        [destruct (module_test f) as [c|]; [|discriminate]|];
        simpl in H; injection H as <-;
        destruct (is_not_none a);
        rewrite ?(dict_get_set_other _ _ D2), ?(dict_get_set_other _ _ D1);
        reflexivity.
    + simpl in H; injection H as <-.
      destruct (is_not_none a);
        destruct (dict_get (name ++ lit ".out") d);
        rewrite ?(dict_get_set_other _ _ D3),
          ?(dict_get_set_other _ _ (not_eq_sym D1));
        reflexivity.
  - apply str_eqb_neq in E.
    eapply in_file_tests_other; eauto.
Qed.

Lemma in_loop_absent (d : directory) (a : pyobj) (b ext tag : str) :
  (ext = lit ".out" /\ tag = lit "#in/out")
  \/ (ext = lit ".py" /\ tag = lit "#in/py") ->
  dict_get (b ++ ext) d = None ->
  forall l t0 t1,
    for_each (in_file_tests d a) l t0 = Ok t1 ->
    dict_get (b ++ tag) t1 = dict_get (b ++ tag) t0.
Proof.
  intros Hext Hb; induction l as [|x l IH]; intros t0 t1 H; simpl in H.
  - injection H as <-; reflexivity.
  - destruct (in_file_tests d a t0 x) as [t2|] eqn:E; [|discriminate].
    simpl in H; rewrite (IH _ _ H).
    eapply in_file_tests_absent; eauto.
Qed.

(** A test under a tag of the loop over the input files comes from an
    input file of that base name. *)
Lemma file_test_origin (d : directory) (ts : tests) (b tag : str) (t : test) :
  In tag in_tags ->
  get_tests d = Ok ts ->
  dict_get (b ++ tag) ts = Some t ->
  exists a t1 x,
    import_alltests d = Ok a
    /\ for_each (in_file_tests d a) (glob_in d) [] = Ok t1
    /\ dict_get (b ++ tag) t1 = Some t
    /\ In x (glob_in d) /\ b = drop_last3 (fst x).
Proof.
  intros Htag H Hb; unfold get_tests in H.
  destruct (import_alltests d) as [a|]; [|discriminate]; simpl in H.
  destruct (for_each (in_file_tests d a) (glob_in d) []) as [t1|] eqn:E;
    [|discriminate]; simpl in H.
  assert (Hb1 : dict_get (b ++ tag) t1 = Some t).
  { destruct (dict_get (lit "TESTS.json") d) as [f|];
      [destruct (json_load f) as [m|]; [|discriminate]|];
      simpl in H; injection H as <-; [|exact Hb].
    rewrite manifest_other in Hb; [exact Hb|].
    intros name; apply in_key_not_json, Htag. }
  destruct (@in_loop_keys d a (glob_in d) _ _ _ _ E Hb1)
    as [Hc|(x & t' & Hx & Ht' & Ek)]; [discriminate|].
  exists a, t1, x; repeat split; auto.
  apply in_key_inj in Ek; tauto.
Qed.

(** X4: discovery is exact for the paired files and the per-test
    checkers: a static test under [b#in/out] is there only when the
    input file [b.in] and the output file [b.out] exist, and holds
    their two texts; a checker test under [b#in/py] is there only when
    [b.in] and the module [b.py] exist, and holds the text of [b.in]
    and the function [test] of the module. *)
Theorem file_tests_exact :
  forall (d : directory) (ts : tests),
    NoDup (map fst d) ->
    get_tests d = Ok ts ->
    (forall b t, dict_get (b ++ lit "#in/out") ts = Some t ->
       exists x fout,
         In x (glob_in d) /\ fst x = b ++ lit ".in"
         /\ dict_get (b ++ lit ".out") d = Some fout
         /\ t = Static (content (snd x)) (content fout))
    /\ (forall b t, dict_get (b ++ lit "#in/py") ts = Some t ->
          exists x fpy chk,
            In x (glob_in d) /\ fst x = b ++ lit ".in"
            /\ dict_get (b ++ lit ".py") d = Some fpy
            /\ module_test fpy = Ok chk
            /\ t = Checker (content (snd x)) chk).
Proof.
  intros d ts Hnd H.
  destruct (@get_tests_recorded d ts Hnd H) as (a0 & Ha0 & R).
  assert (Name : forall x, In x (glob_in d) ->
                 fst x = drop_last3 (fst x) ++ lit ".in").
  { intros x Hx; apply endswith_in_name.
    apply filter_In in Hx; destruct Hx as [_ Hx].
    apply andb_true_iff in Hx; tauto. }
  split; intros b t Hb.
  - destruct (file_test_origin d ts b (lit "#in/out") t) as
      (a & t1 & x & Ha & E & Hb1 & Hx & ->); auto;
      [unfold in_tags; simpl; tauto|].
    destruct (dict_get (drop_last3 (fst x) ++ lit ".out") d) as [fout|] eqn:F.
    + exists x, fout; repeat split; auto.
      destruct (R x Hx) as (R1 & _ & _).
      rewrite (R1 fout F) in Hb; congruence.
    + rewrite (in_loop_absent d a _ (lit ".out") (lit "#in/out")
                 (or_introl (conj eq_refl eq_refl)) F _ _ _ E) in Hb1.
      discriminate.
  - destruct (file_test_origin d ts b (lit "#in/py") t) as
      (a & t1 & x & Ha & E & Hb1 & Hx & ->); auto;
      [unfold in_tags; simpl; tauto|].
    destruct (dict_get (drop_last3 (fst x) ++ lit ".py") d) as [fpy|] eqn:F.
    + destruct (R x Hx) as (_ & R2 & _).
      destruct (R2 fpy F) as (chk & Hm & Hg).
      exists x, fpy, chk; repeat split; auto.
      rewrite Hg in Hb; congruence.
    + rewrite (in_loop_absent d a _ (lit ".py") (lit "#in/py")
                 (or_intror (conj eq_refl eq_refl)) F _ _ _ E) in Hb1.
      discriminate.
Qed.

Lemma file_tests_exact_witness :
  exists x fout,
    In x (glob_in Examples.paired_dir) /\ fst x = lit "foo" ++ lit ".in"
    /\ dict_get (lit "foo" ++ lit ".out") Examples.paired_dir = Some fout
    /\ Static Examples.five Examples.twenty_five
       = Static (content (snd x)) (content fout).
Proof.
  destruct (file_tests_exact Examples.paired_dir
              [(lit "foo#in/out", Static Examples.five Examples.twenty_five)])
    as [A _].
  - repeat constructor; simpl; intuition discriminate.
  - reflexivity.
  - apply (A (lit "foo")); reflexivity.
Defined.

(** X6: discovery yields at most three tests for every input file and
    one for every entry of the manifest. *)
Theorem discovered_tests_bound :
  forall (d : directory) (ts : tests),
    get_tests d = Ok ts ->
    exists m,
      (dict_get (lit "TESTS.json") d = None /\ m = []
       \/ exists f, dict_get (lit "TESTS.json") d = Some f
                    /\ json_load f = Ok m)
      /\ length ts <= 3 * length (glob_in d) + length m.
Proof.
  intros d ts H; unfold get_tests in H.
  destruct (import_alltests d) as [a|]; [|discriminate]; simpl in H.
  assert (S1 : forall k (v : test) t, length (dict_set k v t) <= S (length t)).
  { intros k v t; induction t as [|[k' v'] t IH]; simpl; [lia|].
    destruct (str_eqb k k'); simpl; lia. }
  assert (L : forall l t0 t1,
              for_each (in_file_tests d a) l t0 = Ok t1 ->
              length t1 <= 3 * length l + length t0).
  { induction l as [|x l IH]; intros t0 t1 E; simpl in E.
    - injection E as <-; simpl; lia.
    - destruct (in_file_tests d a t0 x) as [t2|] eqn:F; [|discriminate].
      simpl in E; apply IH in E.
      assert (length t2 <= 3 + length t0); [|simpl length; lia].
      unfold in_file_tests in F.
      set (name := drop_last3 (fst x)) in *.
      destruct (dict_get (name ++ lit ".py") d) as [f|];
        [destruct (module_test f) as [c|]; [|discriminate]|];
        simpl in F; injection F as <-;
        destruct (is_not_none a);
        destruct (dict_get (name ++ lit ".out") d);
        repeat match goal with
          | |- context [dict_set ?k ?v ?t] =>
              lazymatch goal with
              | K : length (dict_set k v t) <= S (length t) |- _ => fail
              | _ => pose proof (S1 k v t)
              end
          end; lia. }
  assert (J : forall m t0,
              length (fold_left (json_test a) m t0) <= length m + length t0).
  { induction m as [|[name l] m IH]; intros t0; cbn [fold_left]; [simpl; lia|].
    etransitivity; [apply IH|].
    rewrite entry_test_spec.
    destruct (entry_test a l) as [[tag t]|]; simpl length;
      [assert (K := S1 (name ++ tag) t t0)|]; lia. }
  destruct (for_each (in_file_tests d a) (glob_in d) []) as [t1|] eqn:E;
    [|discriminate]; simpl in H.
  apply L in E; simpl in E.
  destruct (dict_get (lit "TESTS.json") d) as [f|].
  - destruct (json_load f) as [m|] eqn:Hm; [|discriminate].
    simpl in H; injection H as <-.
    exists m; split; [right; eauto|].
    assert (K := J m t1); lia.
  - injection H as <-; exists []; split; [auto|simpl; lia].
Qed.

Lemma discovered_tests_bound_witness :
  exists m,
    (dict_get (lit "TESTS.json") Examples.foo_dir = None /\ m = []
     \/ exists f, dict_get (lit "TESTS.json") Examples.foo_dir = Some f
                  /\ json_load f = Ok m)
    /\ 3 <= 3 * length (glob_in Examples.foo_dir) + length m.
Proof.
  apply (discovered_tests_bound Examples.foo_dir
           [(lit "foo#in/out", Static Examples.five Examples.twenty_five);
            (lit "foo#in/py", Checker Examples.five Examples.output_checker);
            (lit "foo#in/atpy",
             Checker Examples.five Examples.square_checker)]).
  reflexivity.
Defined.

(** X7: without a shared checker (no [ALLTESTS.py], or one whose
    [test] is [None]) no test is recorded under the tag [#in/atpy]. *)
Theorem no_bulk_test_without_checker :
  forall (d : directory) (ts : tests) (a : pyobj),
    import_alltests d = Ok a ->
    is_not_none a = false ->
    get_tests d = Ok ts ->
    forall b, dict_get (b ++ lit "#in/atpy") ts = None.
Proof.
  intros d ts a Ha Hn H b.
  destruct (dict_get (b ++ lit "#in/atpy") ts) as [t|] eqn:Hb;
    [|reflexivity].
  destruct (file_test_origin d ts b (lit "#in/atpy") t) as
    (a' & t1 & x & Ha' & E & Hb1 & _); auto;
    [unfold in_tags; simpl; tauto|].
  rewrite Ha in Ha'; injection Ha' as <-.
  assert (L : forall l t0 t2,
              for_each (in_file_tests d a) l t0 = Ok t2 ->
              dict_get (b ++ lit "#in/atpy") t2
              = dict_get (b ++ lit "#in/atpy") t0).
  { induction l as [|y l IH]; intros t0 t2 F; simpl in F.
    - injection F as <-; reflexivity.
    - destruct (in_file_tests d a t0 y) as [t3|] eqn:G; [|discriminate].
      simpl in F; rewrite (IH _ _ F).
      unfold in_file_tests in G; rewrite Hn in G.
      set (name := drop_last3 (fst y)) in *.
      assert (D1 : b ++ lit "#in/atpy" <> name ++ lit "#in/out")
        by tags_differ 7.
      assert (D2 : b ++ lit "#in/atpy" <> name ++ lit "#in/py")
        by tags_differ 6.
      destruct (dict_get (name ++ lit ".py") d) as [f|];
        [destruct (module_test f) as [c|]; [|discriminate]|];
        simpl in G; injection G as <-;
        destruct (dict_get (name ++ lit ".out") d);
        rewrite ?(dict_get_set_other _ _ D2), ?(dict_get_set_other _ _ D1);
        reflexivity. }
  rewrite (L _ _ _ E) in Hb1; discriminate.
Qed.

Lemma no_bulk_test_without_checker_witness :
  dict_get (lit "foo" ++ lit "#in/atpy")
    [(lit "foo#in/out", Static Examples.five Examples.twenty_five)]
  = None.
Proof.
  apply (no_bulk_test_without_checker Examples.paired_dir _ PyNone);
    reflexivity.
Defined.

(** ** The tally of run_tests *)

Lemma for_items_app (prog : program) (l1 l2 : tests) :
  forall passed out,
    for_items prog (l1 ++ l2) passed out
    = match for_items prog l1 passed out with
      | (Ok p1, out1) => for_items prog l2 p1 out1
      | (Raise e, out1) => (Raise e, out1)
      end.
Proof.
  induction l1 as [|item l1 IH]; intros passed out; [reflexivity|].
  cbn [for_items app]; unfold bind.
  destruct (run_test prog passed item out) as [[p|e] out1]; [|reflexivity].
  apply IH.
Qed.




(** ** Checkers that raise *)

(** X10: when a checker raises anything but [CalledProcessError] (so
    also when the checker is [None] or takes one argument), the run of
    the tests stops there with that exception: the tests that follow
    are not run, and nothing is printed after the line that announces
    the test. *)
Theorem checker_exception_aborts_run :
  forall (prog : program) (ts1 ts2 : tests) (name test_input : str)
         (checker : pyobj) (e : exn) (passed : nat)
         (out out1 : list output),
    run_tests prog ts1 out = (Ok passed, out1) ->
    returncode (prog test_input) = 0%Z ->
    call2 checker test_input (strip (stdout (prog test_input))) = Raise e ->
    (forall code o, e <> CalledProcessError code o) ->
    run_tests prog (ts1 ++ (name, Checker test_input checker) :: ts2) out
    = (Raise e,
       out1 ++ [Inprogress (lit "Running checker test " ++ name
                              ++ lit "...")]).
Proof.
  intros prog ts1 ts2 name i c e passed out out1 H1 Hz Hc He.
  unfold run_tests in *; rewrite for_items_app, H1.
  cbn [for_items]; unfold bind.
  rewrite (run_test_exit_zero prog passed name (Checker i c) out1 Hz).
  cbv zeta; cbn [input_of]; unfold judge; run_monad; rewrite Hc.
  destruct e; try reflexivity.
  exfalso; eapply He; reflexivity.
Qed.

Lemma checker_exception_aborts_run_witness :
  run_tests Examples.squares
    ([(lit "a", Static Examples.five (lit "25"))]
     ++ (lit "t1#json/atpy", Checker Examples.five PyNone)
     :: [(lit "b", Static Examples.five (lit "25"))]) []
  = (Raise TypeError,
     [Inprogress (lit "Running static test a...");
      Success (lit "Passed (0.001s)!")]
     ++ [Inprogress (lit "Running checker test " ++ lit "t1#json/atpy"
                       ++ lit "...")]).
Proof.
  apply (checker_exception_aborts_run Examples.squares
           [(lit "a", Static Examples.five (lit "25"))]
           [(lit "b", Static Examples.five (lit "25"))]
           (lit "t1#json/atpy") Examples.five PyNone TypeError 1 []);
    try reflexivity.
  discriminate.
Defined.

(** X11: the [except] clause covers the judge too: when the program
    exits with status 0 and the checker raises [CalledProcessError],
    the test is reported as a run that exited with the status the
    exception carries, with the output the exception carries, and the
    loop goes on. *)
Theorem checker_process_error_is_caught :
  forall (prog : program) (name test_input : str) (checker : pyobj)
         (code : Z) (o : str) (passed : nat) (out : list output),
    returncode (prog test_input) = 0%Z ->
    call2 checker test_input (strip (stdout (prog test_input)))
    = Raise (CalledProcessError code o) ->
    run_test prog passed (name, Checker test_input checker) out
    = (Ok passed,
       out ++ [Inprogress (lit "Running checker test " ++ name
                             ++ lit "...")]
           ++ execution_failure_lines code o).
Proof.
  intros prog name i c code o passed out Hz Hc.
  rewrite (run_test_exit_zero prog passed name (Checker i c) out Hz).
  cbv zeta; cbn [input_of]; unfold judge; run_monad; rewrite Hc.
  destruct (called_process_error_returns passed code o
              (out ++ [Inprogress (lit "Running " ++ test_type (Checker i c)
                                     ++ lit " test " ++ name ++ lit "...")]))
    as (h & -> & ->).
  rewrite <- app_assoc; reflexivity.
Qed.

Lemma checker_process_error_is_caught_witness :
  run_test Examples.squares 0
    (lit "t", Checker Examples.five MoreExamples.failing_checker) []
  = (Ok 0,
     [] ++ [Inprogress (lit "Running checker test " ++ lit "t" ++ lit "...")]
        ++ execution_failure_lines 3 (lit "no")).
Proof.
  apply (checker_process_error_is_caught Examples.squares (lit "t")
           Examples.five MoreExamples.failing_checker 3 (lit "no") 0 []);
    reflexivity.
Defined.

(** ** Paths *)

Lemma from_sep_no_sep (s t : str) :
  forallb (fun c => negb (is_sep c)) s = true ->
  from_sep (s ++ t) = from_sep t.
Proof.
  induction s as [|c s IH]; simpl; [reflexivity|].
  rewrite andb_true_iff; intros [Hc Hs].
  destruct (is_sep c); [discriminate|auto].
Qed.

Lemma forallb_rev {A} (f : A -> bool) (l : list A) :
  forallb f (rev l) = forallb f l.
Proof.
  induction l as [|a l IH]; simpl; [reflexivity|].
  rewrite forallb_app, IH; simpl; rewrite andb_true_r, andb_comm.
  reflexivity.
Qed.

Lemma dirname_nonempty_or_dot (p : str) : nonempty (better_dirname p) = true.
Proof.
  unfold better_dirname.
  destruct (nonempty (dirname p)) eqn:E; [exact E|reflexivity].
Qed.

(** X12: [better_dirname] never returns the empty text, and for a path
    without [/] (a program named without its directory) it returns
    [.]; so in [--auto] mode the tests of such a program are looked for
    in [./tests] and then in [.]. *)
Theorem better_dirname_of_bare_name :
  forall p : str,
    better_dirname p <> []
    /\ (forallb (fun c => negb (is_sep c)) p = true ->
        better_dirname p = lit "."
        /\ join (better_dirname p) (lit "tests") = lit "./tests").
Proof.
  intros p; split.
  - assert (H := dirname_nonempty_or_dot p).
    destruct (better_dirname p); [discriminate|congruence].
  - intros Hp.
    assert (D : dirname p = []).
    { unfold dirname.
      assert (F : from_sep (rev p) = []).
      { rewrite <- (app_nil_r (rev p)), from_sep_no_sep; [reflexivity|].
        rewrite forallb_rev; exact Hp. }
      rewrite F; reflexivity. }
    unfold better_dirname; rewrite D; split; reflexivity.
Qed.

Lemma better_dirname_of_bare_name_witness :
  better_dirname (lit "a.cpp") = lit "."
  /\ join (better_dirname (lit "a.cpp")) (lit "tests") = lit "./tests".
Proof.
  apply (better_dirname_of_bare_name (lit "a.cpp")).
  reflexivity.
Defined.

(** X13: [better_dirname] undoes [os.path.join]: for a directory name
    that is not empty and does not end with [/], and a file name
    without [/], the directory of the joined path is the directory
    name. *)
Theorem better_dirname_join :
  forall (dir : str) (c : N) (name : str),
    is_sep c = false ->
    forallb (fun x => negb (is_sep x)) name = true ->
    join (dir ++ [c]) name = dir ++ [c] ++ lit "/" ++ name
    /\ better_dirname (join (dir ++ [c]) name) = dir ++ [c].
Proof.
  intros dir c name Hc Hn.
  assert (J : join (dir ++ [c]) name = dir ++ [c] ++ lit "/" ++ name).
  { unfold join.
    assert (S : startswith (lit "/") name = false).
    { destruct name as [|x name]; [reflexivity|].
      simpl in Hn; apply andb_true_iff in Hn; destruct Hn as [Hx _].
      unfold is_sep in Hx.
      change (lit "/") with [47%N]; cbn [startswith].
      destruct (N.eqb x 47) eqn:E; [discriminate|].
      rewrite N.eqb_sym, E; reflexivity. }
    rewrite S.
    assert (N1 : nonempty (dir ++ [c]) = true) by (destruct dir; reflexivity).
    assert (E : endswith (lit "/") (dir ++ [c]) = false).
    { unfold endswith; rewrite rev_app_distr.
      change (rev (lit "/")) with [47%N]; cbn [rev app startswith].
      unfold is_sep in Hc; rewrite N.eqb_sym, Hc; reflexivity. }
    rewrite N1, E; simpl; rewrite <- app_assoc; reflexivity. }
  split; [exact J|]; rewrite J.
  assert (D : dirname (dir ++ [c] ++ lit "/" ++ name) = dir ++ [c]).
  { unfold dirname.
    assert (R : rev (dir ++ [c] ++ lit "/" ++ name)
                = rev name ++ 47%N :: c :: rev dir).
    { rewrite !rev_app_distr; simpl; rewrite <- !app_assoc; reflexivity. }
    rewrite R, from_sep_no_sep by (rewrite forallb_rev; exact Hn).
    cbn [from_sep]; change (is_sep 47) with true; cbv iota.
    assert (H : rev (47%N :: c :: rev dir) = dir ++ [c] ++ lit "/").
    { simpl; rewrite rev_involutive, <- app_assoc; reflexivity. }
    rewrite H.
    assert (N1 : nonempty (dir ++ [c] ++ lit "/") = true)
      by (destruct dir; reflexivity).
    assert (A : forallb is_sep (dir ++ [c] ++ lit "/") = false).
    { rewrite forallb_app; simpl; rewrite Hc, andb_false_r; reflexivity. }
    rewrite N1, A; cbn [negb andb].
    unfold rstrip_sep; rewrite <- H, rev_involutive.
    cbn [lstrip_sep]; change (is_sep 47) with true; cbv iota.
    rewrite Hc; simpl; rewrite rev_involutive; reflexivity. }
  unfold better_dirname; rewrite D.
  destruct dir; reflexivity.
Qed.

Lemma better_dirname_join_witness :
  join (lit "so" ++ [108%N]) (lit "a.cpp")
  = lit "so" ++ [108%N] ++ lit "/" ++ lit "a.cpp"
  /\ better_dirname (join (lit "so" ++ [108%N]) (lit "a.cpp"))
     = lit "so" ++ [108%N].
Proof.
  apply (better_dirname_join (lit "so") 108%N (lit "a.cpp")); reflexivity.
Defined.

(** ** init *)

Lemma error_if_true (text : str) (out : list console) :
  error_if true text out
  = (Raise (SystemExit 1), out ++ [Script (Error text true true)]).
Proof. reflexivity. Qed.

Lemma error_if_false (text : str) (out : list console) :
  error_if false text out = (Ok tt, out).
Proof. reflexivity. Qed.

(** The decisions of [init], one after the other. *)
Lemma init_cases (fs : filesystem) (sys_path : list (option str)) (a : args)
  (out : list console) :
  init fs sys_path a out
  = if negb (fs_isfile fs (arg_program a))
    then (Raise (SystemExit 1),
          out ++ [init_error_line
                    (lit "File does not exist: " ++ arg_program a)])
    else if given (arg_test_dir a)
    then
      if arg_auto a
      then (Raise (SystemExit 1),
            out ++ [init_error_line
                      (lit "Only one of --test-dir or --auto must be provided.")])
      else if negb (fs_isdir fs (text_of (arg_test_dir a)))
      then (Raise (SystemExit 1),
            out ++ [init_error_line
                      (lit "Directory does not exist: "
                         ++ text_of (arg_test_dir a))])
      else (Ok (a, arg_test_dir a :: sys_path), out)
    else
      let out1 := if arg_auto a then out
                  else out ++ [Info (lit "Enabling --auto mode.")] in
      let dir := better_dirname (arg_program a) in
      if fs_isdir fs (join dir (lit "tests"))
      then (Ok ({| arg_test_dir := Some (join dir (lit "tests"));
                   arg_auto := true; arg_program := arg_program a |},
                Some (join dir (lit "tests")) :: sys_path), out1)
      else if fs_isdir fs dir
      then (Ok ({| arg_test_dir := Some dir; arg_auto := true;
                   arg_program := arg_program a |},
                Some dir :: sys_path), out1)
      else (Raise (SystemExit 1),
            out1 ++ [init_error_line
                       (lit "Could not find tests in the same directory as "
                          ++ arg_program a
                          ++ lit " (try --test-dir manually).")]).
Proof.
  destruct a as [td au pr]; unfold init, C_bind, C_ret, print_info;
    cbn [arg_test_dir arg_auto arg_program].
  destruct (fs_isfile fs pr); cbn [negb];
    [rewrite error_if_false | rewrite error_if_true; reflexivity].
  destruct (given td) eqn:G; cbn [negb andb].
  - destruct au; cbn [negb andb arg_test_dir arg_auto arg_program];
      rewrite G; cbn [andb];
      [rewrite error_if_true; reflexivity | rewrite error_if_false].
    destruct (fs_isdir fs (text_of td)); cbn [negb];
      [rewrite error_if_false | rewrite error_if_true]; reflexivity.
  - destruct au; cbn [negb andb arg_test_dir arg_auto arg_program];
      rewrite G; cbn [andb]; rewrite !error_if_false;
      destruct (fs_isdir fs (join (better_dirname pr) (lit "tests")));
      try reflexivity;
      destruct (fs_isdir fs (better_dirname pr)); try reflexivity;
      rewrite error_if_true; reflexivity.
Qed.

Lemma join_tests_nonempty (dir : str) :
  nonempty (join dir (lit "tests")) = true.
Proof.
  unfold join; change (startswith (lit "/") (lit "tests")) with false.
  cbv iota.
  destruct (negb (nonempty dir) || endswith (lit "/") dir);
    destruct dir; reflexivity.
Qed.

(** X14: when [init] returns, the program is a file, the test directory
    of the namespace is a directory with a name that is not empty (the
    one given, or else [tests] beside the program if that is a
    directory, or else the directory of the program), that directory is
    the first entry of [sys.path], [--auto] is on exactly when no test
    directory was given, and at most the line that announces the auto
    mode has been printed. *)
Theorem init_returns_checked_arguments :
  forall (fs : filesystem) (sys_path sys_path' : list (option str))
         (a a' : args) (out out' : list console),
    init fs sys_path a out = (Ok (a', sys_path'), out') ->
    fs_isfile fs (arg_program a') = true
    /\ arg_program a' = arg_program a
    /\ arg_test_dir a' = Some (chosen_test_dir fs a)
    /\ nonempty (chosen_test_dir fs a) = true
    /\ fs_isdir fs (chosen_test_dir fs a) = true
    /\ sys_path' = Some (chosen_test_dir fs a) :: sys_path
    /\ arg_auto a' = negb (given (arg_test_dir a))
    /\ (out' = out
        \/ (given (arg_test_dir a) = false /\ arg_auto a = false
            /\ out' = out ++ [Info (lit "Enabling --auto mode.")])).
Proof.
  intros fs sys_path sys_path' a a' out out' H.
  rewrite init_cases in H; unfold chosen_test_dir.
  destruct (fs_isfile fs (arg_program a)) eqn:F; cbn [negb] in H;
    [|discriminate].
  destruct (given (arg_test_dir a)) eqn:G.
  - destruct (arg_auto a) eqn:A; [discriminate|].
    destruct (fs_isdir fs (text_of (arg_test_dir a))) eqn:D;
      cbn [negb] in H; [|discriminate].
    injection H as <- <- <-.
    destruct (arg_test_dir a) as [s|]; [|discriminate].
    cbn [text_of given] in *; tauto.
  - cbv zeta in H.
    destruct (fs_isdir fs (join (better_dirname (arg_program a))
                             (lit "tests"))) eqn:D1;
      [|destruct (fs_isdir fs (better_dirname (arg_program a))) eqn:D2;
        [|discriminate]];
      injection H as <- <- <-; cbn [arg_program arg_test_dir arg_auto];
      rewrite ?join_tests_nonempty, ?dirname_nonempty_or_dot;
      repeat split; auto;
      destruct (arg_auto a); auto.
Qed.

Lemma init_returns_checked_arguments_witness :
  fs_isdir InitExamples.fs (chosen_test_dir InitExamples.fs
                              InitExamples.only_program) = true
  /\ chosen_test_dir InitExamples.fs InitExamples.only_program
     = lit "sol/tests".
Proof.
  split; [|reflexivity].
  apply (init_returns_checked_arguments InitExamples.fs []
           [Some (lit "sol/tests")] InitExamples.only_program
           {| arg_test_dir := Some (lit "sol/tests"); arg_auto := true;
              arg_program := lit "sol/a.cpp" |} []
           [Info (lit "Enabling --auto mode.")]).
  reflexivity.
Defined.

(** X15: [init] returns exactly when the program is a file, the test
    directory and [--auto] are not both given, a given test directory
    is a directory, and without one [tests] beside the program or the
    directory of the program is a directory.  Otherwise it ends the
    script with exit status 1, after one error line that follows at
    most the line that announces the auto mode. *)
Theorem init_returns_iff_accepted :
  forall (fs : filesystem) (sys_path : list (option str)) (a : args)
         (out : list console),
    (init_accepts fs a = true ->
     exists r out', init fs sys_path a out = (Ok r, out'))
    /\ (init_accepts fs a = false ->
        exists text pre,
          init fs sys_path a out
          = (Raise (SystemExit 1), out ++ pre ++ [init_error_line text])
          /\ (pre = [] \/ pre = [Info (lit "Enabling --auto mode.")])
          /\ exit_status (fst (init fs sys_path a out)) = 1%Z).
Proof.
  intros fs sys_path a out; rewrite init_cases; unfold init_accepts.
  destruct (fs_isfile fs (arg_program a)); cbn [negb andb].
  - destruct (given (arg_test_dir a)).
    + destruct (arg_auto a); cbn [negb andb].
      * split; [discriminate|]; intros _.
        do 2 eexists; split; [|split; [left; reflexivity|reflexivity]].
        reflexivity.
      * destruct (fs_isdir fs (text_of (arg_test_dir a))); cbn [negb].
        -- split; [eauto|discriminate].
        -- split; [discriminate|]; intros _.
           do 2 eexists; split; [|split; [left; reflexivity|reflexivity]].
           reflexivity.
    + cbv zeta.
      destruct (fs_isdir fs (join (better_dirname (arg_program a))
                               (lit "tests"))); cbn [orb];
        [split; [eauto|discriminate]|].
      destruct (fs_isdir fs (better_dirname (arg_program a)));
        [split; [eauto|discriminate]|].
      split; [discriminate|]; intros _.
      destruct (arg_auto a).
      * do 2 eexists; split; [|split; [left; reflexivity|reflexivity]].
        reflexivity.
      * exists (lit "Could not find tests in the same directory as "
                  ++ arg_program a ++ lit " (try --test-dir manually)."),
          [Info (lit "Enabling --auto mode.")].
        rewrite <- app_assoc; auto.
  - split; [discriminate|]; intros _.
    do 2 eexists; split; [|split; [left; reflexivity|reflexivity]].
    reflexivity.
Qed.

Lemma init_returns_iff_accepted_witness :
  exists text pre,
    init InitExamples.fs [] InitExamples.missing_program []
    = (Raise (SystemExit 1), [] ++ pre ++ [init_error_line text])
    /\ (pre = [] \/ pre = [Info (lit "Enabling --auto mode.")])
    /\ exit_status (fst (init InitExamples.fs []
                           InitExamples.missing_program [])) = 1%Z.
Proof.
  apply (init_returns_iff_accepted InitExamples.fs []
           InitExamples.missing_program []).
  reflexivity.
Defined.

(** X16: an empty text as test directory counts as no test directory:
    [init] does with it exactly what it does without [--test-dir]. *)
Theorem init_empty_test_dir_is_none :
  forall (fs : filesystem) (sys_path : list (option str)) (au : bool)
         (pr : str) (out : list console),
    init fs sys_path
      {| arg_test_dir := Some []; arg_auto := au; arg_program := pr |} out
    = init fs sys_path
        {| arg_test_dir := None; arg_auto := au; arg_program := pr |} out.
Proof.
  intros fs sys_path au pr out; rewrite !init_cases; reflexivity.
Qed.

(** ** The order of the discovered tests *)

Lemma dict_set_app_right {V} (k : str) (v : V) (d1 d2 : dict V) :
  dict_get k d1 = None ->
  dict_set k v (d1 ++ d2) = d1 ++ dict_set k v d2.
Proof.
  induction d1 as [|[k' v'] d1 IH]; simpl; [reflexivity|].
  destruct (str_eqb k k'); [discriminate|].
  intros H; rewrite IH by assumption; reflexivity.
Qed.

(** X17: the tests of the manifest never take the place of a test of
    an input file: the dictionary that [get_tests] returns is the
    dictionary of the loop over the input files, followed by the tests
    of the manifest, all under keys with a tag of the manifest.  So the
    tests of the input files are run first. *)
Theorem manifest_tests_come_last :
  forall (d : directory) (ts : tests),
    get_tests d = Ok ts ->
    exists a t1 l,
      import_alltests d = Ok a
      /\ for_each (in_file_tests d a) (glob_in d) [] = Ok t1
      /\ ts = t1 ++ l
      /\ (forall k t, In (k, t) l ->
            exists name tag, In tag json_tags /\ k = name ++ tag)
      /\ (forall k t, In (k, t) t1 ->
            exists b tag, In tag in_tags /\ k = b ++ tag).
Proof.
  intros d ts H; unfold get_tests in H.
  destruct (import_alltests d) as [a|]; [|discriminate]; simpl in H.
  destruct (for_each (in_file_tests d a) (glob_in d) []) as [t1|] eqn:E;
    [|discriminate]; simpl in H.
  exists a, t1.
  assert (K1 : forall k t, dict_get k t1 = Some t ->
                 exists b tag, In tag in_tags /\ k = b ++ tag).
  { intros k t Hk.
    destruct (@in_loop_keys d a (glob_in d) _ _ _ _ E Hk)
      as [Hc|(x & tag & _ & Ht & ->)]; [discriminate|eauto]. }
  assert (N1 : forall name tag, In tag json_tags ->
                 dict_get (name ++ tag) t1 = None).
  { intros name tag Ht.
    destruct (dict_get (name ++ tag) t1) as [t|] eqn:F; [|reflexivity].
    destruct (K1 _ _ F) as (b & tag' & Ht' & Eq).
    symmetry in Eq; exfalso.
    destruct (@in_key_not_json b name tag' Ht') as [A B].
    unfold json_tags in Ht; simpl in Ht.
    destruct Ht as [<-|[<-|[]]]; auto. }
  assert (J : forall m l,
              (forall k t, In (k, t) l ->
                 exists name tag, In tag json_tags /\ k = name ++ tag) ->
              exists l',
                fold_left (json_test a) m (t1 ++ l) = t1 ++ l'
                /\ forall k t, In (k, t) l' ->
                     exists name tag, In tag json_tags /\ k = name ++ tag).
  { induction m as [|[name e] m IH]; intros l Hl; cbn [fold_left];
      [eauto|].
    rewrite entry_test_spec.
    destruct (entry_test a e) as [[tag t]|] eqn:F; [|apply IH, Hl].
    assert (Ht := entry_test_tag _ _ _ _ F).
    rewrite dict_set_app_right by (apply N1, Ht).
    apply IH; intros k v Hin.
    apply dict_set_In in Hin; destruct Hin as [[-> ->]|Hin]; eauto. }
  assert (T1 : forall k t, In (k, t) t1 ->
                 exists b tag, In tag in_tags /\ k = b ++ tag).
  { intros k t Hin.
    assert (ND : NoDup (map fst t1)).
    { clear - E.
      assert (L : forall l t0 t2, NoDup (map fst t0) ->
                  for_each (in_file_tests d a) l t0 = Ok t2 ->
                  NoDup (map fst t2)).
      { induction l as [|x l IH]; intros t0 t2 H0 F; simpl in F.
        - injection F as <-; exact H0.
        - destruct (in_file_tests d a t0 x) as [t3|] eqn:G; [|discriminate].
          simpl in F; apply (IH t3 t2); [|exact F].
          unfold in_file_tests in G.
          destruct (dict_get (drop_last3 (fst x) ++ lit ".py") d) as [f|];
            [destruct (module_test f) as [c|]; [|discriminate]|];
            simpl in G; injection G as <-;
            destruct (is_not_none a);
            destruct (dict_get (drop_last3 (fst x) ++ lit ".out") d);
            repeat apply dict_set_NoDup; exact H0. }
      apply (L (glob_in d) [] t1); [constructor | exact E]. }
    apply (K1 k t), dict_get_In; assumption. }
  destruct (dict_get (lit "TESTS.json") d) as [f|].
  - destruct (json_load f) as [m|]; [|discriminate].
    simpl in H; injection H as <-.
    destruct (J m [] (fun k t (F : In (k, t) []) => False_ind _ F))
      as (l & Hl & Hk).
    rewrite app_nil_r in Hl; exists l; auto.
  - injection H as <-; exists []; rewrite app_nil_r.
    repeat split; auto; intros k t [].
Qed.

Lemma manifest_tests_come_last_witness :
  exists a t1 l,
    import_alltests MoreExamples.manifest_dir = Ok a
    /\ for_each (in_file_tests MoreExamples.manifest_dir a)
         (glob_in MoreExamples.manifest_dir) [] = Ok t1
    /\ [(lit "t1#json/atpy", Checker Examples.five Examples.square_checker);
        (lit "t2#json", Static Examples.five Examples.twenty_five)]
       = t1 ++ l
    /\ (forall k t, In (k, t) l ->
          exists name tag, In tag json_tags /\ k = name ++ tag)
    /\ (forall k t, In (k, t) t1 ->
          exists b tag, In tag in_tags /\ k = b ++ tag).
Proof.
  apply (manifest_tests_come_last MoreExamples.manifest_dir).
  reflexivity.
Defined.

(** ** The percentage of the report *)

Section Percentage.

Local Open Scope Z_scope.

Lemma shr_1_value (mrs : shr_record) :
  0 <= shr_m mrs -> shr_m (shr_1 mrs) = shr_m mrs / 2.
Proof.
  intros H; rewrite <- Z.div2_div.
  destruct mrs as [m r s]; cbn [shr_m] in *.
  destruct m as [|[p|p|]|p]; try reflexivity; lia.
Qed.

Lemma iter_shr_1_value (p : positive) :
  forall mrs : shr_record,
    0 <= shr_m mrs ->
    shr_m (iter_pos shr_1 p mrs) = shr_m mrs / 2 ^ Zpos p.
Proof.
  assert (D : forall m a b, 0 <= a -> 0 <= b ->
              m / 2 ^ a / 2 ^ b = m / 2 ^ (a + b)).
  { intros m a b Ha Hb.
    rewrite Z.pow_add_r, Z.div_div by (try apply Z.pow_pos_nonneg; lia).
    reflexivity. }
  assert (P : forall m a, 0 <= m -> 0 <= a -> 0 <= m / 2 ^ a)
    by (intros; apply Z.div_pos; [|apply Z.pow_pos_nonneg]; lia).
  induction p as [p IH|p IH|]; intros mrs H; cbn [iter_pos].
  - assert (H1 := shr_1_value mrs H).
    assert (P1 : 0 <= shr_m (shr_1 mrs))
      by (rewrite H1; apply (P _ 1); lia).
    rewrite IH, IH, H1 by (rewrite ?IH; try apply P; lia).
    change 2 with (2 ^ 1) at 1.
    rewrite !D by lia.
    f_equal; f_equal; lia.
  - rewrite IH, IH by (rewrite ?IH; try apply P; lia).
    rewrite D by lia; f_equal; f_equal; lia.
  - rewrite shr_1_value by assumption; reflexivity.
Qed.

Lemma shr_fexp_value (m e : Z) (l : location) :
  0 <= m ->
  forall mrs e', shr_fexp 53 1024 m e l = (mrs, e') ->
    e <= e' /\ shr_m mrs = m / 2 ^ (e' - e).
Proof.
  intros Hm mrs e'; unfold shr_fexp, shr.
  assert (S : shr_m (shr_record_of_loc m l) = m)
    by (destruct l as [|[| |]]; reflexivity).
  destruct (fexp 53 1024 (Zdigits2 m + e) - e) as [|p|p] eqn:E;
    intros H; injection H as <- <-.
  - rewrite Z.sub_diag, S; simpl; rewrite Z.div_1_r; lia.
  - rewrite iter_shr_1_value by (rewrite S; assumption).
    rewrite S; split; [lia|]; f_equal; f_equal; lia.
  - rewrite Z.sub_diag, S; simpl; rewrite Z.div_1_r; lia.
Qed.

(** A rounding does not go past a bound that the result can hold. *)
Lemma binary_round_aux_bound (sx : bool) (mx ex : Z) (lx : location)
  (A t K : Z) :
  0 <= mx < A * 2 ^ t -> 0 <= t -> -1074 <= ex ->
  Zdigits2 mx + ex <= K -> -1074 <= K <= 971 ->
  match binary_round_aux 53 1024 sx mx ex lx with
  | S754_zero s => s = sx
  | S754_finite s m e =>
      s = sx /\ ex <= e <= Z.max ex (K - 52)
      /\ (e - ex <= t -> Zpos m <= A * 2 ^ (t - (e - ex)))
  | _ => False
  end.
Proof.
  intros [Hm HA] Ht Hex Hd HK.
  assert (Sz := binary_round_aux_sized sx mx ex lx K Hm Hd HK).
  unfold binary_round_aux in *.
  destruct (shr_fexp 53 1024 mx ex lx) as [mrs1 e1] eqn:E1.
  destruct (shr_fexp_digits mx ex lx Hm _ _ E1) as (A1 & A2 & A3 & A4 & A5).
  destruct (shr_fexp_value mx ex lx Hm _ _ E1) as [_ V1].
  destruct (round_nearest_even_digits (shr_m mrs1) (loc_of_shr_record mrs1)
              A1) as [B1 B2].
  assert (B3 : round_nearest_even (shr_m mrs1) (loc_of_shr_record mrs1)
               <= shr_m mrs1 + 1).
  { unfold round_nearest_even.
    destruct (loc_of_shr_record mrs1) as [|[| |]];
      try destruct (Z.even (shr_m mrs1)); lia. }
  set (m1 := round_nearest_even _ _) in *.
  destruct (shr_fexp 53 1024 m1 e1 loc_Exact) as [mrs2 e2] eqn:E2.
  destruct (shr_fexp_digits m1 e1 loc_Exact B1 _ _ E2)
    as (C1 & C2 & C3 & C4 & C5).
  destruct (shr_fexp_value m1 e1 loc_Exact B1 _ _ E2) as [_ V2].
  assert (D := Zdigits2_nonneg mx).
  destruct (shr_m mrs2) as [|m|m] eqn:Em; [reflexivity| |lia].
  destruct (e2 <=? 1024 - 53); [|contradiction].
  split; [reflexivity|]; split; [lia|].
  intros Hle.
  set (n1 := e1 - ex) in *; set (n2 := e2 - e1) in *.
  assert (P1 : 0 < 2 ^ n1) by (apply Z.pow_pos_nonneg; lia).
  assert (P2 : 0 < 2 ^ n2) by (apply Z.pow_pos_nonneg; lia).
  assert (T : 2 ^ t = 2 ^ (t - (e2 - ex)) * 2 ^ n2 * 2 ^ n1).
  { rewrite <- !Z.pow_add_r by lia; f_equal; unfold n1, n2; lia. }
  set (X := 2 ^ (t - (e2 - ex))) in *.
  assert (PX : 0 < X) by (apply Z.pow_pos_nonneg; lia).
  assert (U1 : shr_m mrs1 + 1 <= A * X * 2 ^ n2).
  { rewrite V1.
    assert (mx / 2 ^ n1 < A * X * 2 ^ n2); [|lia].
    apply Z.div_lt_upper_bound; [assumption|].
    rewrite T in HA; lia. }
  rewrite V2.
  assert (m1 / 2 ^ n2 <= A * X); [|lia].
  apply Z.div_le_upper_bound; [assumption|]; nia.
Qed.


Lemma iter_xO_value (m d : positive) :
  Zpos (Pos.iter xO m d) = Zpos m * 2 ^ Zpos d.
Proof.
  induction d as [|d IH] using Pos.peano_ind.
  - simpl; lia.
  - rewrite Pos.iter_succ, Pos2Z.inj_xO, IH, Pos2Z.inj_succ.
    rewrite Z.pow_succ_r by lia; lia.
Qed.

(** The double of an integer below [2 ^ 53]: a mantissa of 53 bits that
    holds the integer exactly. *)
Lemma binary64_value (p : positive) :
  Zpos p < 2 ^ 53 ->
  exists m e,
    binary64 (Zpos p) = S754_finite false m e
    /\ Zpos (digits2_pos m) = 53 /\ -52 <= e <= 0
    /\ Zpos m = Zpos p * 2 ^ (- e).
Proof.
  intros Hp.
  assert (D : Zpos (digits2_pos p) <= 53)
    by (apply (Zdigits2_le (Zpos p)); lia).
  unfold binary64, binary_normalize, binary_round, shl_align, fexp, emin.
  set (d := Zpos (digits2_pos p)) in *.
  set (e0 := Z.max (d + 0 - 53) (3 - 1024 - 53)).
  assert (He0 : e0 = d - 53) by (unfold e0, d; lia).
  replace (e0 - 0) with (d - 53) by lia.
  assert (R : forall m' e', Zpos (digits2_pos m') = 53 -> -52 <= e' <= 0 ->
            binary_round_aux 53 1024 false (Zpos m') e' loc_Exact
            = S754_finite false m' e').
  { intros m' e' Hm' He'.
    unfold binary_round_aux, shr_fexp, shr, fexp, emin.
    cbn [Zdigits2 shr_record_of_loc]; rewrite Hm'.
    replace (Z.max (53 + e' - 53) (3 - 1024 - 53) - e') with 0 by lia.
    cbn [shr_m loc_of_shr_record round_nearest_even Zdigits2
           shr_record_of_loc]; rewrite Hm'.
    replace (Z.max (53 + e' - 53) (3 - 1024 - 53) - e') with 0 by lia.
    cbn [shr_m].
    replace (e' <=? 1024 - 53) with true by (symmetry; apply Z.leb_le; lia).
    reflexivity. }
  destruct (d - 53) as [|q|q] eqn:E; [|unfold d in *; lia|].
  - exists p, 0; rewrite R by (fold d; lia).
    fold d; change (2 ^ (- 0)) with 1; repeat split; lia.
  - assert (Hq : Zpos (digits2_pos (Pos.iter xO p q)) = 53)
      by (rewrite digits2_pos_iter_xO; fold d; lia).
    exists (Pos.iter xO p q), e0.
    rewrite R by (unfold d in *; lia).
    rewrite iter_xO_value.
    replace (- e0) with (Zpos q) by lia.
    repeat split; unfold d in *; lia.
Qed.

(** The quotient of two doubles with mantissas of 53 bits, the first
    below the second: a double of at most 1. *)
Lemma SFdiv_below_one (mp mt : positive) (ep et : Z) :
  Zpos (digits2_pos mp) = 53 -> Zpos (digits2_pos mt) = 53 ->
  -52 <= ep <= 0 -> -52 <= et <= 0 ->
  Zpos mp * 2 ^ (- et) < Zpos mt * 2 ^ (- ep) ->
  match SFdiv 53 1024 (S754_finite false mp ep) (S754_finite false mt et) with
  | S754_zero s => s = false
  | S754_finite s m e => s = false /\ -105 <= e <= 0 /\ Zpos m <= 2 ^ (- e)
  | _ => False
  end.
Proof.
  intros Dp Dt Hep Het Hlt.
  unfold SFdiv, SFdiv_core_binary; cbn [Zdigits2 xorb]; rewrite Dp, Dt.
  unfold fexp, emin.
  replace (Z.min (Z.max (53 + ep - (53 + et) - 53) (3 - 1024 - 53)) (ep - et))
    with (ep - et - 53) by lia.
  replace (ep - et - (ep - et - 53)) with 53 by lia.
  cbv iota.
  destruct (Z.div_eucl (Z.shiftl (Zpos mp) 53) (Zpos mt)) as [q r] eqn:E.
  assert (Hq : q = Z.shiftl (Zpos mp) 53 / Zpos mt)
    by (unfold Z.div; rewrite E; reflexivity).
  rewrite Z.shiftl_mul_pow2 in Hq by lia.
  set (k := 53 + et - ep).
  assert (Q : 0 <= q < 1 * 2 ^ k).
  { rewrite Hq; split; [apply Z.div_pos; lia|].
    apply Z.div_lt_upper_bound; [lia|].
    assert (P3 : 0 < 2 ^ (53 + et)) by (apply Z.pow_pos_nonneg; lia).
    assert (E1 : 2 ^ 53 = 2 ^ (53 + et) * 2 ^ (- et))
      by (rewrite <- Z.pow_add_r by lia; f_equal; lia).
    assert (E2 : 2 ^ k = 2 ^ (53 + et) * 2 ^ (- ep))
      by (rewrite <- Z.pow_add_r by lia; f_equal; unfold k; lia).
    rewrite E1, E2; nia. }
  assert (Dq : Zdigits2 q + (ep - et - 53) <= 0).
  { assert (Zdigits2 q <= k); [|unfold k in *; lia].
    apply Zdigits2_le; unfold k in *; lia. }
  assert (B := binary_round_aux_bound false q (ep - et - 53)
                 (new_location (Zpos mt) r) 1 k 0
                 Q ltac:(unfold k; lia) ltac:(lia) Dq ltac:(lia)).
  destruct (binary_round_aux 53 1024 false q (ep - et - 53) _)
    as [s|s| |s m e]; try assumption.
  destruct B as (-> & Be & Bm); split; [reflexivity|].
  split; [lia|].
  specialize (Bm ltac:(unfold k; lia)).
  replace (k - (e - (ep - et - 53))) with (- e) in Bm by (unfold k; lia).
  lia.
Qed.

(** A double of at most 1, times 100 and rounded, is at most 100. *)
Lemma percent_of_fraction (m : positive) (e : Z) :
  -105 <= e <= 0 -> Zpos m <= 2 ^ (- e) ->
  exists pct,
    py_round (SFmul 53 1024 (S754_finite false m e) (binary64 100)) = Ok pct
    /\ 0 <= pct <= 100.
Proof.
  intros He Hm.
  change (binary64 100) with (S754_finite false 7036874417766400 (-46)).
  unfold SFmul; cbn [xorb].
  set (M := Zpos (m * 7036874417766400)).
  set (E := e + -46).
  assert (HM : 0 <= M < 401 * 2 ^ (- E - 2)).
  { unfold M; rewrite Pos2Z.inj_mul; split; [lia|].
    assert (P : 0 < 2 ^ (- e)) by (apply Z.pow_pos_nonneg; lia).
    replace (- E - 2) with (44 + - e) by (unfold E; lia).
    rewrite Z.pow_add_r by lia.
    change (2 ^ 44) with 17592186044416.
    change (Zpos 7036874417766400) with (400 * 17592186044416).
    nia. }
  assert (DM : Zdigits2 M + E <= 7).
  { assert (Zdigits2 M <= 7 - E); [|lia].
    apply Zdigits2_le; [unfold E; lia|].
    split; [lia|].
    replace (7 - E) with (9 + (- E - 2)) by lia.
    rewrite Z.pow_add_r by (unfold E; lia).
    assert (0 < 2 ^ (- E - 2)) by (apply Z.pow_pos_nonneg; unfold E; lia).
    change (2 ^ 9) with 512; lia. }
  assert (B := binary_round_aux_bound false M E loc_Exact 401 (- E - 2) 7
                 HM ltac:(unfold E; lia) ltac:(unfold E; lia) DM ltac:(lia)).
  destruct (binary_round_aux 53 1024 false M E loc_Exact)
    as [s|s| |s mr er]; try contradiction.
  - exists 0; simpl; split; [reflexivity|lia].
  - destruct B as (-> & Be & Bm).
    assert (Her : er <= -45) by (unfold E in *; lia).
    specialize (Bm ltac:(unfold E in *; lia)).
    replace (- E - 2 - (er - E)) with (- er - 2) in Bm by lia.
    cbn [py_round cond_Zopp].
    eexists; split; [reflexivity|].
    unfold nearest_even.
    destruct er as [|er|er]; try lia.
    set (d := 2 ^ Zpos er).
    assert (Pd : 0 < d) by (apply Z.pow_pos_nonneg; lia).
    assert (D4 : d = 4 * 2 ^ (- Zneg er - 2)).
    { unfold d; change 4 with (2 ^ 2); rewrite <- Z.pow_add_r by lia.
      f_equal; lia. }
    assert (Hdiv := Z.div_mod (Zpos mr) d ltac:(lia)).
    assert (Hmod := Z.mod_pos_bound (Zpos mr) d Pd).
    assert (Hq0 : 0 <= Zpos mr / d) by (apply Z.div_pos; lia).
    set (q := Zpos mr / d) in *; set (r := Zpos mr mod d) in *.
    destruct (Z.compare_spec (2 * r) d); try destruct (Z.even q); nia.
Qed.


(** The quotient of a double by itself is the double 1. *)
Lemma SFdiv_self (m : positive) (e : Z) :
  Zpos (digits2_pos m) = 53 -> -52 <= e <= 0 ->
  SFdiv 53 1024 (S754_finite false m e) (S754_finite false m e)
  = S754_finite false 4503599627370496 (-52).
Proof.
  intros Dm He.
  unfold SFdiv, SFdiv_core_binary; cbn [Zdigits2 xorb]; rewrite Dm.
  unfold fexp, emin.
  replace (Z.min (Z.max (53 + e - (53 + e) - 53) (3 - 1024 - 53)) (e - e))
    with (-53) by lia.
  replace (e - e - -53) with 53 by lia.
  cbv iota.
  assert (E : Z.div_eucl (Z.shiftl (Zpos m) 53) (Zpos m) = (2 ^ 53, 0)).
  { assert (H := Z.div_eucl_eq (Z.shiftl (Zpos m) 53) (Zpos m) ltac:(lia)).
    assert (B := Z.mod_pos_bound (Z.shiftl (Zpos m) 53) (Zpos m) ltac:(lia)).
    unfold Z.modulo in B.
    destruct (Z.div_eucl (Z.shiftl (Zpos m) 53) (Zpos m)) as [q r].
    rewrite Z.shiftl_mul_pow2 in H by lia.
    assert (q = 2 ^ 53) by nia.
    f_equal; lia. }
  rewrite E.
  assert (L : new_location (Zpos m) 0 = loc_Exact)
    by (unfold new_location, new_location_even, new_location_odd;
        destruct (Z.even (Zpos m)); reflexivity).
  rewrite L; reflexivity.
Qed.

End Percentage.

(** X18: for a number of tests other than 0 that a double holds exactly
    and a number of passed tests that is not larger, the percentage of
    the final report has a value, between 0 and 100; it is 0 when no
    test passed and 100 when all did. *)
Theorem percentage_between_0_and_100 :
  forall passed total : nat,
    0 < total -> passed <= total ->
    (Z.of_nat total < 2 ^ 53)%Z ->
    exists pct,
      percentage passed total = Ok pct
      /\ (0 <= pct <= 100)%Z
      /\ (passed = 0 -> pct = 0%Z)
      /\ (passed = total -> pct = 100%Z).
Proof.
  intros passed total Ht Hle Hb; unfold percentage, truediv.
  destruct (total =? 0) eqn:E; [apply Nat.eqb_eq in E; lia|].
  cbn [pyres_bind].
  destruct (Z.of_nat total) as [|t|t] eqn:Et; try lia.
  destruct (binary64_value t Hb) as (mt & et & Bt & Dt & Ht' & Vt).
  destruct (Z.of_nat passed) as [|p|p] eqn:Ep; try lia.
  - exists 0%Z; rewrite Bt.
    split; [reflexivity|]; repeat split; intros; lia.
  - assert (Hp : (Zpos p <= Zpos t)%Z) by lia.
    destruct (Z.eq_dec (Zpos p) (Zpos t)) as [Eq|Ne].
    + injection Eq as ->; rewrite Bt, (SFdiv_self mt et Dt Ht').
      exists 100%Z.
      split; [reflexivity|]; repeat split; intros; lia.
    + destruct (binary64_value p ltac:(lia)) as (mp & ep & Bp & Dp & Hp' & Vp).
      rewrite Bp, Bt.
      assert (Lt : (Zpos mp * 2 ^ (- et) < Zpos mt * 2 ^ (- ep))%Z).
      { rewrite Vp, Vt.
        assert (0 < 2 ^ (- ep) * 2 ^ (- et))%Z
          by (apply Z.mul_pos_pos; apply Z.pow_pos_nonneg; lia).
        nia. }
      assert (Q := SFdiv_below_one mp mt ep et Dp Dt Hp' Ht' Lt).
      destruct (SFdiv 53 1024 _ _) as [s|s| |s m e]; try contradiction.
      * subst s; exists 0%Z.
        split; [reflexivity|]; repeat split; intros; lia.
      * destruct Q as (-> & He & Hm).
        destruct (percent_of_fraction m e He Hm) as (pct & P & Hpct).
        exists pct.
        split; [exact P|]; repeat split; intros; lia.
Qed.

Lemma percentage_between_0_and_100_witness :
  exists pct,
    percentage 59 200 = Ok pct
    /\ (0 <= pct <= 100)%Z
    /\ (59 = 0 -> pct = 0%Z)
    /\ (59 = 200 -> pct = 100%Z).
Proof.
  apply (percentage_between_0_and_100 59 200); [lia | lia | reflexivity].
Defined.

(** * The script on the operating system *)

(** ** Paths of the results of the glob *)

Lemma until_sep_app (a b : str) :
  forallb (fun c => negb (is_sep c)) a = true ->
  b = [] \/ (exists b', b = 47%N :: b') ->
  until_sep (a ++ b) = a.
Proof.
  intros Ha Hb; induction a as [|c a IH]; simpl in *.
  - destruct Hb as [->|[b' ->]]; reflexivity.
  - apply andb_true_iff in Ha; destruct Ha as [Hc Ha].
    destruct (is_sep c); [discriminate|].
    rewrite IH by assumption; reflexivity.
Qed.

(** [os.path.join] puts the same text before every name. *)
Lemma join_prefix (dir : str) :
  exists pre,
    (pre = [] \/ exists t, pre = t ++ lit "/")
    /\ forall n, startswith (lit "/") n = false -> join dir n = pre ++ n.
Proof.
  unfold join.
  destruct (negb (nonempty dir) || endswith (lit "/") dir) eqn:E.
  - exists dir; split.
    + apply orb_true_iff in E; destruct E as [E|E].
      * destruct dir; [auto|discriminate].
      * right; apply endswith_app, E.
    + intros n ->; reflexivity.
  - exists (dir ++ lit "/"); split; [eauto|].
    intros n ->; rewrite <- app_assoc; reflexivity.
Qed.

Lemma basename_app (pre n : str) :
  pre = [] \/ (exists t, pre = t ++ lit "/") ->
  forallb (fun c => negb (is_sep c)) n = true ->
  basename (pre ++ n) = n.
Proof.
  intros Hp Hn; unfold basename.
  rewrite rev_app_distr, until_sep_app, rev_involutive; trivial.
  - rewrite forallb_rev; exact Hn.
  - destruct Hp as [->|[t ->]]; [auto|].
    right; rewrite rev_app_distr; simpl; eauto.
Qed.

Lemma file_name_no_sep (n : str) :
  file_name n = true ->
  forallb (fun c => negb (is_sep c)) n = true
  /\ startswith (lit "/") n = false /\ n <> [].
Proof.
  unfold file_name; rewrite andb_true_iff; intros [Hn Hs].
  split; [exact Hs|]; split; [|destruct n; [discriminate|congruence]].
  destruct n as [|c n]; [reflexivity|]; cbn [forallb] in Hs.
  apply andb_true_iff in Hs; destruct Hs as [Hc _].
  unfold is_sep in Hc; destruct (N.eqb c 47) eqn:F; [discriminate|].
  change (startswith (lit "/") (c :: n)) with (N.eqb 47 c && true).
  rewrite N.eqb_sym, F; reflexivity.
Qed.

(** For an input file [b.in] of a directory, the loop finds the base
    name [b], and looks for the output and the checker module at the
    paths of the entries [b.out] and [b.py] of the same directory. *)
Lemma input_paths (dir b : str) :
  file_name (b ++ lit ".in") = true ->
  input_name (b ++ lit ".in") = true ->
  base_name (join dir (b ++ lit ".in")) = b
  /\ forall ext,
       drop_last3 (join dir (b ++ lit ".in")) ++ lit "." ++ ext
       = join dir (b ++ lit "." ++ ext).
Proof.
  intros Hf Hi.
  destruct (file_name_no_sep _ Hf) as (Hs & Hh & _).
  destruct (join_prefix dir) as (pre & Hp & J).
  assert (Hb : startswith (lit "/") b = false /\ b <> []).
  { destruct b as [|c b]; [discriminate Hi|].
    split; [exact Hh|discriminate]. }
  destruct Hb as [Hb Hne].
  rewrite (J _ Hh); split.
  - unfold base_name; rewrite (basename_app _ _ Hp Hs).
    apply drop_last3_app; reflexivity.
  - intros ext; rewrite J.
    + rewrite (app_assoc pre b (lit ".in")), drop_last3_app by reflexivity.
      rewrite <- app_assoc; reflexivity.
    + destruct b; [congruence|exact Hb].
Qed.

(** ** Discovery over the results of the glob *)

Ltac os_turn H :=
  unfold OS.in_file_tests in H; cbv zeta in H;
  match type of H with
  | context [drop_last3 (basename ?x)] =>
      change (drop_last3 (basename x)) with (base_name x) in H
  end;
  match type of H with
  | context [OS.read ?w ?x] =>
      let i := fresh "i" in
      destruct (OS.read w x) as [i|] eqn:?; [|discriminate H];
      cbn [pyres_bind] in H;
      destruct (OS.isfile w (drop_last3 x ++ lit ".out"));
      [destruct (OS.read w (drop_last3 x ++ lit ".out")) as [?o|];
       [|discriminate H]|];
      cbn [pyres_bind] in H;
      (destruct (OS.isfile w (drop_last3 x ++ lit ".py"));
       [destruct (OS.import_test w (base_name x)) as [?c|];
        [|discriminate H]|]);
      cbn [pyres_bind] in H; injection H as <-
  end.

Section OSDiscovery.

Variable w : OS.files.
Variable alltests : pyobj.

(** One turn of the loop touches the keys of its own base name only. *)
Lemma os_turn_other (tests0 tests1 : tests) (x b t : str) :
  OS.in_file_tests w alltests tests0 x = Ok tests1 ->
  In t in_tags -> b <> base_name x ->
  dict_get (b ++ t) tests1 = dict_get (b ++ t) tests0.
Proof.
  intros H Ht Hb.
  assert (K : forall t', In t' in_tags -> b ++ t <> base_name x ++ t').
  { intros t' Ht' E; apply in_key_inj in E; tauto. }
  assert (K1 := K (lit "#in/out")); assert (K2 := K (lit "#in/py"));
    assert (K3 := K (lit "#in/atpy")).
  unfold in_tags in K1, K2, K3; simpl in K1, K2, K3.
  os_turn H; destruct (is_not_none alltests);
    rewrite ?dict_get_set_other by tauto; reflexivity.
Qed.

(** With a shared checker, one turn of the loop leaves the test with
    that checker under the key of its base name. *)
Lemma os_turn_bulk (tests0 tests1 : tests) (x : str) :
  is_not_none alltests = true ->
  OS.in_file_tests w alltests tests0 x = Ok tests1 ->
  exists i,
    OS.read w x = Ok i
    /\ dict_get (base_name x ++ lit "#in/atpy") tests1
       = Some (Checker i alltests).
Proof.
  intros Hn H; os_turn H; rewrite Hn; exists i; split; trivial;
    apply dict_get_set_same.
Qed.

(** A key that one turn of the loop writes is its base name followed by
    a tag of the loop. *)
Lemma os_turn_keys (tests0 tests1 : tests) (x k : str) (v : test) :
  OS.in_file_tests w alltests tests0 x = Ok tests1 ->
  dict_get k tests1 = Some v ->
  dict_get k tests0 = Some v
  \/ exists t, In t in_tags /\ k = base_name x ++ t.
Proof.
  intros H Hk.
  assert (K : forall t, In t in_tags -> k = base_name x ++ t ->
              exists t, In t in_tags /\ k = base_name x ++ t) by eauto.
  assert (K1 := K (lit "#in/out") ltac:(unfold in_tags; simpl; tauto)).
  assert (K2 := K (lit "#in/py") ltac:(unfold in_tags; simpl; tauto)).
  assert (K3 := K (lit "#in/atpy") ltac:(unfold in_tags; simpl; tauto)).
  clear K.
  os_turn H; destruct (is_not_none alltests);
    repeat match goal with
      | H : dict_get _ (dict_set _ _ _) = Some _ |- _ =>
          apply dict_get_set_inv in H; destruct H as [H|H];
          [right; first [apply K1, H | apply K2, H | apply K3, H]|]
      end; auto.
Qed.

Lemma os_loop_other (l : list str) (b t : str) :
  In t in_tags ->
  (forall y, In y l -> b <> base_name y) ->
  forall tests0 tests1,
    for_each (OS.in_file_tests w alltests) l tests0 = Ok tests1 ->
    dict_get (b ++ t) tests1 = dict_get (b ++ t) tests0.
Proof.
  intros Ht; induction l as [|y l IH]; intros Hl tests0 tests1 H;
    simpl in H.
  - injection H as <-; reflexivity.
  - destruct (OS.in_file_tests w alltests tests0 y) as [ts|] eqn:E;
      [|discriminate].
    simpl in H.
    rewrite (IH (fun z Hz => Hl z (or_intror Hz)) _ _ H).
    eapply os_turn_other; eauto.
    apply Hl; left; reflexivity.
Qed.

(** The test with the shared checker is under the key of a base name
    once a turn for this base name has been made. *)
Lemma os_loop_bulk_kept (l : list str) (b : str) :
  is_not_none alltests = true ->
  forall tests0 tests1,
    for_each (OS.in_file_tests w alltests) l tests0 = Ok tests1 ->
    (exists i, dict_get (b ++ lit "#in/atpy") tests0
               = Some (Checker i alltests)) ->
    exists i, dict_get (b ++ lit "#in/atpy") tests1
              = Some (Checker i alltests).
Proof.
  intros Hn; induction l as [|y l IH]; intros tests0 tests1 H P;
    simpl in H.
  - injection H as <-; exact P.
  - destruct (OS.in_file_tests w alltests tests0 y) as [ts|] eqn:E;
      [|discriminate].
    simpl in H; apply (IH _ _ H).
    destruct (list_eq_dec N.eq_dec b (base_name y)) as [->|D].
    + destruct (os_turn_bulk _ _ _ Hn E) as (i & _ & Hi); eauto.
    + rewrite (os_turn_other _ _ _ b (lit "#in/atpy") E); trivial.
      unfold in_tags; simpl; tauto.
Qed.

Lemma os_loop_bulk (l : list str) :
  is_not_none alltests = true ->
  forall tests0 tests1,
    for_each (OS.in_file_tests w alltests) l tests0 = Ok tests1 ->
    forall x, In x l ->
      (exists i, dict_get (base_name x ++ lit "#in/atpy") tests1
                 = Some (Checker i alltests))
      /\ (NoDup (map base_name l) ->
          exists i, OS.read w x = Ok i
                    /\ dict_get (base_name x ++ lit "#in/atpy") tests1
                       = Some (Checker i alltests)).
Proof.
  intros Hn; induction l as [|y l IH]; intros tests0 tests1 H x Hx;
    [destruct Hx|].
  simpl in H.
  destruct (OS.in_file_tests w alltests tests0 y) as [ts|] eqn:E;
    [|discriminate].
  simpl in H; destruct Hx as [->|Hx].
  - destruct (os_turn_bulk _ _ _ Hn E) as (i & Hr & Hi); split.
    + eapply os_loop_bulk_kept; eauto.
    + intros Hnd; inversion Hnd as [|? ? Hy _]; subst.
      exists i; split; [exact Hr|].
      rewrite (os_loop_other l (base_name x) (lit "#in/atpy")) with
        (tests0 := ts); trivial.
      * unfold in_tags; simpl; tauto.
      * intros z Hz Eb; apply Hy; rewrite Eb; apply in_map, Hz.
  - destruct (IH _ _ H x Hx) as [A B]; split; [exact A|].
    intros Hnd; inversion Hnd; auto.
Qed.

Lemma os_loop_keys (l : list str) (k : str) (v : test) :
  forall tests0 tests1,
    for_each (OS.in_file_tests w alltests) l tests0 = Ok tests1 ->
    dict_get k tests1 = Some v ->
    dict_get k tests0 = Some v
    \/ exists x t, In x l /\ In t in_tags /\ k = base_name x ++ t.
Proof.
  induction l as [|y l IH]; intros tests0 tests1 H Hk; simpl in H.
  - injection H as <-; auto.
  - destruct (OS.in_file_tests w alltests tests0 y) as [ts|] eqn:E;
      [|discriminate]; simpl in H.
    destruct (IH _ _ H Hk) as [Hts|(x & t & Hx & Ht & ->)];
      [|right; exists x, t; simpl; auto].
    destruct (os_turn_keys _ _ _ _ _ E Hts) as [H0|(t & Ht & ->)];
      [auto|].
    right; exists y, t; simpl; auto.
Qed.

End OSDiscovery.

(** ** Claims on discovery, on the operating system *)

(** C4, as the code has it: for a test directory with none of the
    recognized formats (no [ALLTESTS.py], no [TESTS.json], and no result
    of the glob with a paired output or a checker module beside it)
    whose input files, the results of the glob, can all be opened and
    read as text, discovery does not fail; it returns the empty test
    set, and the run goes on to report that all tests passed, with a
    success exit status. *)
Theorem no_format_no_discovery_error :
  forall (w : OS.files) (test_dir : str) (proc : OS.process),
    OS.isfile w (join test_dir (lit "ALLTESTS.py")) = false ->
    OS.isfile w (join test_dir (lit "TESTS.json")) = false ->
    (forall x, In x (OS.glob w test_dir) ->
       (exists text, OS.read w x = Ok text)
       /\ OS.isfile w (drop_last3 x ++ lit ".out") = false
       /\ OS.isfile w (drop_last3 x ++ lit ".py") = false) ->
    OS.get_tests w test_dir = Ok []
    /\ OS.main w test_dir proc []
       = (Ok tt, [Blank; Success (lit "All tests passed!")])
    /\ exit_status (fst (OS.main w test_dir proc [])) = 0%Z.
Proof.
  intros w test_dir proc Ha Hj Hx.
  assert (G : OS.get_tests w test_dir = Ok []).
  { unfold OS.get_tests, OS.import_alltests; rewrite Ha, Hj.
    cbn [pyres_bind].
    assert (L : forall l, (forall x, In x l -> In x (OS.glob w test_dir)) ->
                for_each (OS.in_file_tests w PyNone) l [] = Ok []).
    { induction l as [|x l IH]; intros Hl; cbn [for_each]; [reflexivity|].
      destruct (Hx x (Hl x (or_introl eq_refl))) as ([text Hr] & Ho & Hp).
      unfold OS.in_file_tests at 1; rewrite Hr, Ho, Hp.
      cbn [pyres_bind is_not_none].
      apply IH; intros z Hz; apply Hl; right; exact Hz. }
    rewrite L by auto; reflexivity. }
  assert (R : OS.main w test_dir proc [] =
              (Ok tt, [Blank; Success (lit "All tests passed!")])).
  { unfold OS.main, bind, lift; rewrite G; reflexivity. }
  rewrite R; auto.
Qed.

Lemma no_format_no_discovery_error_witness :
  OS.get_tests OSExamples.notes (lit "tests") = Ok []
  /\ OS.main OSExamples.notes (lit "tests")
       (started Examples.squares) []
     = (Ok tt, [Blank; Success (lit "All tests passed!")])
  /\ exit_status
       (fst (OS.main OSExamples.notes (lit "tests")
               (started Examples.squares) [])) = 0%Z.
Proof.
  apply (no_format_no_discovery_error OSExamples.notes (lit "tests")
           (started Examples.squares)).
  - reflexivity.
  - reflexivity.
  - intros x [<-|[]]; split; [eexists; reflexivity|split; reflexivity].
Defined.

(** An input file whose bytes are no text makes discovery raise, in a
    directory with no recognized format too. *)
Example undecodable_input_raises :
  OS.glob OSExamples.undecodable (lit "tests") = [lit "tests/foo.in"]
  /\ OS.get_tests OSExamples.undecodable (lit "tests") = Raise UnicodeError.
Proof. split; reflexivity. Qed.

Lemma glob_literal (w : OS.files) (test_dir : str) :
  has_magic (dirname (join test_dir (lit "*.in"))) = false ->
  OS.glob w test_dir
  = map (entry_path test_dir)
      (filter input_name
         (OS.listdir w (dirname (join test_dir (lit "*.in"))))).
Proof.
  intros H; unfold OS.glob; cbv zeta; rewrite H.
  cbn [flat_map]; apply app_nil_r.
Qed.

Lemma input_name_base (n : str) :
  input_name n = true -> n = drop_last3 n ++ lit ".in".
Proof.
  unfold input_name; rewrite andb_true_iff; intros [_ H].
  apply endswith_in_name, H.
Qed.

(** The base name of the path that the glob gives for an input file. *)
Lemma entry_base_name (test_dir n : str) :
  file_name n = true -> input_name n = true ->
  base_name (entry_path test_dir n) = drop_last3 n.
Proof.
  intros Hf Hi; unfold entry_path.
  rewrite (input_name_base n Hi) at 1.
  apply input_paths; rewrite <- (input_name_base n Hi); assumption.
Qed.

Lemma base_names_differ (l : list str) :
  NoDup l -> (forall n, In n l -> input_name n = true) ->
  NoDup (map drop_last3 l).
Proof.
  induction l as [|n l IH]; intros Hnd Hl; simpl; [constructor|].
  inversion Hnd as [|? ? Hn Hd]; subst.
  constructor; [|apply IH; auto; intros z Hz; apply Hl; right; exact Hz].
  intros Hc; apply in_map_iff in Hc; destruct Hc as (z & Ez & Hz).
  apply Hn.
  rewrite (input_name_base n (Hl n (or_introl eq_refl))), <- Ez.
  rewrite <- (input_name_base z (Hl z (or_intror Hz))); exact Hz.
Qed.

(** C6, as the code has it: when the shared checker module exists, a
    test with the shared checker is produced for every result of the
    glob, also for one that has a paired output or a per-test checker;
    every test under the tag of the shared checker comes from a result
    of the glob; and when the path of the test directory has no pattern
    character, the results of the glob are the input files of the
    directory (the names that end in [.in] and do not start with a
    dot), so that each of them has its test with the shared checker,
    which holds the text of the file. *)
Theorem bulk_test_for_every_glob_result :
  forall (w : OS.files) (test_dir : str) (ts : tests) (alltests : pyobj),
    OS.import_alltests w test_dir = Ok alltests ->
    is_not_none alltests = true ->
    OS.get_tests w test_dir = Ok ts ->
    (forall x, In x (OS.glob w test_dir) ->
       exists i, dict_get (base_name x ++ lit "#in/atpy") ts
                 = Some (Checker i alltests))
    /\ (forall b t, dict_get (b ++ lit "#in/atpy") ts = Some t ->
          exists x, In x (OS.glob w test_dir) /\ b = base_name x)
    /\ (let dir := dirname (join test_dir (lit "*.in")) in
        has_magic dir = false ->
        NoDup (OS.listdir w dir) ->
        (forall n, In n (OS.listdir w dir) -> file_name n = true) ->
        forall n, In n (OS.listdir w dir) -> input_name n = true ->
          exists i,
            OS.read w (entry_path test_dir n) = Ok i
            /\ dict_get (drop_last3 n ++ lit "#in/atpy") ts
               = Some (Checker i alltests)).
Proof.
  intros w test_dir ts alltests Ha Hn H.
  unfold OS.get_tests in H; rewrite Ha in H; cbn [pyres_bind] in H.
  destruct (for_each (OS.in_file_tests w alltests) (OS.glob w test_dir) [])
    as [t1|] eqn:E; [|discriminate]; cbn [pyres_bind] in H.
  assert (T : In (lit "#in/atpy") in_tags)
    by (unfold in_tags; simpl; tauto).
  assert (K : forall b, dict_get (b ++ lit "#in/atpy") ts
                        = dict_get (b ++ lit "#in/atpy") t1).
  { intros b.
    destruct (OS.isfile w (join test_dir (lit "TESTS.json")));
      [destruct (OS.load_json w (join test_dir (lit "TESTS.json")))
         as [m|]; [|discriminate]|];
      cbn [pyres_bind] in H; injection H as <-; [|reflexivity].
    apply manifest_other; intros name; apply in_key_not_json, T. }
  split; [|split].
  - intros x Hx; rewrite K.
    apply (os_loop_bulk w alltests _ Hn _ _ E x Hx).
  - intros b t Hb; rewrite K in Hb.
    destruct (os_loop_keys w alltests _ _ _ _ _ E Hb)
      as [Hc|(x & t' & Hx & Ht' & Ek)]; [discriminate|].
    exists x; split; [exact Hx|].
    apply in_key_inj in Ek; tauto.
  - intros dir Hm Hnd Hf n Hin Hi.
    assert (G := glob_literal w test_dir Hm); fold dir in G.
    assert (Hx : In (entry_path test_dir n) (OS.glob w test_dir)).
    { rewrite G; apply in_map, filter_In; auto. }
    assert (B : map base_name (OS.glob w test_dir)
                = map drop_last3 (filter input_name (OS.listdir w dir))).
    { rewrite G, map_map; apply map_ext_in; intros z Hz.
      apply filter_In in Hz; destruct Hz as [Hz1 Hz2].
      apply entry_base_name; auto. }
    assert (N : NoDup (map base_name (OS.glob w test_dir))).
    { rewrite B; apply base_names_differ.
      - apply NoDup_filter, Hnd.
      - intros z Hz; apply filter_In in Hz; tauto. }
    destruct (proj2 (os_loop_bulk w alltests _ Hn _ _ E _ Hx) N)
      as (i & Hr & Hg).
    exists i; split; [exact Hr|].
    rewrite K, <- (entry_base_name test_dir n (Hf n Hin) Hi); exact Hg.
Qed.

Lemma bulk_test_for_every_glob_result_witness :
  (forall x, In x (OS.glob OSExamples.paired_and_bulk (lit "tests")) ->
     exists i,
       dict_get (base_name x ++ lit "#in/atpy")
         [(lit "foo#in/out", Static Examples.five Examples.twenty_five);
          (lit "foo#in/atpy", Checker Examples.five Examples.square_checker)]
       = Some (Checker i Examples.square_checker))
  /\ (forall b t,
        dict_get (b ++ lit "#in/atpy")
          [(lit "foo#in/out", Static Examples.five Examples.twenty_five);
           (lit "foo#in/atpy",
            Checker Examples.five Examples.square_checker)]
        = Some t ->
        exists x, In x (OS.glob OSExamples.paired_and_bulk (lit "tests"))
                  /\ b = base_name x)
  /\ (let dir := dirname (join (lit "tests") (lit "*.in")) in
      has_magic dir = false ->
      NoDup (OS.listdir OSExamples.paired_and_bulk dir) ->
      (forall n, In n (OS.listdir OSExamples.paired_and_bulk dir) ->
                 file_name n = true) ->
      forall n, In n (OS.listdir OSExamples.paired_and_bulk dir) ->
        input_name n = true ->
        exists i,
          OS.read OSExamples.paired_and_bulk (entry_path (lit "tests") n)
          = Ok i
          /\ dict_get (drop_last3 n ++ lit "#in/atpy")
               [(lit "foo#in/out",
                 Static Examples.five Examples.twenty_five);
                (lit "foo#in/atpy",
                 Checker Examples.five Examples.square_checker)]
             = Some (Checker i Examples.square_checker)).
Proof.
  apply (bulk_test_for_every_glob_result OSExamples.paired_and_bulk
           (lit "tests") _ Examples.square_checker); reflexivity.
Defined.

(** C7 at a directory that the code can be given and on which it does
    not do what the claim says: the directory [t[1]] holds [foo.in],
    [foo.out], [foo.py] and [ALLTESTS.py], all of them files that the
    script can read and import; its name has a pattern character, the
    glob reads it as a pattern, finds no directory [t1] and returns
    nothing, and discovery returns no test at all, where the two
    neighbouring calls of [os.path.isfile] take the same path as it is
    written. *)
Theorem pattern_named_directory_yields_no_tests :
  has_magic (dirname (join (lit "t[1]") (lit "*.in"))) = true
  /\ OS.listdir OSExamples.bracket (lit "t[1]")
     = [lit "foo.in"; lit "foo.out"; lit "foo.py"; lit "ALLTESTS.py"]
  /\ OS.read OSExamples.bracket (lit "t[1]/foo.in") = Ok Examples.five
  /\ OS.read OSExamples.bracket (lit "t[1]/foo.out")
     = Ok Examples.twenty_five
  /\ OS.isfile OSExamples.bracket (lit "t[1]/foo.py") = true
  /\ OS.import_test OSExamples.bracket (lit "foo")
     = Ok Examples.output_checker
  /\ OS.isfile OSExamples.bracket (join (lit "t[1]") (lit "ALLTESTS.py"))
     = true
  /\ OS.import_alltests OSExamples.bracket (lit "t[1]")
     = Ok Examples.square_checker
  /\ OS.glob OSExamples.bracket (lit "t[1]") = []
  /\ OS.get_tests OSExamples.bracket (lit "t[1]") = Ok [].
Proof. repeat split. Qed.

(** ** Running, on the operating system *)

(** For a test whose run completes, a turn of the loop is the turn for
    the program that the process runs. *)
Lemma run_test_completed (proc : OS.process) (passed : nat)
  (item : str * test) (out : list output) :
  completes proc item ->
  OS.run_test proc passed item out
  = run_test (program_of proc) passed item out.
Proof.
  destruct item as [name t]; intros [c Hc]; cbn [snd] in Hc.
  unfold OS.run_test, run_test, OS.subprocess_run, subprocess_run,
    program_of.
  rewrite Hc; reflexivity.
Qed.


(** A run that cannot be started, or whose input or output is no UTF-8
    text, ends the loop with the exception of [subprocess.run]. *)
Lemma run_test_not_completed (proc : OS.process) (passed : nat)
  (name : str) (t : test) (out : list output) (e : exn) :
  proc (input_of t) = Raise e ->
  called_process_error passed e = None ->
  OS.run_test proc passed (name, t) out
  = (Raise e,
     out ++ [Inprogress (lit "Running " ++ test_type t ++ lit " test "
                           ++ name ++ lit "...")]).
Proof.
  intros Hp He.
  unfold OS.run_test, try_except, OS.subprocess_run; rewrite Hp.
  run_monad; rewrite He; reflexivity.
Qed.

(** C8, as the code has it: when the run of the program completes (the
    program is started, and its input and its output are UTF-8 text)
    and exits with a non-zero status, the judge is not called (the
    outcome does not depend on the expected output or on the checker,
    and no checker can raise), the test is not counted as passed, the
    diagnostic names the exit status and holds the captured standard
    output when it has at most 100 characters, and otherwise a note
    that the output is too long; the loop then goes on with the next
    test. *)
Theorem nonzero_exit_of_completed_run_is_reported :
  forall (proc : OS.process) (name : str) (t : test) (passed : nat)
         (out : list output) (c : completed),
    proc (input_of t) = Ok c ->
    returncode c <> 0%Z ->
    let out' :=
      out ++ [Inprogress (lit "Running " ++ test_type t ++ lit " test "
                            ++ name ++ lit "...");
              Error (lit "Failed!") false true;
              Error (lit " Program exited with non-zero exit code "
                       ++ str_of_Z (returncode c) ++ lit ".") false true]
          ++ (if 100 <? length (stdout c)
              then [Error (lit " (Output too long to print.)") false false]
              else [Error (lit " Output:") false false;
                    Error (lit " " ++ stdout c) false false]) in
    OS.run_test proc passed (name, t) out = (Ok passed, out')
    /\ forall rest,
         OS.for_items proc ((name, t) :: rest) passed out
         = OS.for_items proc rest passed out'.
Proof.
  intros proc name t passed out c Hc Hz out'.
  assert (R : OS.run_test proc passed (name, t) out = (Ok passed, out')).
  { rewrite run_test_completed by (exists c; exact Hc).
    assert (P : program_of proc (input_of t) = c)
      by (unfold program_of; rewrite Hc; reflexivity).
    rewrite run_test_exit_nonzero by (rewrite P; exact Hz).
    rewrite P; reflexivity. }
  split; [exact R|].
  intros rest; cbn [OS.for_items]; unfold bind; rewrite R; reflexivity.
Qed.

Lemma nonzero_exit_of_completed_run_is_reported_witness :
  OS.run_test (started Examples.crashes) 3
    (lit "t", Checker Examples.five PyNone) []
  = (Ok 3,
     [Inprogress (lit "Running checker test t...");
      Error (lit "Failed!") false true;
      Error (lit " Program exited with non-zero exit code 2.") false true;
      Error (lit " Output:") false false;
      Error (lit " oops") false false]).
Proof.
  apply (nonzero_exit_of_completed_run_is_reported
           (started Examples.crashes) (lit "t")
           (Checker Examples.five PyNone) 3 []
           (Examples.crashes Examples.five)).
  - reflexivity.
  - discriminate.
Defined.

(** A program whose output is no UTF-8 text: whatever its exit status,
    the run of the tests ends with the exception of the decoding, after
    the line that announces the first test. *)
Example undecodable_output_ends_run :
  OS.run_tests OSExamples.garbles
    [(lit "a", Static Examples.five Examples.twenty_five);
     (lit "b", Static Examples.five Examples.twenty_five)] []
  = (Raise UnicodeError, [Inprogress (lit "Running static test a...")]).
Proof. reflexivity. Qed.






(** ** The test directory given by its listing *)

Section Presented.

Variable w : OS.files.
Variable test_dir : str.
Variable d : directory.
Hypothesis shown : presents w test_dir d.

Lemma glob_in_input_name (x : str * file) :
  In x (glob_in d) -> In x d /\ input_name (fst x) = true.
Proof. intros H; apply filter_In in H; exact H. Qed.

Lemma in_file_tests_presented (a : pyobj) (tests0 : tests)
  (x : str * file) :
  In x (glob_in d) ->
  OS.in_file_tests w a tests0 (entry_path test_dir (fst x))
  = in_file_tests d a tests0 x.
Proof.
  intros Hx.
  destruct shown as (_ & _ & Hf & Hr & Hs & _).
  destruct (glob_in_input_name x Hx) as [Hd Hi].
  assert (Hn : file_name (fst x) = true) by (apply Hf, in_map, Hd).
  assert (Hb := input_name_base _ Hi).
  specialize (Hs x Hx); cbv zeta in Hs; destruct Hs as [Ho Hp].
  destruct x as [n f]; cbn [fst snd] in *.
  set (b := drop_last3 n) in *.
  assert (P := input_paths (dirname (join test_dir (lit "*.in"))) b).
  rewrite <- Hb in P; destruct (P Hn Hi) as [P1 P2]; clear P.
  assert (Po := P2 (lit "out")); assert (Pp := P2 (lit "py")); clear P2.
  change (lit "." ++ lit "out") with (lit ".out") in Po.
  change (lit "." ++ lit "py") with (lit ".py") in Pp.
  unfold OS.in_file_tests, in_file_tests; cbv zeta; cbn [fst snd].
  change (drop_last3 (basename (entry_path test_dir n)))
    with (base_name (entry_path test_dir n)).
  unfold entry_path in *; rewrite P1, Po, Pp, (Hr n f Hx).
  fold b; cbn [pyres_bind].
  destruct (dict_get (b ++ lit ".out") d) as [fo|].
  - destruct Ho as [-> ->]; cbn [pyres_bind].
    destruct (dict_get (b ++ lit ".py") d) as [fp|].
    + destruct Hp as [-> ->]; reflexivity.
    + rewrite Hp; reflexivity.
  - rewrite Ho; cbn [pyres_bind].
    destruct (dict_get (b ++ lit ".py") d) as [fp|].
    + destruct Hp as [-> ->]; reflexivity.
    + rewrite Hp; reflexivity.
Qed.

Lemma in_loop_presented (a : pyobj) (l : list (str * file)) :
  (forall x, In x l -> In x (glob_in d)) ->
  forall tests0,
    for_each (OS.in_file_tests w a)
      (map (entry_path test_dir) (map fst l)) tests0
    = for_each (in_file_tests d a) l tests0.
Proof.
  induction l as [|x l IH]; intros Hl tests0; [reflexivity|].
  cbn [map for_each].
  rewrite in_file_tests_presented by (apply Hl; left; reflexivity).
  destruct (in_file_tests d a tests0 x) as [t|]; [|reflexivity].
  cbn [pyres_bind]; apply IH; intros z Hz; apply Hl; right; exact Hz.
Qed.

(** On a test directory that the system shows with the listing [d],
    [get_tests] is the function of the listing. *)
Lemma get_tests_presented : OS.get_tests w test_dir = get_tests d.
Proof.
  assert (L := fun a => in_loop_presented a (glob_in d) (fun x H => H) []).
  destruct shown as (Hm & Hl & _ & _ & _ & Ha & Hj).
  unfold OS.get_tests, get_tests, OS.import_alltests, import_alltests.
  rewrite (glob_literal w test_dir Hm), Hl.
  assert (A : (if OS.isfile w (join test_dir (lit "ALLTESTS.py"))
               then OS.import_test w (lit "ALLTESTS") else Ok PyNone)
              = match dict_get (lit "ALLTESTS.py") d with
                | Some f => module_test f
                | None => Ok PyNone
                end).
  { destruct (dict_get (lit "ALLTESTS.py") d) as [f|].
    - destruct Ha as [-> ->]; reflexivity.
    - rewrite Ha; reflexivity. }
  rewrite A.
  destruct (match dict_get (lit "ALLTESTS.py") d with
            | Some f => module_test f
            | None => Ok PyNone
            end) as [a|]; [|reflexivity].
  cbn [pyres_bind]; rewrite L.
  destruct (for_each (in_file_tests d a) (glob_in d) []) as [t1|];
    [|reflexivity].
  cbn [pyres_bind].
  destruct (dict_get (lit "TESTS.json") d) as [f|].
  - destruct Hj as [-> ->]; reflexivity.
  - rewrite Hj; reflexivity.
Qed.

End Presented.

(** X19: in a test directory whose path has no pattern character and
    whose only input file is [foo.in], with the paired output
    [foo.out], both of them read as text, the checker module [foo.py]
    and the shared checker module [ALLTESTS.py], and without a
    manifest, discovery yields exactly three tests, one per format,
    under three different keys; and in every directory that the system
    shows with these four files among others, the three tests are all
    there, none overwritten. *)
Theorem three_tests_in_literal_directory :
  forall (w : OS.files) (test_dir inp out : str) (chk alltests : pyobj),
    has_magic (dirname (join test_dir (lit "*.in"))) = false ->
    OS.isfile w (join test_dir (lit "ALLTESTS.py")) = true ->
    OS.import_test w (lit "ALLTESTS") = Ok alltests ->
    is_not_none alltests = true ->
    (filter input_name (OS.listdir w (dirname (join test_dir (lit "*.in"))))
     = [lit "foo.in"] ->
     OS.read w (entry_path test_dir (lit "foo.in")) = Ok inp ->
     OS.isfile w (entry_path test_dir (lit "foo.out")) = true ->
     OS.read w (entry_path test_dir (lit "foo.out")) = Ok out ->
     OS.isfile w (entry_path test_dir (lit "foo.py")) = true ->
     OS.import_test w (lit "foo") = Ok chk ->
     OS.isfile w (join test_dir (lit "TESTS.json")) = false ->
     OS.get_tests w test_dir
     = Ok [(lit "foo#in/out", Static inp out);
           (lit "foo#in/py", Checker inp chk);
           (lit "foo#in/atpy", Checker inp alltests)])
    /\ NoDup [lit "foo#in/out"; lit "foo#in/py"; lit "foo#in/atpy"]
    /\ forall (d : directory) (ts : tests) (fin fout fpy : file),
         presents w test_dir d ->
         NoDup (map fst d) ->
         In (lit "foo.in", fin) d ->
         dict_get (lit "foo.out") d = Some fout ->
         dict_get (lit "foo.py") d = Some fpy ->
         OS.get_tests w test_dir = Ok ts ->
         dict_get (lit "foo#in/out") ts
         = Some (Static (content fin) (content fout))
         /\ (exists c, OS.import_test w (lit "foo") = Ok c
                       /\ dict_get (lit "foo#in/py") ts
                          = Some (Checker (content fin) c))
         /\ dict_get (lit "foo#in/atpy") ts
            = Some (Checker (content fin) alltests).
Proof.
  intros w test_dir inp out chk alltests Hm Ha Hi Hn; split; [|split].
  - intros Hl Hr Ho Hro Hp Hc Hj.
    unfold OS.get_tests, OS.import_alltests.
    rewrite Ha, Hi, Hj, (glob_literal w test_dir Hm), Hl.
    cbn [pyres_bind map for_each].
    destruct (input_paths (dirname (join test_dir (lit "*.in"))) (lit "foo")
                eq_refl eq_refl) as [P1 P2].
    assert (Po := P2 (lit "out")); assert (Pp := P2 (lit "py")); clear P2.
    change (lit "foo" ++ lit "." ++ lit "out") with (lit "foo.out") in Po.
    change (lit "foo" ++ lit "." ++ lit "py") with (lit "foo.py") in Pp.
    change (lit "foo" ++ lit ".in") with (lit "foo.in") in *.
    change (lit "." ++ lit "out") with (lit ".out") in Po.
    change (lit "." ++ lit "py") with (lit ".py") in Pp.
    unfold OS.in_file_tests; cbv zeta.
    change (drop_last3 (basename (entry_path test_dir (lit "foo.in"))))
      with (base_name (entry_path test_dir (lit "foo.in"))).
    unfold entry_path in *; rewrite P1, Po, Pp, Hr, Ho, Hro, Hp, Hc, Hn.
    reflexivity.
  - repeat constructor; simpl; intuition discriminate.
  - intros d ts fin fout fpy P Hnd Hin Hout Hpy H.
    rewrite (get_tests_presented w test_dir d P) in H.
    destruct (@get_tests_recorded d ts Hnd H) as (a & Ha' & R).
    assert (G : In (lit "foo.in", fin) (glob_in d))
      by (apply filter_In; split; [exact Hin | reflexivity]).
    destruct P as (_ & _ & _ & _ & Hs & Hall & _).
    assert (Ea : a = alltests).
    { unfold import_alltests in Ha'.
      destruct (dict_get (lit "ALLTESTS.py") d) as [f|].
      - destruct Hall as [_ E]; congruence.
      - congruence. }
    subst a.
    destruct (R _ G) as (R1 & R2 & R3).
    specialize (Hs _ G); cbv zeta in Hs; destruct Hs as [_ Hs].
    change (drop_last3 (fst (lit "foo.in", fin))) with (lit "foo") in *.
    change (lit "foo" ++ lit ".py") with (lit "foo.py") in *.
    rewrite Hpy in Hs; destruct Hs as [_ Hs].
    repeat split.
    + apply (R1 fout Hout).
    + destruct (R2 fpy Hpy) as (c & Hc & Hg).
      exists c; split; [congruence|exact Hg].
    + apply (R3 Hn).
Qed.

Lemma three_tests_in_literal_directory_witness :
  OS.get_tests OSExamples.foo (lit "tests")
  = Ok [(lit "foo#in/out", Static Examples.five Examples.twenty_five);
        (lit "foo#in/py", Checker Examples.five Examples.output_checker);
        (lit "foo#in/atpy", Checker Examples.five Examples.square_checker)].
Proof.
  apply (three_tests_in_literal_directory OSExamples.foo (lit "tests")
           Examples.five Examples.twenty_five Examples.output_checker
           Examples.square_checker); reflexivity.
Defined.

(** ** The two levels *)

Lemma for_items_started (prog : program) (items : tests) :
  forall passed out,
    OS.for_items (started prog) items passed out
    = for_items prog items passed out.
Proof.
  induction items as [|[name t] items IH]; intros passed out;
    [reflexivity|].
  cbn [OS.for_items for_items]; unfold bind.
  change (OS.run_test (started prog) passed (name, t) out)
    with (run_test prog passed (name, t) out).
  destruct (run_test prog passed (name, t) out) as [[p|e] out1];
    [apply IH|reflexivity].
Qed.

(** X20: on a test directory whose path has no pattern character, whose
    entries have plain file names, and whose input files and paired
    outputs are read as text, discovery depends on the system through
    the listing of that directory only; and with a program that is
    started at every run and whose streams are UTF-8 text, so does the
    whole run of the script. *)
Theorem discovery_depends_on_listing :
  forall (w : OS.files) (test_dir : str) (d : directory),
    presents w test_dir d ->
    OS.get_tests w test_dir = get_tests d
    /\ forall (prog : program) (out : list output),
         OS.main w test_dir (started prog) out = main d prog out.
Proof.
  intros w test_dir d P.
  assert (G := get_tests_presented w test_dir d P).
  split; [exact G|].
  intros prog out; unfold OS.main, main, OS.run_tests, run_tests.
  rewrite G; unfold bind, lift.
  destruct (get_tests d) as [ts|]; [|reflexivity].
  rewrite for_items_started; reflexivity.
Qed.

Lemma discovery_depends_on_listing_witness :
  OS.get_tests OSExamples.foo (lit "tests") = get_tests Examples.foo_dir.
Proof.
  apply (discovery_depends_on_listing OSExamples.foo (lit "tests")
           Examples.foo_dir).
  unfold presents.
  split; [reflexivity|]; split; [reflexivity|]; split; [|split; [|split]].
  - intros n [<-|[<-|[<-|[<-|[]]]]]; reflexivity.
  - intros n f [E|[]]; injection E as <- <-; reflexivity.
  - intros x [<-|[]]; repeat split.
  - repeat split.
Defined.
